(** * FastBreak AI scouting: valuation and reasoning pipeline

    A shallow embedding of the scoring core of [services/ai-scouting]:
    [src/analysis/performance_analyzer.py], [src/analysis/moment_valuator.py],
    the pydantic models they construct ([src/models/*.py]) and the
    persistence path of [src/services/reasoning_service.py].

    Python [float] values are modelled as real numbers ([R]); rounding,
    NaN and infinities of IEEE arithmetic are outside the model, except
    where a numpy division by zero can be reached, which is modelled by
    [Py.npfloat].  The theorems therefore say which formula the code
    computes, or state bounds, orders and exception conditions that
    rounding does not move: a test of a sum against zero is used only
    for summands of one sign, a bound only where it is kept by a final
    clamp or by the signs of the terms, an equality only where both
    sides are rounded alike.  Python [int] values are [Z].  Exceptions
    are values of [Py.result]. *)

From Stdlib Require Import Reals Lra Lia ZArith String Bool List.
From Stdlib Require Import Sorted Permutation.
Import ListNotations.

Local Open Scope R_scope.

(* ================================================================== *)
(** ** Python and numpy runtime                                        *)
(* ================================================================== *)

Module Py.

(** The exception classes the modelled code can raise. *)
Inductive exn : Type :=
| ValidationError
| ZeroDivisionError
| KeyError
| IndexError
| TypeError
| ValueError
| DatabaseError.

(** A computation either returns a value or raises. *)
Inductive result (A : Type) : Type :=
| Ok (a : A)
| Raise (e : exn).

Arguments Ok {A} a.
Arguments Raise {A} e.

Definition bind {A B : Type} (m : result A) (k : A -> result B) : result B :=
  match m with
  | Ok a => k a
  | Raise e => Raise e
  end.

Notation "x <- m ;; k" := (bind m (fun x => k))
  (at level 61, m at next level, right associativity).

Definition is_ok {A : Type} (m : result A) : bool :=
  match m with Ok _ => true | Raise _ => false end.

(** [[f(x) for x in l]] where [f] may raise: the first failure aborts. *)
Fixpoint map_result {A B : Type} (f : A -> result B) (l : list A)
  : result (list B) :=
  match l with
  | [] => Ok []
  | x :: l' => y <- f x ;; ys <- map_result f l' ;; Ok (y :: ys)
  end.

(** Comparisons of floats, as booleans. *)
Definition Rleb (x y : R) : bool := if Rle_dec x y then true else false.
Definition Rltb (x y : R) : bool := if Rlt_dec x y then true else false.
Definition Reqb (x y : R) : bool := if Req_dec_T x y then true else false.

(** Python's [x / y] on floats and ints. *)
Definition truediv (x y : R) : result R :=
  if Reqb y 0 then Raise ZeroDivisionError else Ok (x / y).

(** A numpy scalar: finite, or one of [nan], [inf], [-inf]. *)
Inductive npfloat : Type :=
| Finite (r : R)
| NonFinite.

(** numpy's [x / y]: a zero divisor gives a non-finite value (and a
    warning), never an exception. *)
Definition np_truediv (x y : R) : npfloat :=
  if Reqb y 0 then NonFinite else Finite (x / y).

(** Python's built-in [sum]: a left fold from [0]. *)
Definition sum (l : list R) : R := fold_left Rplus l 0.

(** [np.mean] and [np.std] (population standard deviation, [ddof = 0])
    of a non-empty list. *)
Definition np_mean (l : list R) : R := sum l / INR (length l).

Definition np_std (l : list R) : R :=
  sqrt (np_mean (map (fun x => (x - np_mean l) * (x - np_mean l)) l)).

(** [np.log10]. *)
Definition np_log10 (x : R) : R := ln x / ln 10.

(** [l[-n:]] for a positive [n]. *)
Definition last_n {A : Type} (n : nat) (l : list A) : list A :=
  skipn (length l - n) l.

(** [l[i]] for a non-negative index. *)
Definition getitem {A : Type} (l : list A) (i : nat) : result A :=
  match nth_error l i with
  | Some x => Ok x
  | None => Raise IndexError
  end.

(** [list.sort(key=..., reverse=True)] on already computed keys: a stable
    sort into descending key order. *)
Section SortDesc.
Context {A : Type} (key : A -> R).

Fixpoint insert_desc (x : A) (s : list A) : list A :=
    match s with
    | [] => [x]
    | y :: s' =>
        if Rle_dec (key y) (key x) then x :: s else y :: insert_desc x s'
    end.

Definition sort_desc (l : list A) : list A := fold_right insert_desc [] l.
End SortDesc.

(** A piece of an f-string: literal text, or a formatted number. *)
Inductive fpart : Type :=
| Text (s : string)
| FloatF (r : R)
| IntF (z : Z).

(** A string value: the pieces it was formatted from. *)
Definition text : Type := list fpart.

Definition str (s : string) : text := [Text s].

(** A dynamically typed Python value, for the places where the declared
    type of a field and the type of the value passed differ. *)
#[warnings="-register-all"] Inductive pyval : Type :=
| PyNone
| PyInt (z : Z)
| PyFloat (r : R)
| PyStr (s : text)
| PyList (l : list pyval)
| PyDict (d : list (string * pyval)).

(** [d[k]] on a dict held as an association list. *)
Fixpoint dict_get {V : Type} (d : list (string * V)) (k : string) : option V :=
  match d with
  | [] => None
  | (k', v) :: d' => if String.eqb k k' then Some v else dict_get d' k
  end.

Definition dict_getitem {V : Type} (d : list (string * V)) (k : string)
  : result V :=
  match dict_get d k with
  | Some v => Ok v
  | None => Raise KeyError
  end.

(** The number a value stands for in arithmetic; other values raise
    [TypeError]. *)
Definition as_number (v : pyval) : result R :=
  match v with
  | PyInt z => Ok (IZR z)
  | PyFloat r => Ok r
  | _ => Raise TypeError
  end.

End Py.

Import Py.

(* ================================================================== *)
(** ** pydantic field validation                                       *)
(* ================================================================== *)

Module Pydantic.

(** [Field(ge=lo, le=hi)] on a float. *)
Definition ge_le (lo hi x : R) : bool := Rleb lo x && Rleb x hi.

(** [Field(gt=0)] on a float. *)
Definition gt0 (x : R) : bool := Rltb 0 x.

(** [Field(ge=0)] on an int. *)
Definition int_ge0 (z : Z) : bool := (0 <=? z)%Z.

(** A [Dict[str, Any]] field accepts a dict and nothing else. *)
Definition is_dict (v : pyval) : bool :=
  match v with PyDict _ => true | _ => false end.

(** A [str] field accepts a string (pydantic 2, which the code base uses
    through [model_dump], does not coerce numbers to strings). *)
Definition is_str (v : pyval) : bool :=
  match v with PyStr _ => true | _ => false end.

(** The outcome of validating all fields of a model. *)
Definition validated {A : Type} (ok : bool) (a : A) : result A :=
  if ok then Ok a else Raise ValidationError.

End Pydantic.

(* ================================================================== *)
(** ** [src/models/player_stats.py]                                    *)
(* ================================================================== *)

Module GameStats.
Record t : Type := mk {
    game_id : string;
    player_id : string;
    game_date : Z;  (* the date as a day number *)
    opponent : string;
    minutes_played : R;
    points : Z;
    rebounds : Z;
    assists : Z;
    steals : Z;
    blocks : Z;
    turnovers : Z;
    field_goals_made : Z;
    field_goals_attempted : Z;
    three_pointers_made : Z;
    three_pointers_attempted : Z;
    free_throws_made : Z;
    free_throws_attempted : Z;
    personal_fouls : Z;
    plus_minus : option Z
  }.

  (** The field constraints of the class. *)
Definition valid (g : t) : bool :=
    Pydantic.ge_le 0 48 (minutes_played g)
    && Pydantic.int_ge0 (points g) && Pydantic.int_ge0 (rebounds g)
    && Pydantic.int_ge0 (assists g) && Pydantic.int_ge0 (steals g)
    && Pydantic.int_ge0 (blocks g) && Pydantic.int_ge0 (turnovers g)
    && Pydantic.int_ge0 (field_goals_made g)
    && Pydantic.int_ge0 (field_goals_attempted g)
    && Pydantic.int_ge0 (three_pointers_made g)
    && Pydantic.int_ge0 (three_pointers_attempted g)
    && Pydantic.int_ge0 (free_throws_made g)
    && Pydantic.int_ge0 (free_throws_attempted g)
    && Pydantic.int_ge0 (personal_fouls g).

Definition efficiency_rating (self : t) : Z :=
    (points self + rebounds self + assists self + steals self + blocks self
     - (field_goals_attempted self - field_goals_made self)
     - (free_throws_attempted self - free_throws_made self)
     - turnovers self)%Z.
End GameStats.

Module SeasonStats.
Record t : Type := mk {
    player_id : string;
    season : string;
    team : string;
    position : string;
    games_played : Z;
    games_started : Z;
    minutes_per_game : R;
    points_per_game : R;
    rebounds_per_game : R;
    assists_per_game : R;
    steals_per_game : R;
    blocks_per_game : R;
    turnovers_per_game : R;
    field_goal_percentage : R;
    three_point_percentage : R;
    free_throw_percentage : R;
    player_efficiency_rating : R;
    true_shooting_percentage : R;
    usage_rate : R
  }.
End SeasonStats.

(** The [player_profile] argument is a [Dict[str, Any]]; only three keys
    are read, each through [.get] with a default. *)
Module PlayerProfile.
Record t : Type := mk {
    player_id : option string;
    years_pro : option Z;
    position : option string
  }.
End PlayerProfile.

Module PlayerPerformanceMetrics.
Record t : Type := mk {
    player_id : string;
    evaluation_date : Z;
    recent_form_score : R;
    season_consistency : R;
    clutch_performance : R;
    injury_risk : R;
    market_momentum : R;
    breakout_potential : R;
    veteran_stability : R
  }.

Definition valid (m : t) : bool :=
    Pydantic.ge_le 0 100 (recent_form_score m)
    && Pydantic.ge_le 0 100 (season_consistency m)
    && Pydantic.ge_le 0 100 (clutch_performance m)
    && Pydantic.ge_le 0 100 (injury_risk m)
    && Pydantic.ge_le 0 100 (market_momentum m)
    && Pydantic.ge_le 0 100 (breakout_potential m)
    && Pydantic.ge_le 0 100 (veteran_stability m).

  (** The constructor call [PlayerPerformanceMetrics(...)]. *)
Definition new (m : t) : result t := Pydantic.validated (valid m) m.
End PlayerPerformanceMetrics.

(* ================================================================== *)
(** ** [src/analysis/performance_analyzer.py]                          *)
(* ================================================================== *)

Module PerformanceAnalyzer.

(** The per-game composite of [calculate_recent_form_score], with its cap. *)
Definition game_score (game : GameStats.t) : R :=
  let efficiency := IZR (GameStats.efficiency_rating game) in
  let minutes_factor := Rmin (GameStats.minutes_played game / 36) 1 in
  let game_score :=
    (IZR (GameStats.points game) / 30 * 25
     + IZR (GameStats.rebounds game) / 15 * 15
     + IZR (GameStats.assists game) / 12 * 15
     + IZR (GameStats.steals game) / 4 * 10
     + IZR (GameStats.blocks game) / 4 * 10
     + efficiency / 30 * 25) * minutes_factor in
  Rmin game_score 100.

(** [[1.0 / (i + 1) for i in range(n)]]. *)
Definition default_weights (n : nat) : list R :=
  map (fun i => 1 / (INR i + 1)) (seq 0 n).

(** [[w / total_weight for w in weights]].  [Py.sum] is the exact sum;
    the sum the code computes is rounded, and the two agree on being
    zero when the weights have one sign. *)
Definition normalize_weights (weights : list R) : result (list R) :=
  let total_weight := Py.sum weights in
  map_result (fun w => truediv w total_weight) weights.

(** The loop over [enumerate(recent_games)], from index [i]. *)
Fixpoint weighted_scores (recent_games : list GameStats.t) (weights : list R)
  (i : nat) : result (list R) :=
  match recent_games with
  | [] => Ok []
  | game :: rest =>
      w <- getitem weights i ;;
      scores <- weighted_scores rest weights (S i) ;;
      Ok (game_score game * w :: scores)
  end.

Definition calculate_recent_form_score (recent_games : list GameStats.t)
  (weights : option (list R)) : result R :=
  match recent_games with
  | [] => Ok 50
  | _ =>
      let weights :=
        match weights with
        | None => default_weights (length recent_games)
        | Some ws => ws
        end in
      weights <- normalize_weights weights ;;
      weighted_scores <- weighted_scores recent_games weights 0 ;;
      Ok (Py.sum weighted_scores)
  end.

Definition coefficient_of_variation (values : list R) : R :=
  match values with
  | [] => 1
  | _ => if Reqb (np_mean values) 0 then 1
         else np_std values / np_mean values
  end.

Definition calculate_season_consistency (season_stats : SeasonStats.t)
  (recent_games : list GameStats.t) : R :=
  if (length recent_games <? 5)%nat then 50
  else
    let points := map (fun game => IZR (GameStats.points game)) recent_games in
    let rebounds := map (fun game => IZR (GameStats.rebounds game)) recent_games in
    let assists := map (fun game => IZR (GameStats.assists game)) recent_games in
    let points_cv := coefficient_of_variation points in
    let rebounds_cv := coefficient_of_variation rebounds in
    let assists_cv := coefficient_of_variation assists in
    let avg_cv := (points_cv + rebounds_cv + assists_cv) / 3 in
    Rmax 0 (100 - avg_cv * 100).

(** The list [clutch_scores] built by the loop. *)
Fixpoint clutch_scores (recent_games : list GameStats.t) : list R :=
  match recent_games with
  | [] => []
  | game :: rest =>
      match GameStats.plus_minus game with
      | Some pm => Rmax 0 (Rmin 100 (50 + IZR pm * 2)) :: clutch_scores rest
      | None => clutch_scores rest
      end
  end.

Definition calculate_clutch_performance (recent_games : list GameStats.t) : R :=
  match recent_games with
  | [] => 50
  | _ =>
      match clutch_scores recent_games with
      | [] => 50
      | scores => np_mean scores
      end
  end.

Definition get_years_pro (player_profile : PlayerProfile.t) : Z :=
  match PlayerProfile.years_pro player_profile with
  | Some y => y
  | None => 5%Z
  end.

Definition calculate_breakout_potential (player_profile : PlayerProfile.t)
  (season_stats : SeasonStats.t) : R :=
  let breakout_score := 50 in
  let years_pro := get_years_pro player_profile in
  let breakout_score :=
    if (years_pro <=? 2)%Z then breakout_score + 20
    else if (years_pro <=? 4)%Z then breakout_score + 10
    else if (10 <=? years_pro)%Z then breakout_score - 10
    else breakout_score in
  let breakout_score :=
    if Rltb 0.25 (SeasonStats.usage_rate season_stats) then breakout_score + 15
    else if Rltb (SeasonStats.usage_rate season_stats) 0.15
         then breakout_score - 10
    else breakout_score in
  let breakout_score :=
    if Rltb 20 (SeasonStats.player_efficiency_rating season_stats)
    then breakout_score + 10
    else if Rltb (SeasonStats.player_efficiency_rating season_stats) 15
         then breakout_score - 10
    else breakout_score in
  let breakout_score :=
    if Rltb 30 (SeasonStats.minutes_per_game season_stats)
    then breakout_score + 10
    else if Rltb (SeasonStats.minutes_per_game season_stats) 20
         then breakout_score - 15
    else breakout_score in
  Rmax 0 (Rmin 100 breakout_score).

Definition calculate_veteran_stability (player_profile : PlayerProfile.t)
  (season_stats : SeasonStats.t) : R :=
  let stability_score := 50 in
  let years_pro := get_years_pro player_profile in
  let stability_score :=
    if (8 <=? years_pro)%Z then stability_score + 20
    else if (5 <=? years_pro)%Z then stability_score + 10
    else stability_score - 10 in
  let stability_score :=
    if Rltb 18 (SeasonStats.player_efficiency_rating season_stats)
    then stability_score + 15
    else if Rltb (SeasonStats.player_efficiency_rating season_stats) 12
         then stability_score - 15
    else stability_score in
  let stability_score :=
    if (70 <? SeasonStats.games_played season_stats)%Z
    then stability_score + 10
    else if (SeasonStats.games_played season_stats <? 50)%Z
         then stability_score - 20
    else stability_score in
  Rmax 0 (Rmin 100 stability_score).

Definition estimate_injury_risk (player_profile : PlayerProfile.t)
  (season_stats : SeasonStats.t) (recent_games : list GameStats.t) : R :=
  let risk_score := 20 in
  let years_pro := get_years_pro player_profile in
  let risk_score :=
    if (12 <=? years_pro)%Z then risk_score + 20
    else if (8 <=? years_pro)%Z then risk_score + 10
    else risk_score in
  let risk_score :=
    if Rltb 36 (SeasonStats.minutes_per_game season_stats)
    then risk_score + 15
    else if Rltb 32 (SeasonStats.minutes_per_game season_stats)
         then risk_score + 5
    else risk_score in
  let risk_score :=
    if (SeasonStats.games_played season_stats <? 60)%Z then risk_score + 20
    else if (SeasonStats.games_played season_stats <? 70)%Z
         then risk_score + 10
    else risk_score in
  let position :=
    match PlayerProfile.position player_profile with
    | Some p => p
    | None => "PG"%string
    end in
  let risk_score :=
    if String.eqb position "C" || String.eqb position "PF"
    then risk_score + 10
    else risk_score in
  Rmax 0 (Rmin 100 risk_score).

(** [now] is the value of [datetime.now()]. *)
Definition analyze_player_performance (now : Z)
  (player_profile : PlayerProfile.t) (season_stats : SeasonStats.t)
  (recent_games : list GameStats.t) : result PlayerPerformanceMetrics.t :=
  recent_form <- calculate_recent_form_score recent_games None ;;
  let consistency := calculate_season_consistency season_stats recent_games in
  let clutch_perf := calculate_clutch_performance recent_games in
  let injury_risk := estimate_injury_risk player_profile season_stats recent_games in
  let market_momentum := 50 in
  let breakout_potential := calculate_breakout_potential player_profile season_stats in
  let veteran_stability := calculate_veteran_stability player_profile season_stats in
  PlayerPerformanceMetrics.new
    (PlayerPerformanceMetrics.mk
       (match PlayerProfile.player_id player_profile with
        | Some s => s
        | None => ""%string
        end)
       now recent_form consistency clutch_perf injury_risk market_momentum
       breakout_potential veteran_stability).

(** The dict returned by [predict_next_game_performance]. *)
Module Prediction.
Record t : Type := mk {
    predicted_points : npfloat;
    predicted_rebounds : R;
    predicted_assists : npfloat;
    confidence : R
  }.
End Prediction.

Definition predict_next_game_performance (player_profile : PlayerProfile.t)
  (season_stats : SeasonStats.t) (recent_games : list GameStats.t)
  (opponent_defense_rating : R) : Prediction.t :=
  match recent_games with
  | [] =>
      Prediction.mk
        (Finite (SeasonStats.points_per_game season_stats))
        (SeasonStats.rebounds_per_game season_stats)
        (Finite (SeasonStats.assists_per_game season_stats))
        0.5
  | _ =>
      let recent_points :=
        np_mean (map (fun game => IZR (GameStats.points game))
                     (last_n 5 recent_games)) in
      let recent_rebounds :=
        np_mean (map (fun game => IZR (GameStats.rebounds game))
                     (last_n 5 recent_games)) in
      let recent_assists :=
        np_mean (map (fun game => IZR (GameStats.assists game))
                     (last_n 5 recent_games)) in
      let league_avg_defense := 112 in
      let difficulty_factor := opponent_defense_rating / league_avg_defense in
      let predicted_points := np_truediv recent_points difficulty_factor in
      let predicted_rebounds := recent_rebounds in
      let predicted_assists :=
        np_truediv recent_assists (difficulty_factor * 0.5) in
      let points_std :=
        np_std (map (fun game => IZR (GameStats.points game))
                    (last_n 10 recent_games)) in
      (* [max(0.3, 1.0 - points_std / recent_points)]: a zero average makes
         the quotient [inf] or [nan], the difference [-inf] or [nan], and
         [max] then keeps its first argument. *)
      let confidence :=
        match np_truediv points_std recent_points with
        | Finite q => Rmax 0.3 (1 - q)
        | NonFinite => 0.3
        end in
      Prediction.mk predicted_points predicted_rebounds predicted_assists
        confidence
  end.

End PerformanceAnalyzer.

(* ================================================================== *)
(** ** [src/models/moment_analysis.py]                                 *)
(* ================================================================== *)

Module MomentType.
Inductive t : Type :=
  | DUNK | THREE_POINTER | ASSIST | STEAL | BLOCK | REBOUND
  | GAME_WINNER | MILESTONE.

Definition value (m : t) : string :=
    match m with
    | DUNK => "dunk"
    | THREE_POINTER => "three_pointer"
    | ASSIST => "assist"
    | STEAL => "steal"
    | BLOCK => "block"
    | REBOUND => "rebound"
    | GAME_WINNER => "game_winner"
    | MILESTONE => "milestone"
    end%string.
End MomentType.

Module MomentAnalysisRequest.
Record t : Type := mk {
    moment_id : string;
    player_id : string;
    moment_type : MomentType.t;
    game_date : Z;
    serial_number : Z;
    current_price : R;
    marketplace_id : string
  }.

Definition valid (r : t) : bool := Pydantic.gt0 (current_price r).

  (** The request with another serial number, all else equal. *)
Definition with_serial_number (r : t) (serial : Z) : t :=
    mk (moment_id r) (player_id r) (moment_type r) (game_date r) serial
       (current_price r) (marketplace_id r).
End MomentAnalysisRequest.

Module MomentValuation.
Record t : Type := mk {
    moment_id : string;
    fair_value : R;
    confidence_score : R;
    price_range_low : R;
    price_range_high : R;
    recommendation : string;
    analysis_timestamp : Z
  }.

Definition valid (v : t) : bool :=
    Pydantic.gt0 (fair_value v)
    && Pydantic.ge_le 0 1 (confidence_score v)
    && Pydantic.gt0 (price_range_low v)
    && Pydantic.gt0 (price_range_high v).

Definition new (v : t) : result t := Pydantic.validated (valid v) v.
End MomentValuation.

Module ValuationResult.
Record t : Type := mk {
    fair_value : R;
    confidence_score : R;
    recommendation : string;
    upside_potential : R;
    risk_score : R
  }.
End ValuationResult.

(** An entry of [price_history]: a dict read through [p['price']] and
    [p.get('volume', 0)]. *)
Module PricePoint.
Record t : Type := mk {
    price : option R;
    volume : option R
  }.
End PricePoint.

(** An entry of [comparable_sales]: a dict read through [sale['price']]. *)
Module Sale.
Record t : Type := mk { price : option R }.
End Sale.

(** [ValuationFactor] and its four subclasses: the shared fields, and the
    fields a subclass adds. *)
Module ValuationFactor.
Inductive extra : Type :=
  | Base
  | PlayerPerformance (recent_games_performance : list (string * pyval))
      (season_performance : list (string * pyval))
      (career_trajectory : text) (clutch_performance : R)
  | Scarcity (serial_number_rarity moment_type_rarity : R)
      (player_moment_count total_circulation : Z)
  | MarketTrend (price_momentum volume_trend market_sentiment : R)
      (comparable_sales : list Sale.t)
  | SocialSentiment (social_mentions : Z) (sentiment_score : R)
      (viral_potential : R) (influencer_mentions : Z).

Record t : Type := mk {
    factor_type : string;
    weight : R;
    value : R;
    description : text;
    impact : R;
    fields : extra
  }.

  (** The constraints of the base class: [weight] in [0,1], [impact] in
      [-100,100]; [value] is unconstrained. *)
Definition base_valid (weight impact : R) : bool :=
    Pydantic.ge_le 0 1 weight && Pydantic.ge_le (-100) 100 impact.
End ValuationFactor.

(** The constructor call [PlayerPerformanceFactor(...)]; the three
    structured fields are taken as the caller passes them. *)
Definition PlayerPerformanceFactor (factor_type : string) (weight value : R)
  (description : text) (impact : R)
  (recent_games_performance season_performance career_trajectory : pyval)
  (clutch_performance : R) : result ValuationFactor.t :=
  match recent_games_performance, season_performance, career_trajectory with
  | PyDict recent, PyDict season, PyStr trajectory =>
      Pydantic.validated
        (ValuationFactor.base_valid weight impact
         && Pydantic.ge_le 0 1 clutch_performance)
        (ValuationFactor.mk factor_type weight value description impact
           (ValuationFactor.PlayerPerformance recent season trajectory
              clutch_performance))
  | _, _, _ => Raise ValidationError
  end.

(** The constructor call [ScarcityFactor(...)]. *)
Definition ScarcityFactor (factor_type : string) (weight value : R)
  (description : text) (impact : R)
  (serial_number_rarity moment_type_rarity : R)
  (player_moment_count total_circulation : Z) : result ValuationFactor.t :=
  Pydantic.validated
    (ValuationFactor.base_valid weight impact
     && Pydantic.ge_le 0 1 serial_number_rarity
     && Pydantic.ge_le 0 1 moment_type_rarity
     && Pydantic.int_ge0 player_moment_count
     && Pydantic.int_ge0 total_circulation)
    (ValuationFactor.mk factor_type weight value description impact
       (ValuationFactor.Scarcity serial_number_rarity moment_type_rarity
          player_moment_count total_circulation)).

(** The constructor call [MarketTrendFactor(...)]. *)
Definition MarketTrendFactor (factor_type : string) (weight value : R)
  (description : text) (impact : R)
  (price_momentum volume_trend market_sentiment : R)
  (comparable_sales : list Sale.t) : result ValuationFactor.t :=
  Pydantic.validated
    (ValuationFactor.base_valid weight impact
     && Pydantic.ge_le (-100) 100 price_momentum
     && Pydantic.ge_le (-100) 100 volume_trend
     && Pydantic.ge_le (-1) 1 market_sentiment)
    (ValuationFactor.mk factor_type weight value description impact
       (ValuationFactor.MarketTrend price_momentum volume_trend
          market_sentiment comparable_sales)).

(** The constructor call [SocialSentimentFactor(...)]. *)
Definition SocialSentimentFactor (factor_type : string) (weight value : R)
  (description : text) (impact : R)
  (social_mentions : Z) (sentiment_score viral_potential : R)
  (influencer_mentions : Z) : result ValuationFactor.t :=
  Pydantic.validated
    (ValuationFactor.base_valid weight impact
     && Pydantic.int_ge0 social_mentions
     && Pydantic.ge_le (-1) 1 sentiment_score
     && Pydantic.ge_le 0 100 viral_potential
     && Pydantic.int_ge0 influencer_mentions)
    (ValuationFactor.mk factor_type weight value description impact
       (ValuationFactor.SocialSentiment social_mentions sentiment_score
          viral_potential influencer_mentions)).

Module MomentAnalysisResult.
Record t : Type := mk {
    moment_id : string;
    player_id : string;
    valuation : ValuationResult.t;
    factors : list ValuationFactor.t;
    player_analysis : list (string * pyval);
    market_analysis : list (string * pyval);
    risk_assessment : list (string * pyval);
    timestamp : Z;
    recommendations : list text;
    analysis_metadata : list (string * pyval)
  }.

  (** What a caller may pass for the [valuation] field. *)
Inductive valuation_arg : Type :=
  | AValuationResult (v : ValuationResult.t)
  | AMomentValuation (v : MomentValuation.t).

  (** The constructor call [MomentAnalysisResult(...)]: [player_id],
      [valuation] and [timestamp] are required fields ([None] stands for
      a keyword the caller leaves out), and [valuation] must be a
      [ValuationResult]. *)
Definition new (moment_id : string) (player_id : option string)
    (valuation : valuation_arg) (factors : list ValuationFactor.t)
    (player_analysis market_analysis risk_assessment : list (string * pyval))
    (timestamp : option Z) (recommendations : list text)
    (analysis_metadata : list (string * pyval)) : result t :=
    match player_id, valuation, timestamp with
    | Some pid, AValuationResult v, Some ts =>
        Ok (mk moment_id pid v factors player_analysis market_analysis
              risk_assessment ts recommendations analysis_metadata)
    | _, _, _ => Raise ValidationError
    end.
End MomentAnalysisResult.

(** [market_data] is a [Dict[str, Any]] read only through [.get] of these
    six keys; [None] stands for an absent key. *)
Module MarketData.
Record t : Type := mk {
  total_moments_for_player : option Z;
  total_circulation : option Z;
  price_history : option (list PricePoint.t);
  comparable_sales : option (list Sale.t);
  volatility : option R;
  liquidity_risk : option R
}.

(** The empty dict [{}]. *)
Definition empty : t := mk None None None None None None.
End MarketData.

(** [social_data] is a [Dict[str, Any]] read only through [.get] of these
    four keys. *)
Module SocialData.
Record t : Type := mk {
  mentions : option Z;
  sentiment : option R;
  viral_score : option R;
  influencer_mentions : option Z
}.

(** Truth value of the dict: the empty dict is false. *)
Definition truthy (d : t) : bool :=
  match mentions d, sentiment d, viral_score d, influencer_mentions d with
  | None, None, None, None => false
  | _, _, _, _ => true
  end.
End SocialData.

(* ================================================================== *)
(** ** [src/analysis/moment_valuator.py]                               *)
(* ================================================================== *)

Module MomentValuator.

(** [self.factor_weights]. *)
Definition factor_weights : list (string * R) :=
  [ ("player_performance", 0.35);
    ("scarcity", 0.25);
    ("market_trend", 0.20);
    ("social_sentiment", 0.20) ]%string.

(** [self.factor_weights[k]] for one of the four keys above. *)
Definition factor_weight (k : string) : R :=
  match dict_get factor_weights k with
  | Some w => w
  | None => 0
  end.

(** The local [serial_rarity] of [calculate_scarcity_factor]. *)
Definition serial_rarity (moment_request : MomentAnalysisRequest.t) : R :=
  let serial_rarity :=
    Rmax 0 (100 - IZR (MomentAnalysisRequest.serial_number moment_request)
                  / 1000 * 100) in
  Rmin 100 serial_rarity.

Definition moment_type_scores : list (string * Z) :=
  [ ("dunk", 85); ("game_winner", 95); ("milestone", 90);
    ("three_pointer", 70); ("assist", 60); ("steal", 75);
    ("block", 80); ("rebound", 50) ]%string%Z.

(** The local [moment_type_rarity] of [calculate_scarcity_factor]. *)
Definition moment_type_rarity (moment_request : MomentAnalysisRequest.t) : Z :=
  match dict_get moment_type_scores
          (MomentType.value (MomentAnalysisRequest.moment_type moment_request))
  with
  | Some score => score
  | None => 60%Z
  end.

Definition calculate_scarcity_factor
  (moment_request : MomentAnalysisRequest.t)
  (total_moments_for_player total_circulation : Z)
  : result ValuationFactor.t :=
  let serial_rarity := serial_rarity moment_request in
  let moment_type_rarity := moment_type_rarity moment_request in
  let player_scarcity :=
    Rmin 100 (Rmax 0 (100 - IZR total_moments_for_player / 100 * 100)) in
  let circulation_scarcity :=
    Rmin 100 (Rmax 0 (100 - IZR total_circulation / 10000 * 100)) in
  let overall_scarcity :=
    serial_rarity * 0.4 + IZR moment_type_rarity * 0.3
    + player_scarcity * 0.2 + circulation_scarcity * 0.1 in
  let impact := (overall_scarcity - 50) * 1.5 in
  ScarcityFactor "scarcity" (factor_weight "scarcity")
    (overall_scarcity / 100)
    [Text "Scarcity analysis: Serial #";
     IntF (MomentAnalysisRequest.serial_number moment_request);
     Text " ("; FloatF serial_rarity; Text "/100), ";
     Text (MomentType.value (MomentAnalysisRequest.moment_type moment_request));
     Text " ("; IntF moment_type_rarity;
     Text "/100), Player moments: "; IntF total_moments_for_player]
    impact serial_rarity (IZR moment_type_rarity)
    total_moments_for_player total_circulation.

(** [(l[0], l[-1])] of a non-empty list. *)
Definition first_last (l : list R) : option (R * R) :=
  match l with
  | [] => None
  | x :: _ => Some (x, last l x)
  end.

Definition calculate_market_trend_factor
  (moment_request : MomentAnalysisRequest.t)
  (price_history : list PricePoint.t) (comparable_sales : list Sale.t)
  : result ValuationFactor.t :=
  match price_history with
  | [] =>
      MarketTrendFactor "market_trend" (factor_weight "market_trend") 0.5
        (str "No price history available") 0 0 0 0 []
  | _ =>
      recent_prices <-
        map_result (fun p => match PricePoint.price p with
                             | Some x => Ok x
                             | None => Raise KeyError
                             end) (last_n 10 price_history) ;;
      price_momentum <-
        (match first_last recent_prices with
         | Some (first, final) =>
             if (2 <=? length recent_prices)%nat then
               q <- truediv (final - first) first ;;
               Ok (Rmax (-100) (Rmin 100 (q * 100)))
             else Ok 0
         | None => Ok 0
         end) ;;
      let recent_volumes :=
        map (fun p => match PricePoint.volume p with
                      | Some v => v
                      | None => 0
                      end) (last_n 10 price_history) in
      let volume_trend :=
        match first_last recent_volumes with
        | Some (first, final) =>
            if (2 <=? length recent_volumes)%nat
               && Rltb 0 (Py.sum recent_volumes) then
              Rmax (-100) (Rmin 100 ((final - first) / Rmax first 1 * 100))
            else 0
        | None => 0
        end in
      market_sentiment <-
        (match comparable_sales with
         | [] => Ok 0
         | _ =>
             prices <- map_result (fun sale => match Sale.price sale with
                                               | Some x => Ok x
                                               | None => Raise KeyError
                                               end) comparable_sales ;;
             let avg_comparable_price := np_mean prices in
             let current_price :=
               MomentAnalysisRequest.current_price moment_request in
             (* a zero mean makes the numpy quotient [inf], [-inf] or
                [nan]; [max(-1, min(1, .))] maps these to 1, -1 and 1 *)
             match np_truediv (current_price - avg_comparable_price)
                     avg_comparable_price with
             | Finite sentiment => Ok (Rmax (-1) (Rmin 1 sentiment))
             | NonFinite =>
                 Ok (if Rltb (current_price - avg_comparable_price) 0
                     then -1 else 1)
             end
         end) ;;
      let trend_score :=
        (price_momentum + 100) / 2 * 0.4
        + (volume_trend + 100) / 2 * 0.3
        + (market_sentiment + 1) * 50 * 0.3 in
      let impact := (trend_score - 50) * 1.2 in
      MarketTrendFactor "market_trend" (factor_weight "market_trend")
        (trend_score / 100)
        [Text "Market trend: Price momentum "; FloatF price_momentum;
         Text "%, Volume trend "; FloatF volume_trend;
         Text "%, Market sentiment "; FloatF market_sentiment]
        impact price_momentum volume_trend market_sentiment comparable_sales
  end.

(** The payload substituted for missing social data. *)
Definition default_social_data : SocialData.t :=
  SocialData.mk (Some 100%Z) (Some 0.1) (Some 30) (Some 5%Z).

Definition calculate_social_sentiment_factor (player_id : string)
  (social_data : option SocialData.t) : result ValuationFactor.t :=
  let social_data :=
    match social_data with
    | Some d => if SocialData.truthy d then d else default_social_data
    | None => default_social_data
    end in
  let mentions :=
    match SocialData.mentions social_data with Some m => m | None => 0%Z end in
  let sentiment :=
    match SocialData.sentiment social_data with Some s => s | None => 0 end in
  let viral_score :=
    match SocialData.viral_score social_data with Some v => v | None => 0 end in
  let influencer_mentions :=
    match SocialData.influencer_mentions social_data with
    | Some m => m
    | None => 0%Z
    end in
  let mentions_score := Rmin 100 (np_log10 (IZR (Z.max 1 mentions)) * 20) in
  let sentiment_score := (sentiment + 1) * 50 in
  let social_score :=
    mentions_score * 0.3 + sentiment_score * 0.4 + viral_score * 0.2
    + Rmin 100 (IZR influencer_mentions * 10) * 0.1 in
  let impact := (social_score - 50) * 0.8 in
  SocialSentimentFactor "social_sentiment" (factor_weight "social_sentiment")
    (social_score / 100)
    [Text "Social sentiment: "; IntF mentions; Text " mentions, sentiment ";
     FloatF sentiment; Text ", viral score "; FloatF viral_score]
    impact mentions sentiment viral_score influencer_mentions.

(** The accumulation loop of [calculate_fair_value]: the pair
    [(total_impact, total_weight)] after the factors seen so far. *)
Definition accumulate (acc : R * R) (factor : ValuationFactor.t) : R * R :=
  let weighted_impact :=
    ValuationFactor.impact factor * ValuationFactor.weight factor in
  (fst acc + weighted_impact, snd acc + ValuationFactor.weight factor).

(** The sums, the quotient and the product are exact here and rounded
    in the code; the clamp of the confidence is the same in both. *)
Definition calculate_fair_value (factors : list ValuationFactor.t)
  (base_price : R) : R * R :=
  let totals := fold_left accumulate factors (0, 0) in
  let total_impact := fst totals in
  let total_weight := snd totals in
  let avg_impact :=
    if Rltb 0 total_weight then total_impact / total_weight else 0 in
  let impact_multiplier := 1 + avg_impact / 100 in
  let fair_value := base_price * impact_multiplier in
  let factor_values := map ValuationFactor.value factors in
  let confidence :=
    if (1 <? length factor_values)%nat then
      let consistency := 1 - np_std factor_values in
      Rmax 0.3 (Rmin 1.0 consistency)
    else 0.5 in
  (fair_value, confidence).

(** The threshold chain of [analyze_moment] on [price_ratio]. *)
Definition recommendation_for (price_ratio : R) : string :=
  if Rltb 1.2 price_ratio then "Strong Buy"
  else if Rltb 1.05 price_ratio then "Buy"
  else if Rltb 0.95 price_ratio then "Hold"
  else if Rltb 0.8 price_ratio then "Sell"
  else "Strong Sell".

Definition _create_performance_factor
  (performance_metrics : PlayerPerformanceMetrics.t)
  : result ValuationFactor.t :=
  let overall_score :=
    PlayerPerformanceMetrics.recent_form_score performance_metrics * 0.4
    + PlayerPerformanceMetrics.season_consistency performance_metrics * 0.3
    + PlayerPerformanceMetrics.clutch_performance performance_metrics * 0.3 in
  let impact := (overall_score - 50) * 1.5 in
  PlayerPerformanceFactor "player_performance"
    (factor_weight "player_performance") (overall_score / 100)
    [Text "Player performance: Recent form ";
     FloatF (PlayerPerformanceMetrics.recent_form_score performance_metrics);
     Text ", Consistency ";
     FloatF (PlayerPerformanceMetrics.season_consistency performance_metrics);
     Text ", Clutch ";
     FloatF (PlayerPerformanceMetrics.clutch_performance performance_metrics)]
    impact
    (PyFloat (PlayerPerformanceMetrics.recent_form_score performance_metrics))
    (PyFloat (PlayerPerformanceMetrics.season_consistency performance_metrics))
    (PyFloat (PlayerPerformanceMetrics.breakout_potential performance_metrics))
    (PlayerPerformanceMetrics.clutch_performance performance_metrics).

Definition _generate_recommendations
  (moment_request : MomentAnalysisRequest.t) (valuation : MomentValuation.t)
  (factors : list ValuationFactor.t) : result (list text) :=
  let fair_value := MomentValuation.fair_value valuation in
  let current_price := MomentAnalysisRequest.current_price moment_request in
  price_ratio <- truediv fair_value current_price ;;
  let price_based :=
    if Rltb 1.2 price_ratio then
      [[Text "Strong buy opportunity: Fair value $"; FloatF fair_value;
        Text " vs current $"; FloatF current_price]]
    else if Rltb price_ratio 0.8 then
      [[Text "Consider selling: Current price $"; FloatF current_price;
        Text " above fair value $"; FloatF fair_value]]
    else [] in
  let factor_based :=
    flat_map
      (fun factor =>
         if Rltb 20 (ValuationFactor.impact factor) then
           [Text "Positive " :: Text (ValuationFactor.factor_type factor)
              :: Text ": " :: ValuationFactor.description factor]
         else if Rltb (ValuationFactor.impact factor) (-20) then
           [Text "Negative " :: Text (ValuationFactor.factor_type factor)
              :: Text ": " :: ValuationFactor.description factor]
         else [])
      factors in
  let confidence_based :=
    if Rltb (MomentValuation.confidence_score valuation) 0.5 then
      [str "Low confidence analysis - consider waiting for more data"]
    else if Rltb 0.8 (MomentValuation.confidence_score valuation) then
      [str "High confidence analysis - strong signal for action"]
    else [] in
  Ok (price_based ++ factor_based ++ confidence_based).

(** [model.dict()] of the two models [analyze_moment] dumps. *)
Definition metrics_dict (m : PlayerPerformanceMetrics.t) : pyval :=
  PyDict
    [ ("player_id", PyStr (str (PlayerPerformanceMetrics.player_id m)));
      ("evaluation_date", PyInt (PlayerPerformanceMetrics.evaluation_date m));
      ("recent_form_score", PyFloat (PlayerPerformanceMetrics.recent_form_score m));
      ("season_consistency", PyFloat (PlayerPerformanceMetrics.season_consistency m));
      ("clutch_performance", PyFloat (PlayerPerformanceMetrics.clutch_performance m));
      ("injury_risk", PyFloat (PlayerPerformanceMetrics.injury_risk m));
      ("market_momentum", PyFloat (PlayerPerformanceMetrics.market_momentum m));
      ("breakout_potential", PyFloat (PlayerPerformanceMetrics.breakout_potential m));
      ("veteran_stability", PyFloat (PlayerPerformanceMetrics.veteran_stability m))
    ]%string.

Definition sale_dict (s : Sale.t) : pyval :=
  match Sale.price s with
  | Some p => PyDict [("price"%string, PyFloat p)]
  | None => PyDict []
  end.

Definition factor_dict (f : ValuationFactor.t) : pyval :=
  PyDict
    (app
     [ ("factor_type", PyStr (str (ValuationFactor.factor_type f)));
       ("weight", PyFloat (ValuationFactor.weight f));
       ("value", PyFloat (ValuationFactor.value f));
       ("description", PyStr (ValuationFactor.description f));
       ("impact", PyFloat (ValuationFactor.impact f)) ]
     match ValuationFactor.fields f with
     | ValuationFactor.Base => []
     | ValuationFactor.PlayerPerformance recent season trajectory clutch =>
         [ ("recent_games_performance", PyDict recent);
           ("season_performance", PyDict season);
           ("career_trajectory", PyStr trajectory);
           ("clutch_performance", PyFloat clutch) ]
     | ValuationFactor.Scarcity serial type_rarity count circulation =>
         [ ("serial_number_rarity", PyFloat serial);
           ("moment_type_rarity", PyFloat type_rarity);
           ("player_moment_count", PyInt count);
           ("total_circulation", PyInt circulation) ]
     | ValuationFactor.MarketTrend momentum volume sentiment sales =>
         [ ("price_momentum", PyFloat momentum);
           ("volume_trend", PyFloat volume);
           ("market_sentiment", PyFloat sentiment);
           ("comparable_sales", PyList (map sale_dict sales)) ]
     | ValuationFactor.SocialSentiment mentions sentiment viral influencers =>
         [ ("social_mentions", PyInt mentions);
           ("sentiment_score", PyFloat sentiment);
           ("viral_potential", PyFloat viral);
           ("influencer_mentions", PyInt influencers) ]
     end)%string.

Definition get_default {A : Type} (o : option A) (default : A) : A :=
  match o with Some a => a | None => default end.

(** [now] is the value of [datetime.now()]. *)
Definition analyze_moment (now : Z)
  (moment_request : MomentAnalysisRequest.t)
  (player_performance : PlayerPerformanceMetrics.t)
  (market_data : MarketData.t) (social_data : option SocialData.t)
  : result MomentAnalysisResult.t :=
  performance_factor <- _create_performance_factor player_performance ;;
  scarcity_factor <-
    calculate_scarcity_factor moment_request
      (get_default (MarketData.total_moments_for_player market_data) 50%Z)
      (get_default (MarketData.total_circulation market_data) 1000%Z) ;;
  market_factor <-
    calculate_market_trend_factor moment_request
      (get_default (MarketData.price_history market_data) [])
      (get_default (MarketData.comparable_sales market_data) []) ;;
  sentiment_factor <-
    calculate_social_sentiment_factor
      (MomentAnalysisRequest.player_id moment_request) social_data ;;
  let factors :=
    [performance_factor; scarcity_factor; market_factor; sentiment_factor] in
  let current_price := MomentAnalysisRequest.current_price moment_request in
  let fair_value := fst (calculate_fair_value factors current_price) in
  let confidence := snd (calculate_fair_value factors current_price) in
  price_ratio <- truediv fair_value current_price ;;
  let recommendation := recommendation_for price_ratio in
  valuation <-
    MomentValuation.new
      (MomentValuation.mk (MomentAnalysisRequest.moment_id moment_request)
         fair_value confidence (fair_value * 0.85) (fair_value * 1.15)
         recommendation now) ;;
  recommendations <-
    _generate_recommendations moment_request valuation factors ;;
  MomentAnalysisResult.new
    (MomentAnalysisRequest.moment_id moment_request)
    None
    (MomentAnalysisResult.AMomentValuation valuation)
    factors
    [ ("performance_metrics", metrics_dict player_performance);
      ("recent_form",
       PyFloat (PlayerPerformanceMetrics.recent_form_score player_performance));
      ("consistency",
       PyFloat (PlayerPerformanceMetrics.season_consistency player_performance))
    ]%string
    [ ("current_price", PyFloat current_price);
      ("fair_value", PyFloat fair_value);
      ("price_ratio", PyFloat price_ratio);
      ("market_trend", factor_dict market_factor) ]%string
    [ ("confidence", PyFloat confidence);
      ("price_volatility",
       PyFloat (get_default (MarketData.volatility market_data) 0.2));
      ("liquidity_risk",
       PyFloat (get_default (MarketData.liquidity_risk market_data) 0.3))
    ]%string
    None
    recommendations
    [ ("analysis_timestamp", PyInt now);
      ("model_version", PyStr (str "1.0"));
      ("factors_count", PyInt (Z.of_nat (length factors))) ]%string.

(** One iteration of the loop of [batch_analyze_moments]: the [try] body
    either appends a result or leaves [results] as it is. *)
Definition batch_step (now : Z)
  (player_performances : list (string * PlayerPerformanceMetrics.t))
  (market_data : list (string * MarketData.t))
  (results : list MomentAnalysisResult.t)
  (moment_request : MomentAnalysisRequest.t) : list MomentAnalysisResult.t :=
  let player_perf :=
    dict_get player_performances
      (MomentAnalysisRequest.player_id moment_request) in
  let moment_market_data :=
    get_default
      (dict_get market_data (MomentAnalysisRequest.moment_id moment_request))
      MarketData.empty in
  match player_perf with
  | Some player_perf =>
      match analyze_moment now moment_request player_perf
              moment_market_data None with
      | Ok result => results ++ [result]
      | Raise _ => results   (* logged, [continue] *)
      end
  | None => results          (* logged warning *)
  end.

Definition batch_analyze_moments (now : Z)
  (moment_requests : list MomentAnalysisRequest.t)
  (player_performances : list (string * PlayerPerformanceMetrics.t))
  (market_data : list (string * MarketData.t))
  : list MomentAnalysisResult.t :=
  fold_left (batch_step now player_performances market_data)
    moment_requests [].

(** [result.valuation.fair_value / result.market_analysis['current_price']]. *)
Definition upside_ratio (result : MomentAnalysisResult.t) : Py.result R :=
  price <- dict_getitem (MomentAnalysisResult.market_analysis result)
             "current_price" ;;
  price <- as_number price ;;
  truediv
    (ValuationResult.fair_value (MomentAnalysisResult.valuation result))
    price.

(** The filter loop of [get_undervalued_moments]; [and] evaluates the
    ratio only when the confidence test passes. *)
Fixpoint undervalued_filter (analysis_results : list MomentAnalysisResult.t)
  (min_confidence min_upside : R) : result (list MomentAnalysisResult.t) :=
  match analysis_results with
  | [] => Ok []
  | result :: rest =>
      keep <-
        (if Rleb min_confidence
              (ValuationResult.confidence_score
                 (MomentAnalysisResult.valuation result))
         then ratio <- upside_ratio result ;;
              Ok (Rltb (1 + min_upside) ratio)
         else Ok false) ;;
      undervalued <- undervalued_filter rest min_confidence min_upside ;;
      Ok (if keep then result :: undervalued else undervalued)
  end.

Definition get_undervalued_moments
  (analysis_results : list MomentAnalysisResult.t)
  (min_confidence min_upside : R) : result (list MomentAnalysisResult.t) :=
  undervalued <- undervalued_filter analysis_results min_confidence min_upside ;;
  keys <- map_result upside_ratio undervalued ;;
  Ok (map snd (sort_desc fst (combine keys undervalued))).

End MomentValuator.

(* ================================================================== *)
(** ** [src/models/reasoning.py]                                       *)
(* ================================================================== *)

(** [json.dumps] and [json.loads].  A JSON document is represented by the
    value it encodes, so that loading a dumped value gives the value
    back; the values dumped by the modelled code are strings, lists and
    dicts of JSON-compatible data. *)
Module Json.
Inductive document (A : Type) : Type := Document (a : A).
Arguments Document {A} a.

Definition dumps {A : Type} (a : A) : document A := Document a.
Definition loads {A : Type} (d : document A) : A :=
  match d with Document a => a end.
End Json.

Module ReasoningFactorType.
Inductive t : Type :=
| PLAYER_PERFORMANCE | MARKET_TREND | SCARCITY | SOCIAL_SENTIMENT
| TECHNICAL_ANALYSIS | FUNDAMENTAL_ANALYSIS | RISK_ASSESSMENT.

Definition value (x : t) : string :=
  match x with
  | PLAYER_PERFORMANCE => "player_performance"
  | MARKET_TREND => "market_trend"
  | SCARCITY => "scarcity"
  | SOCIAL_SENTIMENT => "social_sentiment"
  | TECHNICAL_ANALYSIS => "technical_analysis"
  | FUNDAMENTAL_ANALYSIS => "fundamental_analysis"
  | RISK_ASSESSMENT => "risk_assessment"
  end%string.

Definition members : list t :=
  [PLAYER_PERFORMANCE; MARKET_TREND; SCARCITY; SOCIAL_SENTIMENT;
   TECHNICAL_ANALYSIS; FUNDAMENTAL_ANALYSIS; RISK_ASSESSMENT].

(** The enum call [ReasoningFactorType(s)]. *)
Definition of_value (s : string) : result t :=
  match find (fun x => String.eqb (value x) s) members with
  | Some x => Ok x
  | None => Raise ValueError
  end.
End ReasoningFactorType.

Module ReasoningFactor.
Record t : Type := mk {
  factor_type : ReasoningFactorType.t;
  name : string;
  weight : R;
  value : R;
  raw_value : option R;
  impact : R;
  confidence : R;
  description : string;
  supporting_data : list (string * pyval)
}.

Definition valid (f : t) : bool :=
  Pydantic.ge_le 0 1 (weight f)
  && Pydantic.ge_le (-100) 100 (impact f)
  && Pydantic.ge_le 0 1 (confidence f).

Definition new (f : t) : result t := Pydantic.validated (valid f) f.
End ReasoningFactor.

Module PlayerPerformanceReasoning.
Record t : Type := mk {
  recent_games_analysis : string;
  season_performance_context : string;
  career_trajectory : string;
  clutch_performance_note : string;
  injury_status : string;
  team_context : string;
  matchup_analysis : string;
  statistical_highlights : list string;
  performance_trends : list (string * R)
}.
End PlayerPerformanceReasoning.

Module MarketContextReasoning.
Record t : Type := mk {
  price_trend_analysis : string;
  volume_analysis : string;
  comparable_sales_context : string;
  market_sentiment : string;
  liquidity_assessment : string;
  arbitrage_opportunities : list string;
  market_inefficiencies : list string;
  timing_factors : list string
}.
End MarketContextReasoning.

Module ScarcityReasoning.
Record t : Type := mk {
  serial_number_significance : string;
  moment_type_rarity : string;
  player_moment_availability : string;
  circulation_analysis : string;
  collector_demand : string;
  historical_scarcity_premium : string;
  future_scarcity_projection : string
}.
End ScarcityReasoning.

Module AIReasoningResult.
Record t : Type := mk {
  moment_id : string;
  decision : string;
  confidence_score : R;
  factors : list ReasoningFactor.t;
  primary_reasoning : string;
  supporting_reasons : list string;
  risk_factors : list string;
  key_statistics : list (string * pyval);
  market_context : MarketContextReasoning.t;
  player_analysis : PlayerPerformanceReasoning.t;
  scarcity_analysis : ScarcityReasoning.t;
  timestamp : Z;
  analysis_version : string
}.

(** The field constraints of the class, those of its factors included. *)
Definition valid (r : t) : bool :=
  Pydantic.ge_le 0 1 (confidence_score r)
  && forallb ReasoningFactor.valid (factors r).

(** The constructor call [AIReasoningResult(...)] on already built
    factors. *)
Definition new (r : t) : result t :=
  Pydantic.validated (Pydantic.ge_le 0 1 (confidence_score r)) r.
End AIReasoningResult.

(* ================================================================== *)
(** ** [src/data_sources/database_client.py]                           *)
(* ================================================================== *)

(** The three tables the reasoning service writes and reads, and the
    connection pool of the client.  The statements of the service are
    given the meaning their SQL text has on these tables. *)
Module Database.

Record ai_reasoning_row : Type := ReasoningRow {
  id : string;
  moment_id : string;
  user_id : option string;
  decision : string;
  confidence_score : R;
  primary_reasoning : string;
  supporting_reasons : Json.document (list string);
  risk_factors : Json.document (list string);
  key_statistics : Json.document (list (string * pyval));
  analysis_version : string;
  created_at : Z   (* filled in by the store when the row is inserted *)
}.

Record reasoning_factors_row : Type := FactorRow {
  factor_reasoning_id : string;
  factor_type : string;
  name : string;
  weight : R;
  value : R;
  raw_value : option R;
  impact : R;
  confidence : R;
  description : string;
  supporting_data : Json.document (list (string * pyval))
}.

Record reasoning_context_row : Type := ContextRow {
  context_reasoning_id : string;
  player_analysis : Json.document PlayerPerformanceReasoning.t;
  market_context : Json.document MarketContextReasoning.t;
  scarcity_analysis : Json.document ScarcityReasoning.t
}.

Record t : Type := mk {
  pool : bool;   (* whether [initialize] has created the pool *)
  ai_reasoning : list ai_reasoning_row;
  reasoning_factors : list reasoning_factors_row;
  reasoning_context : list reasoning_context_row
}.

(** The effect of the three [INSERT] statements on the tables; without a
    pool nothing reaches the store. *)
Definition insert_reasoning (db : t) (row : ai_reasoning_row) : t :=
  if pool db then
    mk (pool db) (ai_reasoning db ++ [row]) (reasoning_factors db)
       (reasoning_context db)
  else db.

Definition insert_factor (db : t) (row : reasoning_factors_row) : t :=
  if pool db then
    mk (pool db) (ai_reasoning db) (reasoning_factors db ++ [row])
       (reasoning_context db)
  else db.

Definition insert_context (db : t) (row : reasoning_context_row) : t :=
  if pool db then
    mk (pool db) (ai_reasoning db) (reasoning_factors db)
       (reasoning_context db ++ [row])
  else db.

(** [execute] of an [INSERT].  Without a pool the call logs a warning
    and returns.  With a pool the statement takes effect, or the store
    rejects it: the error is logged and raised again, and the tables stay
    as they were.  Whether the store rejects a statement is not in the
    hands of the service; [fails] says so. *)
Definition execute (fails : bool) (insert : t -> t) (db : t)
  : result unit * t :=
  if pool db && fails then (Raise DatabaseError, db) else (Ok tt, insert db).

(** A store that rejects no statement. *)
Definition no_failure : nat -> bool := fun _ => false.

(** [r LEFT JOIN reasoning_context rc ON r.id = rc.reasoning_id] for one
    row [r]. *)
Definition left_join_context (db : t) (r : ai_reasoning_row)
  : list (ai_reasoning_row * option reasoning_context_row) :=
  match filter (fun rc => String.eqb (id r) (context_reasoning_id rc))
          (reasoning_context db) with
  | [] => [(r, None)]
  | matches => map (fun rc => (r, Some rc)) matches
  end.

(** [fetch_all] of the query of [get_reasoning_by_moment]; a negative
    [LIMIT] is an error of the store.  A connected store is taken to
    answer the query; were the query itself to fail, the handler of the
    caller would answer with the empty list. *)
Definition select_reasoning_by_moment (db : t) (moment : string) (limit : Z)
  : result (list (ai_reasoning_row * option reasoning_context_row)) :=
  if pool db then
    if (limit <? 0)%Z then Raise DatabaseError
    else
      let joined :=
        flat_map (left_join_context db)
          (filter (fun r => String.eqb (moment_id r) moment)
             (ai_reasoning db)) in
      Ok (firstn (Z.to_nat limit)
            (sort_desc (fun row => IZR (created_at (fst row))) joined))
  else Ok [].

(** [fetch_all] of the query of [_get_reasoning_factors]. *)
Definition select_factors (db : t) (reasoning_id : string)
  : list reasoning_factors_row :=
  if pool db then
    sort_desc weight
      (filter (fun f => String.eqb (factor_reasoning_id f) reasoning_id)
         (reasoning_factors db))
  else [].

End Database.

(* ================================================================== *)
(** ** [src/services/reasoning_service.py]: persistence                *)
(* ================================================================== *)

Module ReasoningService.

(** The row [store_reasoning] inserts for one factor. *)
Definition factor_row (reasoning_id : string) (factor : ReasoningFactor.t)
  : Database.reasoning_factors_row :=
  Database.FactorRow reasoning_id
    (ReasoningFactorType.value (ReasoningFactor.factor_type factor))
    (ReasoningFactor.name factor)
    (ReasoningFactor.weight factor)
    (ReasoningFactor.value factor)
    (ReasoningFactor.raw_value factor)
    (ReasoningFactor.impact factor)
    (ReasoningFactor.confidence factor)
    (ReasoningFactor.description factor)
    (Json.dumps (ReasoningFactor.supporting_data factor)).

(** The row [store_reasoning] inserts for the reasoning itself; [now] is
    the time the store stamps on it. *)
Definition reasoning_row (reasoning_id : string) (now : Z)
  (reasoning_result : AIReasoningResult.t) (user_id : option string)
  : Database.ai_reasoning_row :=
  Database.ReasoningRow reasoning_id
    (AIReasoningResult.moment_id reasoning_result)
    user_id
    (AIReasoningResult.decision reasoning_result)
    (AIReasoningResult.confidence_score reasoning_result)
    (AIReasoningResult.primary_reasoning reasoning_result)
    (Json.dumps (AIReasoningResult.supporting_reasons reasoning_result))
    (Json.dumps (AIReasoningResult.risk_factors reasoning_result))
    (Json.dumps (AIReasoningResult.key_statistics reasoning_result))
    (AIReasoningResult.analysis_version reasoning_result)
    now.

(** The row [store_reasoning] inserts for the three narrative blocks. *)
Definition context_row (reasoning_id : string)
  (reasoning_result : AIReasoningResult.t) : Database.reasoning_context_row :=
  Database.ContextRow reasoning_id
    (Json.dumps (AIReasoningResult.player_analysis reasoning_result))
    (Json.dumps (AIReasoningResult.market_context reasoning_result))
    (Json.dumps (AIReasoningResult.scarcity_analysis reasoning_result)).

(** The loop of [store_reasoning] over the factors; [k] is the number of
    the statement the loop issues next.  A statement that raises ends
    the loop, and the rows written before it stay. *)
Fixpoint store_factors (fails : nat -> bool) (k : nat) (reasoning_id : string)
  (factors : list ReasoningFactor.t) (db : Database.t)
  : result unit * Database.t :=
  match factors with
  | [] => (Ok tt, db)
  | factor :: rest =>
      match
        Database.execute (fails k)
          (fun db => Database.insert_factor db (factor_row reasoning_id factor))
          db
      with
      | (Ok _, db) => store_factors fails (S k) reasoning_id rest db
      | (Raise e, db) => (Raise e, db)
      end
  end.

(** [reasoning_id] is the value drawn by [uuid4()]; [fails k] tells
    whether the store rejects the [k]-th statement of the call.  The
    three kinds of rows are written by separate statements, outside any
    transaction: an exception is logged and raised again, and what was
    written before it stays in the store. *)
Definition store_reasoning (db : Database.t) (fails : nat -> bool)
  (reasoning_id : string) (now : Z)
  (reasoning_result : AIReasoningResult.t) (user_id : option string)
  : result string * Database.t :=
  match
    Database.execute (fails 0%nat)
      (fun db =>
         Database.insert_reasoning db
           (reasoning_row reasoning_id now reasoning_result user_id))
      db
  with
  | (Raise e, db) => (Raise e, db)
  | (Ok _, db) =>
      match
        store_factors fails 1 reasoning_id
          (AIReasoningResult.factors reasoning_result) db
      with
      | (Raise e, db) => (Raise e, db)
      | (Ok _, db) =>
          match
            Database.execute
              (fails (S (length (AIReasoningResult.factors reasoning_result))))
              (fun db =>
                 Database.insert_context db
                   (context_row reasoning_id reasoning_result))
              db
          with
          | (Raise e, db) => (Raise e, db)
          | (Ok _, db) => (Ok reasoning_id, db)
          end
      end
  end.

(** The loop body of [_get_reasoning_factors]. *)
Definition load_factor (row : Database.reasoning_factors_row)
  : result ReasoningFactor.t :=
  factor_type <- ReasoningFactorType.of_value (Database.factor_type row) ;;
  ReasoningFactor.new
    (ReasoningFactor.mk factor_type
       (Database.name row) (Database.weight row) (Database.value row)
       (Database.raw_value row) (Database.impact row)
       (Database.confidence row) (Database.description row)
       (Json.loads (Database.supporting_data row))).

Definition _get_reasoning_factors (db : Database.t) (reasoning_id : string)
  : result (list ReasoningFactor.t) :=
  map_result load_factor (Database.select_factors db reasoning_id).

(** The loop body of [get_reasoning_by_moment].  A row without context
    makes the three argument-less constructor calls, each of which fails
    validation for want of its required fields. *)
Definition load_reasoning (db : Database.t)
  (row : Database.ai_reasoning_row * option Database.reasoning_context_row)
  : result AIReasoningResult.t :=
  factors <- _get_reasoning_factors db (Database.id (fst row)) ;;
  match snd row with
  | Some rc =>
      AIReasoningResult.new
        (AIReasoningResult.mk
           (Database.moment_id (fst row))
           (Database.decision (fst row))
           (Database.confidence_score (fst row))
           factors
           (Database.primary_reasoning (fst row))
           (Json.loads (Database.supporting_reasons (fst row)))
           (Json.loads (Database.risk_factors (fst row)))
           (Json.loads (Database.key_statistics (fst row)))
           (Json.loads (Database.market_context rc))
           (Json.loads (Database.player_analysis rc))
           (Json.loads (Database.scarcity_analysis rc))
           (Database.created_at (fst row))
           (Database.analysis_version (fst row)))
  | None => Raise ValidationError
  end.

(** Any exception inside the [try] is logged and answered with [[]]. *)
Definition get_reasoning_by_moment (db : Database.t) (moment_id : string)
  (limit : Z) : list AIReasoningResult.t :=
  match
    rows <- Database.select_reasoning_by_moment db moment_id limit ;;
    map_result (load_reasoning db) rows
  with
  | Ok results => results
  | Raise _ => []
  end.

End ReasoningService.

(* ================================================================== *)
(** ** Notions the specification uses                                  *)
(* ================================================================== *)

Module Spec.

(** [clamp(x, lo, hi)]. *)
Definition clamp (x lo hi : R) : R :=
  if Rlt_dec x lo then lo else if Rlt_dec hi x then hi else x.

(** The sum of a list of numbers. *)
Definition total (l : list R) : R := fold_right Rplus 0 l.

(** The population standard deviation of a list of numbers. *)
Definition stddev (l : list R) : R :=
  let n := INR (length l) in
  let mean := total l / n in
  sqrt (total (map (fun x => (x - mean) * (x - mean)) l) / n).

(** [Σ impact×weight / Σ weight] over a factor list. *)
Definition total_weight (factors : list ValuationFactor.t) : R :=
  total (map ValuationFactor.weight factors).

Definition avg_impact (factors : list ValuationFactor.t) : R :=
  total (map (fun f => ValuationFactor.impact f * ValuationFactor.weight f)
           factors)
  / total_weight factors.

(** The [n] most recent games of a list: those with the latest dates. *)
Definition most_recent (n : nat) (games : list GameStats.t)
  : list GameStats.t :=
  firstn n (sort_desc (fun g => IZR (GameStats.game_date g)) games).

(** A list of games ordered most-recent-first, the order in which the
    analyzer weights them ([1/(i+1)], "more recent games get higher
    weights") and in which the game log is cut to its first rows. *)
Definition most_recent_first (games : list GameStats.t) : Prop :=
  StronglySorted
    (fun a b => (GameStats.game_date b <= GameStats.game_date a)%Z) games.

(** An entry passes the undervalued filter. *)
Definition undervalued (min_confidence min_upside : R)
  (r : MomentAnalysisResult.t) : Prop :=
  min_confidence
    <= ValuationResult.confidence_score (MomentAnalysisResult.valuation r)
  /\ exists ratio,
       MomentValuator.upside_ratio r = Ok ratio /\ 1 + min_upside < ratio.

(** A list of results is in descending order of upside ratio. *)
Definition descending_upside (l : list MomentAnalysisResult.t) : Prop :=
  exists ratios,
    map_result MomentValuator.upside_ratio l = Ok ratios
    /\ StronglySorted Rge ratios.

(** A factor list is in descending order of weight. *)
Definition descending_weight (l : list ReasoningFactor.t) : Prop :=
  StronglySorted
    (fun a b => ReasoningFactor.weight a >= ReasoningFactor.weight b) l.

(** No row of the store carries the identifier yet (a fresh [uuid4()]). *)
Definition fresh_id (db : Database.t) (reasoning_id : string) : Prop :=
  Forall (fun r => Database.id r <> reasoning_id) (Database.ai_reasoning db)
  /\ Forall (fun f => Database.factor_reasoning_id f <> reasoning_id)
       (Database.reasoning_factors db)
  /\ Forall (fun c => Database.context_reasoning_id c <> reasoning_id)
       (Database.reasoning_context db).

(** Every reasoning row of the store was stamped before [now]. *)
Definition stamped_before (db : Database.t) (now : Z) : Prop :=
  Forall (fun r => (Database.created_at r < now)%Z) (Database.ai_reasoning db).

(** A factor row holds a factor that passes validation when loaded. *)
Definition factor_row_ok (f : Database.reasoning_factors_row) : Prop :=
  (exists t, ReasoningFactorType.of_value (Database.factor_type f) = Ok t)
  /\ Pydantic.ge_le 0 1 (Database.weight f) = true
  /\ Pydantic.ge_le (-100) 100 (Database.impact f) = true
  /\ Pydantic.ge_le 0 1 (Database.confidence f) = true.

(** The store holds only what complete, valid writes leave behind: every
    reasoning row has a valid confidence and a context row, and every
    factor row is loadable. *)
Definition consistent (db : Database.t) : Prop :=
  Forall
    (fun r =>
       Pydantic.ge_le 0 1 (Database.confidence_score r) = true
       /\ exists rc,
            In rc (Database.reasoning_context db)
            /\ Database.context_reasoning_id rc = Database.id r)
    (Database.ai_reasoning db)
  /\ Forall factor_row_ok (Database.reasoning_factors db).

(** [db'] holds what [db] holds and, beyond that, only rows written for
    the identifier [reasoning_id]: reasoning rows of the moment [moment],
    factor rows and context rows. *)
Definition extended_by (reasoning_id moment : string) (db db' : Database.t)
  : Prop :=
  Database.pool db' = Database.pool db
  /\ (exists rows,
        Database.ai_reasoning db' = Database.ai_reasoning db ++ rows
        /\ Forall (fun x => Database.id x = reasoning_id
                            /\ Database.moment_id x = moment) rows)
  /\ (exists fs,
        Database.reasoning_factors db' = Database.reasoning_factors db ++ fs
        /\ Forall (fun f => Database.factor_reasoning_id f = reasoning_id) fs)
  /\ (exists cs,
        Database.reasoning_context db' = Database.reasoning_context db ++ cs
        /\ Forall (fun c => Database.context_reasoning_id c = reasoning_id) cs).

End Spec.

(* ================================================================== *)
(** ** Concrete inputs                                                 *)
(* ================================================================== *)

Module Examples.

(** A game of the given date and points, with an otherwise ordinary
    box-score line. *)
Definition game (date points : Z) : GameStats.t :=
  GameStats.mk "game" "player_123" date "LAL" 36
    points 8 6 2 1 3 10 18 3 7 2 2 2 (Some 8%Z).

(** A full game without a single made shot: ten misses, nothing else. *)
Definition cold_game : GameStats.t :=
  GameStats.mk "game_1" "player_123" 1 "LAL" 36
    0 0 0 0 0 0 0 10 0 0 0 0 0 None.

Definition sample_player_profile : PlayerProfile.t :=
  PlayerProfile.mk (Some "player_123"%string) (Some 4%Z) (Some "PG"%string).

Definition sample_season_stats : SeasonStats.t :=
  SeasonStats.mk "player_123" "2023-24" "BOS" "PG" 65 60
    34.5 22.3 6.8 7.2 1.5 0.8 3.1 0.485 0.375 0.850 18.5 0.580 0.285.

(** Six games, most recent first; the latest is a 30-point game. *)
Definition six_games : list GameStats.t :=
  [game 6 30; game 5 10; game 4 10; game 3 10; game 2 10; game 1 10].

Definition request (moment player : string) (type : MomentType.t)
  (serial : Z) (price : R) : MomentAnalysisRequest.t :=
  MomentAnalysisRequest.mk moment player type 19737 serial price "topshot".

Definition metrics (player : string) (form consistency clutch : R)
  : PlayerPerformanceMetrics.t :=
  PlayerPerformanceMetrics.mk player 19737 form consistency clutch 25 60 45 70.

(** A batch of three requests; the second player has no metrics. *)
Definition three_requests : list MomentAnalysisRequest.t :=
  [ request "moment_1" "player_456" MomentType.DUNK 42 150;
    request "moment_2" "player_000" MomentType.ASSIST 7 90;
    request "moment_3" "player_789" MomentType.THREE_POINTER 100 80 ].

Definition two_performances : list (string * PlayerPerformanceMetrics.t) :=
  [ ("player_456", metrics "player_456" 75 68 82);
    ("player_789", metrics "player_789" 60 55 70) ]%string.

Definition factor (weight value impact : R) : ValuationFactor.t :=
  ValuationFactor.mk "market_trend" weight value (str "") impact
    ValuationFactor.Base.

Definition two_factors : list ValuationFactor.t :=
  [factor 0.25 0.6 15; factor 0.2 0.5 0].

Definition reasoning_factor (type : ReasoningFactorType.t) (weight impact : R)
  : ReasoningFactor.t :=
  ReasoningFactor.mk type "factor" weight 0.7 None impact 0.8 "" [].

Definition market_context : MarketContextReasoning.t :=
  MarketContextReasoning.mk "" "" "" "" "" [] [] [].

Definition player_analysis : PlayerPerformanceReasoning.t :=
  PlayerPerformanceReasoning.mk "" "" "" "" "" "" "" [] [].

Definition scarcity_analysis : ScarcityReasoning.t :=
  ScarcityReasoning.mk "" "" "" "" "" "" "".

Definition reasoning : AIReasoningResult.t :=
  AIReasoningResult.mk "moment_123" "buy" 0.85
    [ reasoning_factor ReasoningFactorType.SCARCITY 0.25 20;
      reasoning_factor ReasoningFactorType.PLAYER_PERFORMANCE 0.35 30 ]
    "Moment appears undervalued" [] [] []
    market_context player_analysis scarcity_analysis 0 "1.0".

(** A connected store with empty tables. *)
Definition empty_db : Database.t := Database.mk true [] [] [].

End Examples.

(* ================================================================== *)
(** ** [src/models/player_stats.py]: shooting percentages              *)
(* ================================================================== *)

Module Shooting.

(** [made / attempted], guarded against an attempt count of zero. *)
Definition percentage (made attempted : Z) : R :=
  if (attempted =? 0)%Z then 0 else IZR made / IZR attempted.

Definition field_goal_percentage (self : GameStats.t) : R :=
  percentage (GameStats.field_goals_made self)
    (GameStats.field_goals_attempted self).

Definition three_point_percentage (self : GameStats.t) : R :=
  percentage (GameStats.three_pointers_made self)
    (GameStats.three_pointers_attempted self).

Definition free_throw_percentage (self : GameStats.t) : R :=
  percentage (GameStats.free_throws_made self)
    (GameStats.free_throws_attempted self).

End Shooting.

(* ================================================================== *)
(** ** [src/analysis/performance_analyzer.py]: factor and comparison   *)
(* ================================================================== *)

Module Analyzer.

Definition create_performance_factor
  (performance_metrics : PlayerPerformanceMetrics.t) (weight : R)
  : result ValuationFactor.t :=
  let overall_score :=
    PlayerPerformanceMetrics.recent_form_score performance_metrics * 0.3
    + PlayerPerformanceMetrics.season_consistency performance_metrics * 0.2
    + PlayerPerformanceMetrics.clutch_performance performance_metrics * 0.2
    + (100 - PlayerPerformanceMetrics.injury_risk performance_metrics) * 0.1
    + PlayerPerformanceMetrics.breakout_potential performance_metrics * 0.1
    + PlayerPerformanceMetrics.veteran_stability performance_metrics * 0.1 in
  let impact := (overall_score - 50) * 2 in
  PlayerPerformanceFactor "player_performance" weight (overall_score / 100)
    [Text "Player performance analysis based on recent form (";
     FloatF (PlayerPerformanceMetrics.recent_form_score performance_metrics);
     Text "), consistency (";
     FloatF (PlayerPerformanceMetrics.season_consistency performance_metrics);
     Text "), and clutch performance (";
     FloatF (PlayerPerformanceMetrics.clutch_performance performance_metrics);
     Text ")"]
    impact
    (PyFloat (PlayerPerformanceMetrics.recent_form_score performance_metrics))
    (PyFloat (PlayerPerformanceMetrics.season_consistency performance_metrics))
    (PyFloat (PlayerPerformanceMetrics.breakout_potential performance_metrics))
    (PlayerPerformanceMetrics.clutch_performance performance_metrics).

(** The dict returned by [compare_players]. *)
Module Comparison.
Record t : Type := mk {
  player1_id : string;
  player2_id : string;
  recent_form_diff : R;
  consistency_diff : R;
  clutch_diff : R;
  injury_risk_diff : R;
  overall_advantage : string
}.
End Comparison.

(** The weighted sum [total_diff] of [compare_players]. *)
Definition total_diff (player1_metrics player2_metrics
                       : PlayerPerformanceMetrics.t) : R :=
  (PlayerPerformanceMetrics.recent_form_score player1_metrics
   - PlayerPerformanceMetrics.recent_form_score player2_metrics) * 0.3
  + (PlayerPerformanceMetrics.season_consistency player1_metrics
     - PlayerPerformanceMetrics.season_consistency player2_metrics) * 0.2
  + (PlayerPerformanceMetrics.clutch_performance player1_metrics
     - PlayerPerformanceMetrics.clutch_performance player2_metrics) * 0.2
  + (PlayerPerformanceMetrics.injury_risk player2_metrics
     - PlayerPerformanceMetrics.injury_risk player1_metrics) * 0.1
  + (PlayerPerformanceMetrics.breakout_potential player1_metrics
     - PlayerPerformanceMetrics.breakout_potential player2_metrics) * 0.1
  + (PlayerPerformanceMetrics.veteran_stability player1_metrics
     - PlayerPerformanceMetrics.veteran_stability player2_metrics) * 0.1.

(** The verdict compares the exact [total_diff] with 5 and -5; for a
    difference within rounding of a threshold the code may decide the
    other way. *)
Definition compare_players (player1_metrics player2_metrics
                            : PlayerPerformanceMetrics.t) : Comparison.t :=
  let total_diff := total_diff player1_metrics player2_metrics in
  Comparison.mk
    (PlayerPerformanceMetrics.player_id player1_metrics)
    (PlayerPerformanceMetrics.player_id player2_metrics)
    (PlayerPerformanceMetrics.recent_form_score player1_metrics
     - PlayerPerformanceMetrics.recent_form_score player2_metrics)
    (PlayerPerformanceMetrics.season_consistency player1_metrics
     - PlayerPerformanceMetrics.season_consistency player2_metrics)
    (PlayerPerformanceMetrics.clutch_performance player1_metrics
     - PlayerPerformanceMetrics.clutch_performance player2_metrics)
    (PlayerPerformanceMetrics.injury_risk player2_metrics
     - PlayerPerformanceMetrics.injury_risk player1_metrics)
    (if Rltb 5 total_diff then "player1"
     else if Rltb total_diff (-5) then "player2"
     else "similar").

End Analyzer.

(* ================================================================== *)
(** ** [src/services/reasoning_service.py]: factors, decision, metrics *)
(* ================================================================== *)

(** Dict assignment [d[k] = v] and the counting idiom
    [d[k] = d.get(k, 0) + 1]; a dict keeps its keys in insertion
    order. *)
Module Dict.

Fixpoint set {V : Type} (d : list (string * V)) (k : string) (v : V)
  : list (string * V) :=
  match d with
  | [] => [(k, v)]
  | (k', v') :: d' =>
      if String.eqb k k' then (k', v) :: d' else (k', v') :: set d' k v
  end.

Definition count (d : list (string * Z)) (k : string) : list (string * Z) :=
  set d k (match dict_get d k with Some n => n | None => 0 end + 1)%Z.

Definition values {V : Type} (d : list (string * V)) : list V := map snd d.

End Dict.

Module Str.

(** [str.lower] on the letters A to Z. *)
Definition lower_char (c : Ascii.ascii) : Ascii.ascii :=
  let n := Ascii.nat_of_ascii c in
  if ((65 <=? n) && (n <=? 90))%nat then Ascii.ascii_of_nat (n + 32) else c.

Fixpoint lower (s : string) : string :=
  match s with
  | EmptyString => EmptyString
  | String c s' => String (lower_char c) (lower s')
  end.

(** [needle in s]. *)
Fixpoint contains (needle s : string) : bool :=
  String.prefix needle s
  || match s with
     | EmptyString => false
     | String _ s' => contains needle s'
     end.

End Str.

Module ReasoningHistory.
Record t : Type := mk {
  id : string;
  moment_id : string;
  user_id : option string;
  reasoning_result : AIReasoningResult.t
}.
End ReasoningHistory.

Module Reasoning.

Definition factor_type_eqb (a b : ReasoningFactorType.t) : bool :=
  String.eqb (ReasoningFactorType.value a) (ReasoningFactorType.value b).

Section Rendering.

(** The characters of a formatted string; how Python prints a float is
    left open. *)
Variable render : text -> string.

Definition _convert_to_reasoning_factor (factor : ValuationFactor.t)
  (analysis_result : MomentAnalysisResult.t) : result ReasoningFactor.t :=
  let '(factor_type, name, supporting_data) :=
    match ValuationFactor.fields factor with
    | ValuationFactor.PlayerPerformance recent season trajectory clutch =>
        (ReasoningFactorType.PLAYER_PERFORMANCE,
         "Player Performance Analysis",
         [ ("recent_games_performance", PyDict recent);
           ("season_performance", PyDict season);
           ("career_trajectory", PyStr trajectory);
           ("clutch_performance", PyFloat clutch) ])
    | ValuationFactor.Scarcity serial type_rarity count circulation =>
        (ReasoningFactorType.SCARCITY,
         "Scarcity and Rarity Analysis",
         [ ("serial_number_rarity", PyFloat serial);
           ("moment_type_rarity", PyFloat type_rarity);
           ("player_moment_count", PyInt count);
           ("total_circulation", PyInt circulation) ])
    | ValuationFactor.MarketTrend momentum volume sentiment sales =>
        (ReasoningFactorType.MARKET_TREND,
         "Market Trend Analysis",
         [ ("price_momentum", PyFloat momentum);
           ("volume_trend", PyFloat volume);
           ("market_sentiment", PyFloat sentiment);
           ("comparable_sales_count", PyInt (Z.of_nat (length sales))) ])
    | ValuationFactor.SocialSentiment mentions sentiment viral influencers =>
        (ReasoningFactorType.SOCIAL_SENTIMENT,
         "Social Sentiment Analysis",
         [ ("social_mentions", PyInt mentions);
           ("sentiment_score", PyFloat sentiment);
           ("viral_potential", PyFloat viral);
           ("influencer_mentions", PyInt influencers) ])
    | ValuationFactor.Base =>
        (ReasoningFactorType.FUNDAMENTAL_ANALYSIS,
         "General Analysis Factor",
         [])
    end%string in
  ReasoningFactor.new
    (ReasoningFactor.mk factor_type name
       (ValuationFactor.weight factor) (ValuationFactor.value factor)
       None (ValuationFactor.impact factor) 0.8
       (render (ValuationFactor.description factor))
       supporting_data).

Definition generate_reasoning_factors (analysis_result : MomentAnalysisResult.t)
  : result (list ReasoningFactor.t) :=
  map_result (fun factor => _convert_to_reasoning_factor factor analysis_result)
    (MomentAnalysisResult.factors analysis_result).

Definition _map_recommendation_to_decision (recommendation : string)
  : string :=
  let recommendation_lower := Str.lower recommendation in
  (if Str.contains "strong buy" recommendation_lower
      || Str.contains "buy" recommendation_lower then "buy"
   else if Str.contains "sell" recommendation_lower then "sell"
   else if Str.contains "hold" recommendation_lower then "hold"
   else "skip")%string.

(** One entry of [supporting_reasons]. *)
Definition supporting_reason (factor : ReasoningFactor.t) : string :=
  let impact_direction :=
    (if Rltb 0 (ReasoningFactor.impact factor) then "positive"
     else "negative")%string in
  render [Text (ReasoningFactor.name factor); Text ": ";
          Text impact_direction; Text " impact of ";
          FloatF (ReasoningFactor.impact factor); Text "% - ";
          Text (ReasoningFactor.description factor)]%string.

Definition _generate_supporting_reasons (factors : list ReasoningFactor.t)
  : list string :=
  let sorted_factors :=
    sort_desc (fun f => Rabs (ReasoningFactor.impact f)) factors in
  flat_map
    (fun factor =>
       if Rltb 5 (Rabs (ReasoningFactor.impact factor))
       then [supporting_reason factor] else [])
    (firstn 5 sorted_factors).

(** The loop of [_identify_risk_factors] over the factors. *)
Definition factor_risks (factors : list ReasoningFactor.t) : list string :=
  flat_map
    (fun factor =>
       if factor_type_eqb (ReasoningFactor.factor_type factor)
            ReasoningFactorType.SOCIAL_SENTIMENT
          && Rltb (ReasoningFactor.confidence factor) 0.5
       then ["Social sentiment data limited - sentiment analysis may be unreliable"]
       else if factor_type_eqb (ReasoningFactor.factor_type factor)
                 ReasoningFactorType.MARKET_TREND
               && Rltb (ReasoningFactor.impact factor) (-20)
       then ["Negative market trend - broader market conditions unfavorable"]
       else [])%string
    factors.

Definition _identify_risk_factors (analysis_result : MomentAnalysisResult.t)
  (factors : list ReasoningFactor.t) : result (list string) :=
  let confidence :=
    ValuationResult.confidence_score
      (MomentAnalysisResult.valuation analysis_result) in
  let low_confidence :=
    if Rltb confidence 0.6 then
      [render [Text "Low confidence analysis ("; FloatF (confidence * 100);
               Text "%) - limited data or conflicting signals"]%string]
    else [] in
  volatility <-
    as_number
      (MomentValuator.get_default
         (dict_get (MomentAnalysisResult.risk_assessment analysis_result)
            "price_volatility") (PyInt 0)) ;;
  let high_volatility :=
    if Rltb 0.3 volatility then
      [render [Text "High price volatility ("; FloatF (volatility * 100);
               Text "%) - price may fluctuate significantly"]%string]
    else [] in
  liquidity_risk <-
    as_number
      (MomentValuator.get_default
         (dict_get (MomentAnalysisResult.risk_assessment analysis_result)
            "liquidity_risk") (PyInt 0)) ;;
  let liquidity :=
    if Rltb 0.4 liquidity_risk then
      [render [Text "Liquidity concerns ("; FloatF (liquidity_risk * 100);
               Text "%) - may be difficult to sell quickly"]%string]
    else [] in
  Ok (low_confidence ++ high_volatility ++ liquidity ++ factor_risks factors).

End Rendering.

(** The three buckets [low], [medium], [high] after the pairs seen so
    far. *)
Definition bucket_step (buckets : list R * list R * list R)
  (pair : R * R) : list R * list R * list R :=
  let '(low, medium, high) := buckets in
  let '(confidence, accuracy) := pair in
  if Rltb confidence 0.5 then (low ++ [accuracy], medium, high)
  else if Rltb confidence 0.8 then (low, medium ++ [accuracy], high)
  else (low, medium, high ++ [accuracy]).

(** What one bucket adds to [calibration_errors]. *)
Definition bucket_error (accuracies : list R) (expected_confidence : R)
  : list R :=
  match accuracies with
  | [] => []
  | _ =>
      let avg_accuracy := Py.sum accuracies / INR (length accuracies) in
      [Rabs (avg_accuracy - expected_confidence)]
  end.

Definition _calculate_confidence_calibration
  (confidence_accuracy_pairs : list (R * R)) : R :=
  match confidence_accuracy_pairs with
  | [] => 0
  | _ =>
      let '(low, medium, high) :=
        fold_left bucket_step confidence_accuracy_pairs ([], [], []) in
      let calibration_errors :=
        bucket_error low 0.25 ++ bucket_error medium 0.65
        ++ bucket_error high 0.9 in
      match calibration_errors with
      | [] => 0
      | _ =>
          let avg_error :=
            Py.sum calibration_errors / INR (length calibration_errors) in
          Rmax 0 (1 - avg_error)
      end
  end.

(** The dict returned by [_calculate_search_aggregations]. *)
Module Aggregations.
Record t : Type := mk {
  decision_distribution : list (string * Z);
  average_confidence : R;
  factor_type_distribution : list (string * Z);
  total_results : Z
}.
End Aggregations.

(** The inner loop over the factors of one reasoning. *)
Definition count_factor_types (counts : list (string * Z))
  (factors : list ReasoningFactor.t) : list (string * Z) :=
  fold_left
    (fun counts factor =>
       Dict.count counts
         (ReasoningFactorType.value (ReasoningFactor.factor_type factor)))
    factors counts.

(** The state [(decision_counts, confidence_sum, factor_type_counts)]
    after one more history record. *)
Definition aggregation_step
  (state : list (string * Z) * R * list (string * Z))
  (history : ReasoningHistory.t) : list (string * Z) * R * list (string * Z) :=
  let '(decision_counts, confidence_sum, factor_type_counts) := state in
  let reasoning := ReasoningHistory.reasoning_result history in
  (Dict.count decision_counts (AIReasoningResult.decision reasoning),
   confidence_sum + AIReasoningResult.confidence_score reasoning,
   count_factor_types factor_type_counts (AIReasoningResult.factors reasoning)).

(** [None] stands for the empty dict returned for no results. *)
Definition _calculate_search_aggregations (results : list ReasoningHistory.t)
  : option Aggregations.t :=
  match results with
  | [] => None
  | _ =>
      let '(decision_counts, confidence_sum, factor_type_counts) :=
        fold_left aggregation_step results ([], 0, []) in
      Some (Aggregations.mk decision_counts
              (confidence_sum / INR (length results))
              factor_type_counts
              (Z.of_nat (length results)))
  end.

(** One factor in the loop of [_calculate_factor_importance]: the pair
    [(factor_impacts, factor_counts)] afterwards. *)
Definition importance_step
  (state : list (string * R) * list (string * Z))
  (factor : ReasoningFactor.t)
  : result (list (string * R) * list (string * Z)) :=
  let '(factor_impacts, factor_counts) := state in
  let factor_type :=
    ReasoningFactorType.value (ReasoningFactor.factor_type factor) in
  let '(factor_impacts, factor_counts) :=
    match dict_get factor_impacts factor_type with
    | None => (Dict.set factor_impacts factor_type 0,
               Dict.set factor_counts factor_type 0%Z)
    | Some _ => (factor_impacts, factor_counts)
    end in
  total <- dict_getitem factor_impacts factor_type ;;
  let factor_impacts :=
    Dict.set factor_impacts factor_type
      (total + Rabs (ReasoningFactor.impact factor)) in
  count <- dict_getitem factor_counts factor_type ;;
  let factor_counts := Dict.set factor_counts factor_type (count + 1)%Z in
  Ok (factor_impacts, factor_counts).

(** A loop whose body may raise. *)
Fixpoint fold_result {A S : Type} (step : S -> A -> result S) (l : list A)
  (s : S) : result S :=
  match l with
  | [] => Ok s
  | x :: l' => s' <- step s x ;; fold_result step l' s'
  end.

(** All factors of all history records, in loop order. *)
Definition all_factors (results : list ReasoningHistory.t)
  : list ReasoningFactor.t :=
  flat_map
    (fun history =>
       AIReasoningResult.factors (ReasoningHistory.reasoning_result history))
    results.

Definition _calculate_factor_importance (results : list ReasoningHistory.t)
  : result (list (string * R)) :=
  state <- fold_result importance_step (all_factors results) ([], []) ;;
  let '(factor_impacts, factor_counts) := state in
  map_result
    (fun entry =>
       let '(factor_type, total_impact) := entry in
       count <- dict_getitem factor_counts factor_type ;;
       Ok (factor_type,
           if (0 <? count)%Z then total_impact / IZR count else 0))
    factor_impacts.

Definition _identify_failure_modes (results : list ReasoningHistory.t)
  : result (list string) :=
  let low_confidence_decisions :=
    filter
      (fun r =>
         Rltb (AIReasoningResult.confidence_score
                 (ReasoningHistory.reasoning_result r)) 0.5)
      results in
  let frequency :=
    if Rltb (INR (length results) * 0.3)
         (INR (length low_confidence_decisions))
    then ["High frequency of low-confidence decisions"%string] else [] in
  let factor_usage := count_factor_types [] (all_factors results) in
  let total_factors :=
    fold_left Z.add (Dict.values factor_usage) 0%Z in
  reliance <-
    map_result
      (fun entry =>
         let '(factor_type, count) := entry in
         share <- truediv (IZR count) (IZR total_factors) ;;
         Ok (if Rltb 0.6 share
             then [("Over-reliance on " ++ factor_type ++ " factors")%string]
             else []))
      factor_usage ;;
  Ok (frequency ++ concat reliance).

(** [max(l)] and [min(l)] of a non-empty list. *)
Definition py_max (l : list R) : R :=
  match l with
  | [] => 0
  | x :: l' => fold_left (fun m y => if Rltb m y then y else m) l' x
  end.

Definition py_min (l : list R) : R :=
  match l with
  | [] => 0
  | x :: l' => fold_left (fun m y => if Rltb y m then y else m) l' x
  end.

Definition _generate_improvement_suggestions
  (accuracy_rate confidence_calibration : R)
  (factor_importance : list (string * R)) : list string :=
  let suggestions :=
    (if Rltb accuracy_rate 0.6 then
       ["Improve data quality and feature engineering";
        "Consider ensemble methods for decision making"]%string
     else [])
    ++ (if Rltb confidence_calibration 0.7 then
          ["Recalibrate confidence scoring algorithm";
           "Add uncertainty quantification methods"]%string
        else [])
    ++ (match factor_importance with
        | [] => []
        | _ =>
            let max_importance := py_max (Dict.values factor_importance) in
            let min_importance := py_min (Dict.values factor_importance) in
            if Rltb (min_importance * 3) max_importance then
              ["Balance factor weights to reduce over-reliance on single factors"%string]
            else []
        end) in
  match suggestions with
  | [] => ["Performance is good - continue monitoring and fine-tuning"%string]
  | _ => suggestions
  end.

End Reasoning.

(* ================================================================== *)
(** ** Further concrete inputs                                         *)
(* ================================================================== *)

Module Samples.

(** An analysis result with the given price, fair value and confidence
    and the given factors. *)
Definition analysis (moment : string) (price fair_value confidence : R)
  (recommendation : string) (factors : list ValuationFactor.t)
  : MomentAnalysisResult.t :=
  MomentAnalysisResult.mk moment "player_456"
    (ValuationResult.mk fair_value confidence recommendation 0.2 0.3)
    factors
    []
    [("current_price"%string, PyFloat price);
     ("price_ratio"%string, PyFloat (fair_value / price))]
    [("price_volatility"%string, PyFloat 0.15);
     ("liquidity_risk"%string, PyFloat 0.2)]
    19737 [] [].

(** A market-trend factor and a social-sentiment factor, as the
    valuator builds them. *)
Definition trend_factor (impact : R) : ValuationFactor.t :=
  ValuationFactor.mk "market_trend" 0.2 0.3 (str "Market trend") impact
    (ValuationFactor.MarketTrend (-50) 0 0 []).

Definition social_factor (impact : R) : ValuationFactor.t :=
  ValuationFactor.mk "social_sentiment" 0.2 0.6 (str "Social sentiment")
    impact (ValuationFactor.SocialSentiment 250 0.3 65 8).

Definition three_results : list MomentAnalysisResult.t :=
  [ analysis "moment_1" 100 105 0.9 "Hold" [];
    analysis "moment_2" 100 150 0.8 "Strong Buy" [];
    analysis "moment_3" 100 130 0.4 "Strong Buy" [] ].

(** Ten price points, and an older one without a price. *)
Definition ten_points : list PricePoint.t :=
  map (fun i => PricePoint.mk (Some (100 + INR i)) (Some 5)) (seq 0 10).

Definition social (mentions : Z) (sentiment viral : R) (influencers : Z)
  : SocialData.t :=
  SocialData.mk (Some mentions) (Some sentiment) (Some viral)
    (Some influencers).

Definition history (id decision : string) (confidence : R)
  (factors : list ReasoningFactor.t) : ReasoningHistory.t :=
  ReasoningHistory.mk id "moment_123" None
    (AIReasoningResult.mk "moment_123" decision confidence factors
       "" [] [] [] Examples.market_context Examples.player_analysis
       Examples.scarcity_analysis 0 "1.0").

Definition three_histories : list ReasoningHistory.t :=
  [ history "r1" "buy" 0.9
      [Examples.reasoning_factor ReasoningFactorType.SCARCITY 0.25 20;
       Examples.reasoning_factor ReasoningFactorType.MARKET_TREND 0.2 (-30)];
    history "r2" "hold" 0.4
      [Examples.reasoning_factor ReasoningFactorType.SCARCITY 0.25 4];
    history "r3" "buy" 0.7 [] ].

(** A store holding one complete record, and the same store with a
    second record of the same moment that lost its context row. *)
Definition complete_row : Database.ai_reasoning_row :=
  ReasoningService.reasoning_row "id-1" 10 Examples.reasoning None.

Definition orphan_row : Database.ai_reasoning_row :=
  Database.ReasoningRow "id-2" "moment_123" None "hold" 0.5 ""
    (Json.dumps []) (Json.dumps []) (Json.dumps []) "1.0" 20.

Definition one_record_db : Database.t :=
  Database.mk true [complete_row]
    (map (ReasoningService.factor_row "id-1")
       (AIReasoningResult.factors Examples.reasoning))
    [ReasoningService.context_row "id-1" Examples.reasoning].

Definition partial_db : Database.t :=
  Database.mk true [complete_row; orphan_row]
    (map (ReasoningService.factor_row "id-1")
       (AIReasoningResult.factors Examples.reasoning))
    [ReasoningService.context_row "id-1" Examples.reasoning].

(** A result for another moment. *)
Definition other_reasoning : AIReasoningResult.t :=
  AIReasoningResult.mk "moment_456" "sell" 0.6
    [Examples.reasoning_factor ReasoningFactorType.MARKET_TREND 0.2 (-30)]
    "Moment appears overvalued" [] [] []
    Examples.market_context Examples.player_analysis
    Examples.scarcity_analysis 0 "1.0".

Definition disconnected_db : Database.t := Database.mk false [] [] [].

(** A rendering of formatted strings that prints every number as [#]. *)
Definition render (t : text) : string :=
  String.concat EmptyString
    (map (fun part => match part with
                      | Text s => s
                      | FloatF _ => "#"%string
                      | IntF _ => "#"%string
                      end) t).

(** An analysis with a falling market trend. *)
Definition falling_analysis : MomentAnalysisResult.t :=
  analysis "moment_1" 100 90 0.5 "Sell" [trend_factor (-30); social_factor 10].

End Samples.

(* ================================================================== *)
(** ** Tallies                                                         *)
(* ================================================================== *)

(** What the counting loops of the reasoning metrics are compared with:
    the entries of a list that carry a given key. *)
Module Tally.

(** The factors of the type with value [k]. *)
Definition of_type (k : string) (factors : list ReasoningFactor.t)
  : list ReasoningFactor.t :=
  filter
    (fun f =>
       String.eqb
         (ReasoningFactorType.value (ReasoningFactor.factor_type f)) k)
    factors.

(** The history records with decision [d]. *)
Definition with_decision (d : string) (results : list ReasoningHistory.t)
  : list ReasoningHistory.t :=
  filter
    (fun h =>
       String.eqb
         (AIReasoningResult.decision (ReasoningHistory.reasoning_result h)) d)
    results.

(** The entry of a counting dict for a key seen [n] times: absent for a
    key never seen. *)
Definition entry (n : nat) : option Z :=
  match n with
  | O => None
  | S _ => Some (Z.of_nat n)
  end.

(** The mean absolute impact of a list of factors. *)
Definition mean_abs_impact (factors : list ReasoningFactor.t) : R :=
  Spec.total (map (fun f => Rabs (ReasoningFactor.impact f)) factors)
  / INR (length factors).

(** The sum of the values of a counting dict, as [sum(d.values())]. *)
Definition sum_values (d : list (string * Z)) : Z :=
  fold_left Z.add (Dict.values d) 0%Z.

End Tally.

(* ================================================================== *)
(** ** Facts about the runtime                                         *)
(* ================================================================== *)

Lemma Rleb_true (x y : R) : x <= y -> Rleb x y = true.
Proof. intros H. unfold Rleb. destruct (Rle_dec x y); [reflexivity | contradiction]. Qed.

Lemma Rleb_false (x y : R) : y < x -> Rleb x y = false.
Proof. intros H. unfold Rleb. destruct (Rle_dec x y); [lra | reflexivity]. Qed.

Lemma Rltb_true (x y : R) : x < y -> Rltb x y = true.
Proof. intros H. unfold Rltb. destruct (Rlt_dec x y); [reflexivity | contradiction]. Qed.

Lemma Rltb_false (x y : R) : y <= x -> Rltb x y = false.
Proof. intros H. unfold Rltb. destruct (Rlt_dec x y); [lra | reflexivity]. Qed.

Lemma Reqb_true (x y : R) : x = y -> Reqb x y = true.
Proof. intros H. unfold Reqb. destruct (Req_dec_T x y); [reflexivity | contradiction]. Qed.

Lemma Reqb_false (x y : R) : x <> y -> Reqb x y = false.
Proof. intros H. unfold Reqb. destruct (Req_dec_T x y); [contradiction | reflexivity]. Qed.

Lemma Rleb_iff (x y : R) : Rleb x y = true <-> x <= y.
Proof.
  unfold Rleb. destruct (Rle_dec x y); split; intros; try assumption;
    try reflexivity; try discriminate; contradiction.
Qed.

Lemma Rltb_iff (x y : R) : Rltb x y = true <-> x < y.
Proof.
  unfold Rltb. destruct (Rlt_dec x y); split; intros; try assumption;
    try reflexivity; try discriminate; contradiction.
Qed.

Lemma ge_le_iff (lo hi x : R) : Pydantic.ge_le lo hi x = true <-> lo <= x <= hi.
Proof.
  unfold Pydantic.ge_le. rewrite andb_true_iff, !Rleb_iff. tauto.
Qed.

(** Evaluation of comparisons, [max] and [min] on numerals. *)
Ltac rsimp :=
  repeat match goal with
    | |- context [Rleb ?a ?b] =>
        first [ rewrite (Rleb_true a b) by lra
              | rewrite (Rleb_false a b) by lra ]
    | |- context [Rltb ?a ?b] =>
        first [ rewrite (Rltb_true a b) by lra
              | rewrite (Rltb_false a b) by lra ]
    | |- context [Reqb ?a ?b] =>
        first [ rewrite (Reqb_true a b) by lra
              | rewrite (Reqb_false a b) by lra ]
    | |- context [Rmax ?a ?b] =>
        first [ rewrite (Rmax_left a b) by lra
              | rewrite (Rmax_right a b) by lra ]
    | |- context [Rmin ?a ?b] =>
        first [ rewrite (Rmin_left a b) by lra
              | rewrite (Rmin_right a b) by lra ]
    end.

Lemma fold_left_Rplus (l : list R) (a : R) :
  fold_left Rplus l a = a + fold_right Rplus 0 l.
Proof.
  revert a. induction l as [|x l IH]; intros a; simpl.
  - lra.
  - rewrite IH. lra.
Qed.

Lemma sum_total (l : list R) : Py.sum l = Spec.total l.
Proof. unfold Py.sum, Spec.total. rewrite fold_left_Rplus. lra. Qed.

Lemma np_std_stddev (l : list R) : np_std l = Spec.stddev l.
Proof.
  unfold np_std, Spec.stddev, np_mean. rewrite !sum_total.
  rewrite length_map. reflexivity.
Qed.

Lemma clamp_max_min (x lo hi : R) :
  lo <= hi -> Rmax lo (Rmin hi x) = Spec.clamp x lo hi.
Proof.
  intros H. unfold Spec.clamp, Rmax, Rmin.
  destruct (Rlt_dec x lo), (Rlt_dec hi x), (Rle_dec hi x);
    try lra; destruct (Rle_dec lo hi); try lra;
    destruct (Rle_dec lo x); lra.
Qed.

(** *** The stable descending sort *)

Section SortDescFacts.
Context {A : Type} (key : A -> R).

Local Abbreviation desc := (fun a b : A => key a >= key b).

Lemma insert_desc_perm (x : A) (s : list A) :
  Permutation (insert_desc key x s) (x :: s).
Proof.
  induction s as [|y s IH]; simpl.
  - apply Permutation_refl.
  - destruct (Rle_dec (key y) (key x)).
    + apply Permutation_refl.
    + eapply perm_trans; [apply perm_skip, IH | apply perm_swap].
Qed.

Lemma sort_desc_perm (l : list A) : Permutation (sort_desc key l) l.
Proof.
  induction l as [|x l IH]; simpl.
  - apply perm_nil.
  - eapply perm_trans; [apply insert_desc_perm | apply perm_skip, IH].
Qed.

Lemma insert_desc_sorted (x : A) (s : list A) :
  StronglySorted desc s -> StronglySorted desc (insert_desc key x s).
Proof.
  induction 1 as [|y s Hs IH Hy]; simpl.
  - constructor; constructor.
  - destruct (Rle_dec (key y) (key x)) as [Hle|Hgt].
    + constructor; [constructor; assumption|].
      constructor; [simpl; lra|].
      eapply Forall_impl; [|exact Hy]. simpl. intros; lra.
    + constructor; [exact IH|].
      eapply Permutation_Forall;
        [apply Permutation_sym, insert_desc_perm|].
      constructor; [simpl; lra | exact Hy].
Qed.

Lemma sort_desc_sorted (l : list A) : StronglySorted desc (sort_desc key l).
Proof.
  induction l as [|x l IH]; simpl.
  - constructor.
  - apply insert_desc_sorted, IH.
Qed.

Lemma sort_desc_Forall (P : A -> Prop) (l : list A) :
  Forall P l -> Forall P (sort_desc key l).
Proof.
  intros H. eapply Permutation_Forall; [apply Permutation_sym, sort_desc_perm|].
  exact H.
Qed.

Lemma sort_desc_length (l : list A) : length (sort_desc key l) = length l.
Proof. apply Permutation_length, sort_desc_perm. Qed.

(** An entry with a strictly larger key than all entries before it comes
    first. *)
Lemma sort_desc_newest (l : list A) (x : A) :
  Forall (fun y => key y < key x) l ->
  sort_desc key (l ++ [x]) = x :: sort_desc key l.
Proof.
  unfold sort_desc. induction 1 as [|y l Hy Hl IH]; simpl.
  - reflexivity.
  - rewrite IH. simpl.
    destruct (Rle_dec (key x) (key y)); [lra | reflexivity].
Qed.

End SortDescFacts.

Lemma map_result_Ok_length {A B : Type} (f : A -> result B) (l : list A)
  (out : list B) :
  map_result f l = Ok out -> length out = length l.
Proof.
  revert out. induction l as [|x l IH]; simpl; intros out H.
  - inversion H. reflexivity.
  - destruct (f x) as [y|e]; simpl in H; [|discriminate].
    destruct (map_result f l) as [ys|e]; simpl in H; [|discriminate].
    inversion H. simpl. f_equal. apply IH. reflexivity.
Qed.

Lemma map_result_Forall2 {A B : Type} (f : A -> result B) (l : list A)
  (out : list B) :
  map_result f l = Ok out <-> Forall2 (fun x y => f x = Ok y) l out.
Proof.
  revert out. induction l as [|x l IH]; simpl; intros out.
  - split; intros H.
    + inversion H. constructor.
    + inversion H. reflexivity.
  - split; intros H.
    + destruct (f x) as [y|e] eqn:Hx; simpl in H; [|discriminate].
      destruct (map_result f l) as [ys|e] eqn:Hl; simpl in H; [|discriminate].
      inversion H. constructor; [exact Hx | apply IH; reflexivity].
    + inversion H as [|? y ? ys Hx Hl]; subst.
      rewrite Hx. simpl. apply IH in Hl. rewrite Hl. reflexivity.
Qed.

Lemma map_result_Raise {A B : Type} (f : A -> result B) (l : list A)
  (e : exn) :
  map_result f l = Raise e -> exists x, In x l /\ f x = Raise e.
Proof.
  induction l as [|x l IH]; simpl; intros H.
  - discriminate.
  - destruct (f x) as [y|e'] eqn:Hx; simpl in H.
    + destruct (map_result f l) as [ys|e''] eqn:Hl; simpl in H; [discriminate|].
      inversion H; subst. destruct IH as [z [Hz Hfz]]; [reflexivity|].
      exists z. split; [right; exact Hz | exact Hfz].
    + inversion H; subst. exists x. split; [left; reflexivity | exact Hx].
Qed.

(* ================================================================== *)
(** ** MomentValuator: validation of the factors it builds             *)
(* ================================================================== *)

Lemma create_performance_factor_raises (pm : PlayerPerformanceMetrics.t) :
  MomentValuator._create_performance_factor pm = Raise ValidationError.
Proof. reflexivity. Qed.

Lemma moment_type_rarity_ge_50 (req : MomentAnalysisRequest.t) :
  (50 <= MomentValuator.moment_type_rarity req)%Z.
Proof.
  unfold MomentValuator.moment_type_rarity.
  destruct (MomentAnalysisRequest.moment_type req); simpl; lia.
Qed.

Lemma scarcity_factor_raises (req : MomentAnalysisRequest.t) (n c : Z) :
  MomentValuator.calculate_scarcity_factor req n c = Raise ValidationError.
Proof.
  unfold MomentValuator.calculate_scarcity_factor, ScarcityFactor.
  assert (H : Pydantic.ge_le 0 1 (IZR (MomentValuator.moment_type_rarity req))
              = false).
  { unfold Pydantic.ge_le. rewrite (Rleb_false _ 1).
    - apply andb_false_r.
    - pose proof (moment_type_rarity_ge_50 req) as H50.
      apply IZR_le in H50. lra. }
  rewrite H, andb_false_r. reflexivity.
Qed.

Lemma analyze_moment_raises (now : Z) (req : MomentAnalysisRequest.t)
  (pm : PlayerPerformanceMetrics.t) (md : MarketData.t)
  (sd : option SocialData.t) :
  MomentValuator.analyze_moment now req pm md sd = Raise ValidationError.
Proof.
  unfold MomentValuator.analyze_moment.
  rewrite create_performance_factor_raises. reflexivity.
Qed.

Lemma batch_step_skips (now : Z)
  (pps : list (string * PlayerPerformanceMetrics.t))
  (mds : list (string * MarketData.t))
  (results : list MomentAnalysisResult.t) (req : MomentAnalysisRequest.t) :
  MomentValuator.batch_step now pps mds results req = results.
Proof.
  unfold MomentValuator.batch_step.
  destruct (dict_get pps (MomentAnalysisRequest.player_id req)).
  - rewrite analyze_moment_raises. reflexivity.
  - reflexivity.
Qed.

Lemma batch_analyze_moments_empty (now : Z)
  (reqs : list MomentAnalysisRequest.t)
  (pps : list (string * PlayerPerformanceMetrics.t))
  (mds : list (string * MarketData.t)) :
  MomentValuator.batch_analyze_moments now reqs pps mds = [].
Proof.
  unfold MomentValuator.batch_analyze_moments.
  assert (H : forall acc,
             fold_left (MomentValuator.batch_step now pps mds) reqs acc = acc).
  { induction reqs as [|req reqs IH]; intros acc; simpl.
    - reflexivity.
    - rewrite batch_step_skips. apply IH. }
  apply H.
Qed.

(** C1. Whatever the request, the metrics, the market data and the
    social data, [analyze_moment] raises a validation error: building
    the performance factor passes floats for the two dict-typed fields
    (and a score out of 100 for a field bounded by 1), and building the
    scarcity factor passes rarities out of 100 for fields bounded by 1.
    A batch therefore has no results, whatever its input. *)
Theorem analyze_moment_always_fails_validation :
  (forall pm,
      MomentValuator._create_performance_factor pm = Raise ValidationError)
  /\ (forall req n c,
         MomentValuator.calculate_scarcity_factor req n c
         = Raise ValidationError)
  /\ (forall now req pm md sd,
         MomentValuator.analyze_moment now req pm md sd
         = Raise ValidationError)
  /\ (forall now reqs pps mds,
         MomentValuator.batch_analyze_moments now reqs pps mds = []).
Proof.
  split; [|split; [|split]]; intros.
  - apply create_performance_factor_raises.
  - apply scarcity_factor_raises.
  - apply analyze_moment_raises.
  - apply batch_analyze_moments_empty.
Qed.

(** C8. On a batch of three requests of which only the second lacks
    performance data, the batch returns no result at all (not two): the
    first and the third request are lost to the validation error of
    [analyze_moment].  The call itself does not raise. *)
Theorem batch_of_three_returns_nothing :
  Forall (fun req => MomentAnalysisRequest.valid req = true)
    Examples.three_requests
  /\ Forall (fun entry => PlayerPerformanceMetrics.valid (snd entry) = true)
       Examples.two_performances
  /\ dict_get Examples.two_performances "player_456" <> None
  /\ dict_get Examples.two_performances "player_000" = None
  /\ dict_get Examples.two_performances "player_789" <> None
  /\ MomentValuator.batch_analyze_moments 19737 Examples.three_requests
       Examples.two_performances [] = []
  /\ length (MomentValuator.batch_analyze_moments 19737
               Examples.three_requests Examples.two_performances [])
     <> 2%nat.
Proof.
  rewrite batch_analyze_moments_empty.
  split.
  { unfold Examples.three_requests, Examples.request.
    repeat constructor; unfold MomentAnalysisRequest.valid, Pydantic.gt0;
      simpl; rsimp; reflexivity. }
  split.
  { unfold Examples.two_performances, Examples.metrics.
    repeat constructor;
      unfold PlayerPerformanceMetrics.valid, Pydantic.ge_le; simpl;
      rsimp; reflexivity. }
  split; [|split; [|split; [|split]]]; simpl;
    try discriminate; reflexivity.
Qed.

(* ================================================================== *)
(** ** PerformanceAnalyzer: neutral scores                             *)
(* ================================================================== *)

Lemma clutch_scores_none (games : list GameStats.t) :
  Forall (fun g => GameStats.plus_minus g = None) games ->
  PerformanceAnalyzer.clutch_scores games = [].
Proof.
  induction 1 as [|g games Hg _ IH]; simpl.
  - reflexivity.
  - rewrite Hg. exact IH.
Qed.

(** C5. The recent-form score of the empty game list is 50, whatever
    the weights; the season consistency of fewer than five games is 50;
    the clutch performance of games none of which has a plus/minus value
    is 50. *)
Theorem neutral_scores :
  (forall weights,
      PerformanceAnalyzer.calculate_recent_form_score [] weights = Ok 50)
  /\ (forall season_stats games,
         (length games < 5)%nat ->
         PerformanceAnalyzer.calculate_season_consistency season_stats games
         = 50)
  /\ (forall games,
         Forall (fun g => GameStats.plus_minus g = None) games ->
         PerformanceAnalyzer.calculate_clutch_performance games = 50).
Proof.
  split; [|split].
  - intros weights. reflexivity.
  - intros season_stats games Hlen.
    unfold PerformanceAnalyzer.calculate_season_consistency.
    apply Nat.ltb_lt in Hlen. rewrite Hlen. reflexivity.
  - intros games Hnone.
    unfold PerformanceAnalyzer.calculate_clutch_performance.
    rewrite (clutch_scores_none games Hnone).
    destruct games; reflexivity.
Qed.

Lemma neutral_scores_witness :
  PerformanceAnalyzer.calculate_season_consistency
    Examples.sample_season_stats [Examples.game 2 18; Examples.game 1 25] = 50
  /\ PerformanceAnalyzer.calculate_clutch_performance
       [Examples.cold_game; Examples.cold_game] = 50.
Proof.
  split.
  - apply (proj1 (proj2 neutral_scores)). simpl. lia.
  - apply (proj2 (proj2 neutral_scores)).
    repeat constructor.
Defined.

(* ================================================================== *)
(** ** MomentValuator: recommendation thresholds                       *)
(* ================================================================== *)

(** C4. The recommendation label that [analyze_moment] derives from the
    ratio of fair value to current price: above 1.2 Strong Buy, above
    1.05 Buy, above 0.95 Hold, above 0.8 Sell, otherwise Strong Sell; so
    the ratios 1.3, 1.1, 1.0, 0.9 and 0.7 give the five labels in that
    order. *)
Theorem recommendation_thresholds :
  (forall ratio,
      (1.2 < ratio ->
       MomentValuator.recommendation_for ratio = "Strong Buy"%string)
      /\ (1.05 < ratio <= 1.2 ->
          MomentValuator.recommendation_for ratio = "Buy"%string)
      /\ (0.95 < ratio <= 1.05 ->
          MomentValuator.recommendation_for ratio = "Hold"%string)
      /\ (0.8 < ratio <= 0.95 ->
          MomentValuator.recommendation_for ratio = "Sell"%string)
      /\ (ratio <= 0.8 ->
          MomentValuator.recommendation_for ratio = "Strong Sell"%string))
  /\ MomentValuator.recommendation_for 1.3 = "Strong Buy"%string
  /\ MomentValuator.recommendation_for 1.1 = "Buy"%string
  /\ MomentValuator.recommendation_for 1.0 = "Hold"%string
  /\ MomentValuator.recommendation_for 0.9 = "Sell"%string
  /\ MomentValuator.recommendation_for 0.7 = "Strong Sell"%string.
Proof.
  assert (H : forall ratio,
      (1.2 < ratio ->
       MomentValuator.recommendation_for ratio = "Strong Buy"%string)
      /\ (1.05 < ratio <= 1.2 ->
          MomentValuator.recommendation_for ratio = "Buy"%string)
      /\ (0.95 < ratio <= 1.05 ->
          MomentValuator.recommendation_for ratio = "Hold"%string)
      /\ (0.8 < ratio <= 0.95 ->
          MomentValuator.recommendation_for ratio = "Sell"%string)
      /\ (ratio <= 0.8 ->
          MomentValuator.recommendation_for ratio = "Strong Sell"%string)).
  { intros ratio. unfold MomentValuator.recommendation_for.
    split; [|split; [|split; [|split]]]; intros Hr; rsimp; reflexivity. }
  split; [exact H|].
  split; [apply H; lra|].
  split; [apply H; lra|].
  split; [apply H; lra|].
  split; [apply H; lra|].
  apply H; lra.
Qed.

Lemma recommendation_thresholds_witness :
  MomentValuator.recommendation_for 1.25 = "Strong Buy"%string
  /\ MomentValuator.recommendation_for 1.2 = "Buy"%string
  /\ MomentValuator.recommendation_for 1.05 = "Hold"%string
  /\ MomentValuator.recommendation_for 0.95 = "Sell"%string
  /\ MomentValuator.recommendation_for 0.8 = "Strong Sell"%string.
Proof.
  pose proof (proj1 recommendation_thresholds) as H.
  split; [apply (H 1.25); lra|].
  split; [apply (H 1.2); lra|].
  split; [apply (H 1.05); lra|].
  split; [apply (H 0.95); lra|].
  apply (H 0.8); lra.
Defined.

(* ================================================================== *)
(** ** MomentValuator: scarcity                                        *)
(* ================================================================== *)

Lemma serial_rarity_unfold (req : MomentAnalysisRequest.t) (serial : Z) :
  MomentValuator.serial_rarity
    (MomentAnalysisRequest.with_serial_number req serial)
  = Rmin 100 (Rmax 0 (100 - IZR serial / 1000 * 100)).
Proof. reflexivity. Qed.

Lemma serial_rarity_not_strict :
  (1000 < 2000)%Z
  /\ ~ (MomentValuator.serial_rarity
          (Examples.request "moment_1" "player_456" MomentType.DUNK 1000 150)
        > MomentValuator.serial_rarity
            (Examples.request "moment_1" "player_456" MomentType.DUNK 2000 150)).
Proof.
  split; [lia|].
  unfold MomentValuator.serial_rarity, Examples.request. simpl.
  rsimp. lra.
Qed.

(** C6, amended. Of two requests that differ only in the serial number,
    the one with the lower serial never has the smaller serial rarity,
    and has the strictly greater one when the lower serial is below 1000
    and the higher serial above 0 (outside that range both rarities sit
    on the same bound of the clamp); a game-winner moment has type
    rarity at least 90. *)
Theorem serial_rarity_monotone :
  (forall req lower higher,
      (lower < higher)%Z ->
      MomentValuator.serial_rarity
        (MomentAnalysisRequest.with_serial_number req higher)
      <= MomentValuator.serial_rarity
           (MomentAnalysisRequest.with_serial_number req lower)
      /\ ((lower < 1000)%Z -> (0 < higher)%Z ->
          MomentValuator.serial_rarity
            (MomentAnalysisRequest.with_serial_number req higher)
          < MomentValuator.serial_rarity
              (MomentAnalysisRequest.with_serial_number req lower)))
  /\ (forall req,
         MomentAnalysisRequest.moment_type req = MomentType.GAME_WINNER ->
         (90 <= MomentValuator.moment_type_rarity req)%Z).
Proof.
  split.
  - intros req lower higher Hlt. rewrite !serial_rarity_unfold.
    apply IZR_lt in Hlt.
    split.
    + unfold Rmax.
      destruct (Rle_dec 0 (100 - IZR higher / 1000 * 100)),
               (Rle_dec 0 (100 - IZR lower / 1000 * 100));
        unfold Rmin;
        repeat match goal with
               | |- context [Rle_dec ?a ?b] => destruct (Rle_dec a b)
               end; lra.
    + intros Hlo Hhi. apply IZR_lt in Hlo, Hhi.
      unfold Rmax.
      destruct (Rle_dec 0 (100 - IZR higher / 1000 * 100)),
               (Rle_dec 0 (100 - IZR lower / 1000 * 100));
        unfold Rmin;
        repeat match goal with
               | |- context [Rle_dec ?a ?b] => destruct (Rle_dec a b)
               end; lra.
  - intros req Htype. unfold MomentValuator.moment_type_rarity.
    rewrite Htype. simpl. lia.
Qed.

Lemma serial_rarity_monotone_witness :
  MomentValuator.serial_rarity
    (MomentAnalysisRequest.with_serial_number
       (Examples.request "moment_1" "player_456" MomentType.GAME_WINNER 42 150)
       500)
  < MomentValuator.serial_rarity
      (MomentAnalysisRequest.with_serial_number
         (Examples.request "moment_1" "player_456" MomentType.GAME_WINNER 42 150)
         42)
  /\ (90 <= MomentValuator.moment_type_rarity
              (Examples.request "moment_1" "player_456"
                 MomentType.GAME_WINNER 42 150))%Z.
Proof.
  split.
  - apply (proj1 serial_rarity_monotone); lia.
  - apply (proj2 serial_rarity_monotone). reflexivity.
Defined.

(* ================================================================== *)
(** ** MomentValuator: fair value and confidence                       *)
(* ================================================================== *)

Lemma accumulate_totals (factors : list ValuationFactor.t) (acc : R * R) :
  fold_left MomentValuator.accumulate factors acc
  = (fst acc
     + Spec.total
         (map (fun f => ValuationFactor.impact f * ValuationFactor.weight f)
            factors),
     snd acc + Spec.total (map ValuationFactor.weight factors)).
Proof.
  revert acc. induction factors as [|f factors IH]; intros [ti tw]; simpl.
  - f_equal; lra.
  - rewrite IH. unfold MomentValuator.accumulate. simpl. f_equal; lra.
Qed.

(** C3. For a factor list of positive total weight, the fair value is
    the base price times one plus a hundredth of the weighted average
    impact; the confidence is one minus the standard deviation of the
    factor values, clamped to [0.3, 1.0], for two factors or more, and
    0.5 for fewer. *)
Theorem fair_value_formula (factors : list ValuationFactor.t)
  (base_price : R) :
  0 < Spec.total_weight factors ->
  fst (MomentValuator.calculate_fair_value factors base_price)
  = base_price * (1 + Spec.avg_impact factors / 100)
  /\ ((2 <= length factors)%nat ->
      snd (MomentValuator.calculate_fair_value factors base_price)
      = Spec.clamp
          (1 - Spec.stddev (map ValuationFactor.value factors)) 0.3 1.0)
  /\ ((length factors < 2)%nat ->
      snd (MomentValuator.calculate_fair_value factors base_price) = 0.5).
Proof.
  intros Hpos. unfold MomentValuator.calculate_fair_value.
  rewrite accumulate_totals. simpl fst. simpl snd.
  rewrite length_map.
  split; [|split].
  - unfold Spec.avg_impact.
    fold (Spec.total_weight factors).
    rewrite Rltb_true by lra.
    rewrite !Rplus_0_l. reflexivity.
  - intros Hlen.
    assert (Hb : (1 <? length factors)%nat = true) by (apply Nat.ltb_lt; lia).
    rewrite Hb, np_std_stddev. apply clamp_max_min. lra.
  - intros Hlen.
    assert (Hb : (1 <? length factors)%nat = false) by (apply Nat.ltb_ge; lia).
    rewrite Hb. reflexivity.
Qed.

Lemma fair_value_formula_witness :
  fst (MomentValuator.calculate_fair_value Examples.two_factors 150)
  = 150 * (1 + Spec.avg_impact Examples.two_factors / 100)
  /\ snd (MomentValuator.calculate_fair_value Examples.two_factors 150)
     = Spec.clamp
         (1 - Spec.stddev (map ValuationFactor.value Examples.two_factors))
         0.3 1.0.
Proof.
  assert (Hpos : 0 < Spec.total_weight Examples.two_factors).
  { unfold Spec.total_weight, Examples.two_factors. simpl. lra. }
  destruct (fair_value_formula Examples.two_factors 150 Hpos) as [Hv [Hc _]].
  split; [exact Hv|].
  apply Hc. simpl. lia.
Defined.

(* ================================================================== *)
(** ** MomentValuator: the undervalued filter                          *)
(* ================================================================== *)

Lemma undervalued_filter_Ok (results : list MomentAnalysisResult.t)
  (mc mu : R) (out : list MomentAnalysisResult.t) :
  MomentValuator.undervalued_filter results mc mu = Ok out ->
  Forall (Spec.undervalued mc mu) out /\ incl out results.
Proof.
  revert out. induction results as [|r results IH]; simpl; intros out H.
  - inversion H. split; [constructor | apply incl_refl].
  - destruct (Rleb mc _) eqn:Hconf.
    + destruct (MomentValuator.upside_ratio r) as [ratio|e] eqn:Hratio;
        simpl in H; [|discriminate].
      destruct (MomentValuator.undervalued_filter results mc mu)
        as [rest|e] eqn:Hrest; simpl in H; [|discriminate].
      destruct (IH rest eq_refl) as [Hall Hincl].
      destruct (Rltb (1 + mu) ratio) eqn:Hup; inversion H; subst.
      * split.
        -- constructor; [|exact Hall].
           split; [apply Rleb_iff; exact Hconf|].
           exists ratio. split; [exact Hratio | apply Rltb_iff; exact Hup].
        -- apply incl_cons; [left; reflexivity | apply incl_tl; exact Hincl].
      * split; [exact Hall | apply incl_tl; exact Hincl].
    + simpl in H.
      destruct (MomentValuator.undervalued_filter results mc mu)
        as [rest|e] eqn:Hrest; simpl in H; [|discriminate].
      destruct (IH rest eq_refl) as [Hall Hincl].
      inversion H; subst.
      split; [exact Hall | apply incl_tl; exact Hincl].
Qed.

Lemma undervalued_filter_Raise (results : list MomentAnalysisResult.t)
  (mc mu : R) (e : exn) :
  MomentValuator.undervalued_filter results mc mu = Raise e ->
  exists r,
    In r results
    /\ mc <= ValuationResult.confidence_score (MomentAnalysisResult.valuation r)
    /\ MomentValuator.upside_ratio r = Raise e.
Proof.
  induction results as [|r results IH]; simpl; intros H.
  - discriminate.
  - destruct (Rleb mc _) eqn:Hconf.
    + destruct (MomentValuator.upside_ratio r) as [ratio|e'] eqn:Hratio;
        simpl in H.
      * destruct (MomentValuator.undervalued_filter results mc mu)
          as [rest|e''] eqn:Hrest; simpl in H; [discriminate|].
        inversion H; subst.
        destruct (IH eq_refl) as [r' [Hin Hr']].
        exists r'. split; [right; exact Hin | exact Hr'].
      * inversion H; subst. exists r.
        split; [left; reflexivity|].
        split; [apply Rleb_iff; exact Hconf | exact Hratio].
    + simpl in H.
      destruct (MomentValuator.undervalued_filter results mc mu)
        as [rest|e''] eqn:Hrest; simpl in H; [discriminate|].
      inversion H; subst.
      destruct (IH eq_refl) as [r' [Hin Hr']].
      exists r'. split; [right; exact Hin | exact Hr'].
Qed.

Lemma undervalued_ratios (mc mu : R) (l : list MomentAnalysisResult.t) :
  Forall (Spec.undervalued mc mu) l ->
  exists keys, map_result MomentValuator.upside_ratio l = Ok keys.
Proof.
  induction 1 as [|r l [_ [ratio [Hratio _]]] _ [keys IH]]; simpl.
  - exists []. reflexivity.
  - rewrite Hratio, IH. simpl. exists (ratio :: keys). reflexivity.
Qed.

Lemma combine_keyed {A B : Type} (f : A -> result B) (l : list A)
  (keys : list B) :
  Forall2 (fun x y => f x = Ok y) l keys ->
  Forall (fun p => f (snd p) = Ok (fst p)) (combine keys l)
  /\ map snd (combine keys l) = l.
Proof.
  induction 1 as [|x y l keys Hxy _ [IH1 IH2]]; simpl.
  - split; [constructor | reflexivity].
  - split; [constructor; assumption | f_equal; exact IH2].
Qed.

Lemma keyed_map_result {A B : Type} (f : A -> result B)
  (pairs : list (B * A)) :
  Forall (fun p => f (snd p) = Ok (fst p)) pairs ->
  map_result f (map snd pairs) = Ok (map fst pairs).
Proof.
  induction 1 as [|p pairs Hp _ IH]; simpl.
  - reflexivity.
  - rewrite Hp, IH. reflexivity.
Qed.

Lemma StronglySorted_map_fst {A : Type} (pairs : list (R * A)) :
  StronglySorted (fun a b => fst a >= fst b) pairs ->
  StronglySorted Rge (map fst pairs).
Proof.
  induction 1 as [|p pairs _ IH Hp]; simpl; constructor.
  - exact IH.
  - apply Forall_map. exact Hp.
Qed.

(** C7. Whatever the results, the confidence floor and the minimum
    upside, a list returned by [get_undervalued_moments] holds only
    entries of the input whose confidence is at least the floor and
    whose ratio of fair value to current price exceeds one plus the
    minimum upside, in descending order of that ratio.  The call returns
    unless the ratio of an entry that meets the confidence floor cannot
    be computed (no current price, or a price of zero), in which case it
    raises that entry's exception. *)
Theorem undervalued_moments_filtered_and_sorted
  (results : list MomentAnalysisResult.t) (min_confidence min_upside : R) :
  match MomentValuator.get_undervalued_moments results min_confidence
          min_upside with
  | Ok out =>
      Forall (Spec.undervalued min_confidence min_upside) out
      /\ Spec.descending_upside out
      /\ incl out results
  | Raise e =>
      exists r,
        In r results
        /\ min_confidence
           <= ValuationResult.confidence_score
                (MomentAnalysisResult.valuation r)
        /\ MomentValuator.upside_ratio r = Raise e
  end.
Proof.
  unfold MomentValuator.get_undervalued_moments.
  destruct (MomentValuator.undervalued_filter results min_confidence
              min_upside) as [kept|e] eqn:Hfilter; simpl.
  - destruct (undervalued_filter_Ok _ _ _ _ Hfilter) as [Hall Hincl].
    destruct (undervalued_ratios _ _ _ Hall) as [keys Hkeys].
    rewrite Hkeys. simpl.
    destruct (combine_keyed _ _ _ (proj1 (map_result_Forall2 _ _ _) Hkeys))
      as [Hkeyed Hsnd].
    set (sorted := sort_desc fst (combine keys kept)).
    assert (Hperm : Permutation (map snd sorted) kept).
    { eapply perm_trans; [apply Permutation_map, sort_desc_perm|].
      rewrite Hsnd. apply Permutation_refl. }
    split; [|split].
    + eapply Permutation_Forall; [apply Permutation_sym, Hperm | exact Hall].
    + exists (map fst sorted). split.
      * apply keyed_map_result. apply sort_desc_Forall. exact Hkeyed.
      * apply StronglySorted_map_fst. apply sort_desc_sorted.
    + intros r Hr. apply Hincl.
      eapply Permutation_in; [exact Hperm | exact Hr].
  - eapply undervalued_filter_Raise. exact Hfilter.
Qed.

(* ================================================================== *)
(** ** PerformanceAnalyzer: the recent-form composite                  *)
(* ================================================================== *)

Lemma cold_game_valid : GameStats.valid Examples.cold_game = true.
Proof.
  unfold GameStats.valid, Pydantic.ge_le, Examples.cold_game. simpl.
  rsimp. reflexivity.
Qed.

Lemma cold_game_score :
  PerformanceAnalyzer.game_score Examples.cold_game = -25 / 3.
Proof.
  unfold PerformanceAnalyzer.game_score, GameStats.efficiency_rating,
    Examples.cold_game.
  simpl. rsimp. lra.
Qed.

Lemma cold_game_form :
  PerformanceAnalyzer.calculate_recent_form_score [Examples.cold_game] None
  = Ok (-25 / 3).
Proof.
  unfold PerformanceAnalyzer.calculate_recent_form_score,
    PerformanceAnalyzer.default_weights, PerformanceAnalyzer.normalize_weights.
  simpl length. simpl seq. simpl map. unfold Py.sum. simpl fold_left.
  simpl map_result. unfold truediv. simpl INR.
  rewrite Reqb_false by lra.
  simpl. rewrite cold_game_score. f_equal. lra.
Qed.

(** C2. A well-formed game with ten missed shots and nothing else has
    efficiency rating -10 and per-game composite -25/3: the composite is
    capped from above only.  The recent-form score of that game alone is
    -25/3, below the range [0,100], and [analyze_player_performance]
    then fails the validation of its metrics record instead of
    returning one. *)
Theorem recent_form_composite_not_clamped_below :
  GameStats.valid Examples.cold_game = true
  /\ GameStats.efficiency_rating Examples.cold_game = (-10)%Z
  /\ PerformanceAnalyzer.game_score Examples.cold_game = -25 / 3
  /\ PerformanceAnalyzer.calculate_recent_form_score [Examples.cold_game] None
     = Ok (-25 / 3)
  /\ ~ (0 <= -25 / 3 <= 100)
  /\ (forall now,
         PerformanceAnalyzer.analyze_player_performance now
           Examples.sample_player_profile Examples.sample_season_stats
           [Examples.cold_game]
         = Raise ValidationError).
Proof.
  split; [exact cold_game_valid|].
  split; [reflexivity|].
  split; [exact cold_game_score|].
  split; [exact cold_game_form|].
  split; [lra|].
  intros now. unfold PerformanceAnalyzer.analyze_player_performance.
  rewrite cold_game_form. simpl bind.
  unfold PlayerPerformanceMetrics.new, PlayerPerformanceMetrics.valid.
  simpl PlayerPerformanceMetrics.recent_form_score.
  assert (H : Pydantic.ge_le 0 100 (-25 / 3) = false).
  { unfold Pydantic.ge_le. rsimp. reflexivity. }
  rewrite H. reflexivity.
Qed.

(* ================================================================== *)
(** ** PerformanceAnalyzer: next-game prediction                       *)
(* ================================================================== *)

Lemma sort_desc_sorted_id {A : Type} (key : A -> R) (l : list A) :
  StronglySorted (fun a b => key a >= key b) l -> sort_desc key l = l.
Proof.
  unfold sort_desc. induction 1 as [|x l _ IH Hx]; simpl.
  - reflexivity.
  - rewrite IH.
    destruct l as [|y l']; simpl; [reflexivity|].
    inversion Hx as [|? ? Hxy _]; subst.
    destruct (Rle_dec (key y) (key x)); [reflexivity | lra].
Qed.

Lemma StronglySorted_weaken {A : Type} (P Q : A -> A -> Prop) (l : list A) :
  (forall a b, P a b -> Q a b) -> StronglySorted P l -> StronglySorted Q l.
Proof.
  intros HPQ. induction 1 as [|x l _ IH Hx]; constructor.
  - exact IH.
  - eapply Forall_impl; [|exact Hx]. intros b. apply HPQ.
Qed.

(** On a list ordered most-recent-first, the most recent games are the
    leading entries. *)
Lemma most_recent_leading (n : nat) (games : list GameStats.t) :
  Spec.most_recent_first games -> Spec.most_recent n games = firstn n games.
Proof.
  intros H. unfold Spec.most_recent. rewrite sort_desc_sorted_id.
  - reflexivity.
  - eapply StronglySorted_weaken; [|exact H].
    intros a b Hab. simpl in Hab. apply IZR_le in Hab. lra.
Qed.

Lemma six_games_most_recent_first : Spec.most_recent_first Examples.six_games.
Proof.
  unfold Spec.most_recent_first, Examples.six_games.
  repeat (constructor; [|repeat constructor; simpl; lia]). constructor.
Qed.

Lemma six_games_valid :
  Forall (fun g => GameStats.valid g = true) Examples.six_games.
Proof.
  unfold Examples.six_games.
  repeat constructor;
    unfold GameStats.valid, Pydantic.ge_le, Examples.game; simpl;
    rsimp; reflexivity.
Qed.

(** Without recent games the prediction is the season averages, with
    confidence 0.5. *)
Lemma predict_next_game_fallback (profile : PlayerProfile.t)
  (season : SeasonStats.t) (rating : R) :
  PerformanceAnalyzer.predict_next_game_performance profile season [] rating
  = PerformanceAnalyzer.Prediction.mk
      (Finite (SeasonStats.points_per_game season))
      (SeasonStats.rebounds_per_game season)
      (Finite (SeasonStats.assists_per_game season))
      0.5.
Proof. reflexivity. Qed.

(** What the prediction computes from a non-empty game list, when no
    divisor is zero: averages over the trailing five entries of the
    list, and a deviation over its trailing ten. *)
Lemma predict_next_game_trailing (profile : PlayerProfile.t)
  (season : SeasonStats.t) (games : list GameStats.t) (rating : R) :
  games <> [] ->
  rating <> 0 ->
  np_mean (map (fun g => IZR (GameStats.points g)) (last_n 5 games)) <> 0 ->
  PerformanceAnalyzer.predict_next_game_performance profile season games rating
  = PerformanceAnalyzer.Prediction.mk
      (Finite
         (np_mean (map (fun g => IZR (GameStats.points g)) (last_n 5 games))
          / (rating / 112)))
      (np_mean (map (fun g => IZR (GameStats.rebounds g)) (last_n 5 games)))
      (Finite
         (np_mean (map (fun g => IZR (GameStats.assists g)) (last_n 5 games))
          / (rating / 112 * 0.5)))
      (Rmax 0.3
         (1 - np_std (map (fun g => IZR (GameStats.points g))
                        (last_n 10 games))
              / np_mean (map (fun g => IZR (GameStats.points g))
                           (last_n 5 games)))).
Proof.
  intros Hne Hrating Havg.
  unfold PerformanceAnalyzer.predict_next_game_performance.
  destruct games as [|g games]; [contradiction|].
  unfold np_truediv.
  rewrite (Reqb_false (rating / 112) 0) by lra.
  rewrite (Reqb_false (rating / 112 * 0.5) 0) by lra.
  rewrite (Reqb_false _ 0 Havg).
  reflexivity.
Qed.

(** C10. Six games ordered most-recent-first, the latest with 30 points
    and the five before it with 10 each: the five most recent games
    average 14 points, but the prediction averages the trailing five
    entries of the list (the five oldest games), 10 points, and projects
    10/(110/112) against an opponent rated 110, not 14/(110/112).
    Against an opponent of league-average rating 112, where the points
    projection is the plain average, the assists projection is twice the
    average of 6 assists. *)
Theorem prediction_averages_trailing_games :
  Forall (fun g => GameStats.valid g = true) Examples.six_games
  /\ Spec.most_recent_first Examples.six_games
  /\ np_mean (map (fun g => IZR (GameStats.points g))
               (Spec.most_recent 5 Examples.six_games)) = 14
  /\ np_mean (map (fun g => IZR (GameStats.points g))
               (last_n 5 Examples.six_games)) = 10
  /\ PerformanceAnalyzer.Prediction.predicted_points
       (PerformanceAnalyzer.predict_next_game_performance
          Examples.sample_player_profile Examples.sample_season_stats
          Examples.six_games 110)
     = Finite (10 / (110 / 112))
  /\ PerformanceAnalyzer.Prediction.predicted_points
       (PerformanceAnalyzer.predict_next_game_performance
          Examples.sample_player_profile Examples.sample_season_stats
          Examples.six_games 110)
     <> Finite (14 / (110 / 112))
  /\ PerformanceAnalyzer.Prediction.predicted_points
       (PerformanceAnalyzer.predict_next_game_performance
          Examples.sample_player_profile Examples.sample_season_stats
          Examples.six_games 112)
     = Finite 10
  /\ PerformanceAnalyzer.Prediction.predicted_assists
       (PerformanceAnalyzer.predict_next_game_performance
          Examples.sample_player_profile Examples.sample_season_stats
          Examples.six_games 112)
     = Finite (2 * 6).
Proof.
  assert (Hpoints :
    PerformanceAnalyzer.Prediction.predicted_points
      (PerformanceAnalyzer.predict_next_game_performance
         Examples.sample_player_profile Examples.sample_season_stats
         Examples.six_games 110)
    = Finite (10 / (110 / 112))).
  { unfold PerformanceAnalyzer.predict_next_game_performance. simpl.
    unfold np_truediv, np_mean, Py.sum. simpl.
    rewrite Reqb_false by lra. f_equal. lra. }
  split; [exact six_games_valid|].
  split; [exact six_games_most_recent_first|].
  split.
  { rewrite most_recent_leading by exact six_games_most_recent_first.
    unfold np_mean, Py.sum. simpl. lra. }
  split.
  { unfold np_mean, Py.sum. simpl. lra. }
  split; [exact Hpoints|].
  split.
  { rewrite Hpoints. intros H. inversion H. lra. }
  split.
  - unfold PerformanceAnalyzer.predict_next_game_performance. simpl.
    unfold np_truediv, np_mean, Py.sum. simpl.
    rewrite Reqb_false by lra. f_equal. lra.
  - unfold PerformanceAnalyzer.predict_next_game_performance. simpl.
    unfold np_truediv, np_mean, Py.sum. simpl.
    rewrite Reqb_false by lra. f_equal. lra.
Qed.

(* ================================================================== *)
(** ** ReasoningService: storing and reloading                         *)
(* ================================================================== *)

Lemma insert_factors_connected (db : Database.t) (reasoning_id : string)
  (factors : list ReasoningFactor.t) :
  Database.pool db = true ->
  fold_left
    (fun db f =>
       Database.insert_factor db (ReasoningService.factor_row reasoning_id f))
    factors db
  = Database.mk true (Database.ai_reasoning db)
      (Database.reasoning_factors db
       ++ map (ReasoningService.factor_row reasoning_id) factors)
      (Database.reasoning_context db).
Proof.
  revert db. induction factors as [|f factors IH]; intros db Hpool; simpl.
  - rewrite app_nil_r. destruct db; simpl in *. subst. reflexivity.
  - rewrite IH.
    + unfold Database.insert_factor. rewrite Hpool. simpl.
      rewrite <- app_assoc. reflexivity.
    + unfold Database.insert_factor. rewrite Hpool. reflexivity.
Qed.

(** A statement that returns has taken effect. *)
Lemma execute_Ok (fails : bool) (insert : Database.t -> Database.t)
  (db db1 : Database.t) (u : unit) :
  Database.execute fails insert db = (Ok u, db1) -> db1 = insert db.
Proof.
  unfold Database.execute.
  destruct (Database.pool db && fails); intros H; inversion H. reflexivity.
Qed.

Lemma execute_no_failure (k : nat) (insert : Database.t -> Database.t)
  (db : Database.t) :
  Database.execute (Database.no_failure k) insert db = (Ok tt, insert db).
Proof.
  unfold Database.execute, Database.no_failure.
  rewrite andb_false_r. reflexivity.
Qed.

Lemma store_factors_Ok (fails : nat -> bool) (k : nat) (reasoning_id : string)
  (factors : list ReasoningFactor.t) (db db1 : Database.t) (u : unit) :
  ReasoningService.store_factors fails k reasoning_id factors db = (Ok u, db1) ->
  db1 = fold_left
          (fun db f =>
             Database.insert_factor db
               (ReasoningService.factor_row reasoning_id f))
          factors db.
Proof.
  revert k db. induction factors as [|f factors IH]; intros k db;
    cbn [ReasoningService.store_factors fold_left].
  - intros H. inversion H. reflexivity.
  - destruct (Database.execute (fails k) _ db) as [[u1|e] db2] eqn:Hexec.
    + apply execute_Ok in Hexec. subst db2. apply IH.
    + discriminate.
Qed.

Lemma store_factors_no_failure (k : nat) (reasoning_id : string)
  (factors : list ReasoningFactor.t) (db : Database.t) :
  ReasoningService.store_factors Database.no_failure k reasoning_id factors db
  = (Ok tt,
     fold_left
       (fun db f =>
          Database.insert_factor db
            (ReasoningService.factor_row reasoning_id f))
       factors db).
Proof.
  revert k db. induction factors as [|f factors IH]; intros k db;
    cbn [ReasoningService.store_factors fold_left].
  - reflexivity.
  - rewrite execute_no_failure. apply IH.
Qed.

(** The store after a run in which no statement fails. *)
Lemma store_reasoning_no_failure (db : Database.t) (reasoning_id : string)
  (now : Z) (r : AIReasoningResult.t) (user_id : option string) :
  ReasoningService.store_reasoning db Database.no_failure reasoning_id now r
    user_id
  = (Ok reasoning_id,
     Database.insert_context
       (fold_left
          (fun db f =>
             Database.insert_factor db
               (ReasoningService.factor_row reasoning_id f))
          (AIReasoningResult.factors r)
          (Database.insert_reasoning db
             (ReasoningService.reasoning_row reasoning_id now r user_id)))
       (ReasoningService.context_row reasoning_id r)).
Proof.
  unfold ReasoningService.store_reasoning.
  rewrite execute_no_failure, store_factors_no_failure, execute_no_failure.
  reflexivity.
Qed.

(** A call that returns has written what a run without failures
    writes, and returns the identifier drawn. *)
Lemma store_reasoning_returns (db : Database.t) (fails : nat -> bool)
  (reasoning_id : string) (now : Z) (r : AIReasoningResult.t)
  (user_id : option string) (stored_id : string) (db' : Database.t) :
  ReasoningService.store_reasoning db fails reasoning_id now r user_id
  = (Ok stored_id, db') ->
  stored_id = reasoning_id
  /\ db' = snd (ReasoningService.store_reasoning db Database.no_failure
                  reasoning_id now r user_id).
Proof.
  rewrite store_reasoning_no_failure. cbn [snd].
  unfold ReasoningService.store_reasoning.
  destruct (Database.execute (fails 0%nat) _ db) as [[u1|e] db1] eqn:H1;
    [|discriminate].
  apply execute_Ok in H1. subst db1.
  destruct (ReasoningService.store_factors fails 1 reasoning_id _ _)
    as [[u2|e] db2] eqn:H2; [|discriminate].
  apply store_factors_Ok in H2. subst db2.
  destruct (Database.execute (fails _) _ _) as [[u3|e] db3] eqn:H3;
    [|discriminate].
  apply execute_Ok in H3. subst db3.
  intros H. inversion H. split; reflexivity.
Qed.

(** The store after a write through a connected client in which no
    statement fails. *)
Lemma store_reasoning_connected (db : Database.t) (reasoning_id : string)
  (now : Z) (r : AIReasoningResult.t) (user_id : option string) :
  Database.pool db = true ->
  snd (ReasoningService.store_reasoning db Database.no_failure reasoning_id
         now r user_id)
  = Database.mk true
      (Database.ai_reasoning db
       ++ [ReasoningService.reasoning_row reasoning_id now r user_id])
      (Database.reasoning_factors db
       ++ map (ReasoningService.factor_row reasoning_id)
            (AIReasoningResult.factors r))
      (Database.reasoning_context db
       ++ [ReasoningService.context_row reasoning_id r]).
Proof.
  intros Hpool. rewrite store_reasoning_no_failure. cbn [snd].
  rewrite insert_factors_connected.
  - unfold Database.insert_reasoning, Database.insert_context.
    rewrite Hpool. reflexivity.
  - unfold Database.insert_reasoning. rewrite Hpool. reflexivity.
Qed.

(** Without a pool the write is dropped, silently, whatever the store
    would have done with the statements. *)
Lemma store_reasoning_disconnected (db : Database.t) (fails : nat -> bool)
  (reasoning_id : string) (now : Z) (r : AIReasoningResult.t)
  (user_id : option string) :
  Database.pool db = false ->
  ReasoningService.store_reasoning db fails reasoning_id now r user_id
  = (Ok reasoning_id, db).
Proof.
  intros Hpool.
  assert (Hexec : forall b insert,
             (forall d, Database.pool d = false -> insert d = d) ->
             Database.execute b insert db = (Ok tt, db)).
  { intros b insert Hinsert. unfold Database.execute.
    rewrite Hpool, (Hinsert db Hpool). reflexivity. }
  assert (Hfactors : forall fs k,
             ReasoningService.store_factors fails k reasoning_id fs db
             = (Ok tt, db)).
  { induction fs as [|f fs IH]; intros k;
      cbn [ReasoningService.store_factors]; [reflexivity|].
    rewrite Hexec; [apply IH|].
    intros d Hd. unfold Database.insert_factor. rewrite Hd. reflexivity. }
  unfold ReasoningService.store_reasoning.
  rewrite Hexec.
  2:{ intros d Hd. unfold Database.insert_reasoning. rewrite Hd.
      reflexivity. }
  rewrite Hfactors, Hexec; [reflexivity|].
  intros d Hd. unfold Database.insert_context. rewrite Hd. reflexivity.
Qed.

Lemma of_value_value (t : ReasoningFactorType.t) :
  ReasoningFactorType.of_value (ReasoningFactorType.value t) = Ok t.
Proof. destruct t; reflexivity. Qed.

Lemma load_factor_row (reasoning_id : string) (f : ReasoningFactor.t) :
  ReasoningFactor.valid f = true ->
  ReasoningService.load_factor (ReasoningService.factor_row reasoning_id f)
  = Ok f.
Proof.
  intros Hvalid. unfold ReasoningService.load_factor. simpl.
  rewrite of_value_value. simpl.
  unfold ReasoningFactor.new. destruct f. simpl in *.
  unfold ReasoningFactor.valid in *. simpl in *. rewrite Hvalid. reflexivity.
Qed.

Lemma load_factor_rows (reasoning_id : string)
  (rows : list Database.reasoning_factors_row) :
  Forall (fun row => exists f,
              row = ReasoningService.factor_row reasoning_id f
              /\ ReasoningFactor.valid f = true) rows ->
  exists fs,
    map_result ReasoningService.load_factor rows = Ok fs
    /\ map (ReasoningService.factor_row reasoning_id) fs = rows.
Proof.
  induction 1 as [|row rows [f [Hrow Hvalid]] _ [fs [IH1 IH2]]]; simpl.
  - exists []. split; reflexivity.
  - subst row. rewrite (load_factor_row _ _ Hvalid), IH1. simpl.
    exists (f :: fs). split; [reflexivity | simpl; f_equal; exact IH2].
Qed.

Lemma load_factor_ok_rows (rows : list Database.reasoning_factors_row) :
  Forall Spec.factor_row_ok rows ->
  exists fs, map_result ReasoningService.load_factor rows = Ok fs.
Proof.
  induction 1 as [|row rows [[t Ht] [Hw [Hi Hc]]] _ [fs IH]]; simpl.
  - exists []. reflexivity.
  - unfold ReasoningService.load_factor at 1. rewrite Ht. simpl.
    unfold ReasoningFactor.new, ReasoningFactor.valid. simpl.
    rewrite Hw, Hi, Hc, IH. simpl. eexists. reflexivity.
Qed.

Lemma descending_weight_rows (reasoning_id : string)
  (fs : list ReasoningFactor.t) :
  StronglySorted (fun a b => Database.weight a >= Database.weight b)
    (map (ReasoningService.factor_row reasoning_id) fs) ->
  Spec.descending_weight fs.
Proof.
  unfold Spec.descending_weight.
  induction fs as [|f fs IH]; simpl; intros H.
  - constructor.
  - inversion H as [|? ? Hs Hf]; subst. constructor.
    + apply IH. exact Hs.
    + rewrite Forall_map in Hf. exact Hf.
Qed.

Lemma filter_none {A : Type} (f : A -> bool) (l : list A) :
  Forall (fun x => f x = false) l -> filter f l = [].
Proof.
  induction 1 as [|x l Hx _ IH]; simpl; [reflexivity|].
  rewrite Hx. exact IH.
Qed.

Lemma filter_all {A : Type} (f : A -> bool) (l : list A) :
  Forall (fun x => f x = true) l -> filter f l = l.
Proof.
  induction 1 as [|x l Hx _ IH]; simpl; [reflexivity|].
  rewrite Hx, IH. reflexivity.
Qed.

Lemma flat_map_ext_In {A B : Type} (f g : A -> list B) (l : list A) :
  (forall x, In x l -> f x = g x) -> flat_map f l = flat_map g l.
Proof.
  induction l as [|x l IH]; simpl; intros H; [reflexivity|].
  rewrite (H x) by (left; reflexivity).
  rewrite IH; [reflexivity|]. intros y Hy. apply H. right. exact Hy.
Qed.

Lemma map_result_all_Ok {A B : Type} (f : A -> result B) (l : list A) :
  Forall (fun x => exists y, f x = Ok y) l ->
  exists ys, map_result f l = Ok ys.
Proof.
  induction 1 as [|x l [y Hy] _ [ys IH]]; simpl.
  - exists []. reflexivity.
  - rewrite Hy, IH. simpl. exists (y :: ys). reflexivity.
Qed.

Section StoreThenLoad.

Variables (db : Database.t) (reasoning_id : string) (now : Z).
Variables (r : AIReasoningResult.t) (user_id : option string).

Hypothesis connected : Database.pool db = true.
Hypothesis fresh : Spec.fresh_id db reasoning_id.

Local Abbreviation db' :=
  (snd (ReasoningService.store_reasoning db Database.no_failure reasoning_id
          now r user_id)).

Local Abbreviation row :=
  (ReasoningService.reasoning_row reasoning_id now r user_id).

Local Abbreviation ctx := (ReasoningService.context_row reasoning_id r).

Lemma stored_db :
  db' = Database.mk true
          (Database.ai_reasoning db ++ [row])
          (Database.reasoning_factors db
           ++ map (ReasoningService.factor_row reasoning_id)
                (AIReasoningResult.factors r))
          (Database.reasoning_context db ++ [ctx]).
Proof. apply store_reasoning_connected. exact connected. Qed.

Lemma select_factors_stored :
  Database.select_factors db' reasoning_id
  = sort_desc Database.weight
      (map (ReasoningService.factor_row reasoning_id)
         (AIReasoningResult.factors r)).
Proof.
  rewrite stored_db. unfold Database.select_factors. simpl.
  rewrite filter_app, filter_none, filter_all; [reflexivity| |].
  - apply Forall_map, Forall_forall. intros f _. simpl.
    apply String.eqb_refl.
  - destruct fresh as [_ [Hf _]].
    eapply Forall_impl; [|exact Hf]. intros f Hne. simpl.
    apply String.eqb_neq. exact Hne.
Qed.

Lemma select_factors_other (other : string) :
  other <> reasoning_id ->
  Database.select_factors db' other = Database.select_factors db other.
Proof.
  intros Hne. rewrite stored_db. unfold Database.select_factors. simpl.
  rewrite connected, filter_app.
  rewrite (filter_none _ (map _ _)); [rewrite app_nil_r; reflexivity|].
  apply Forall_map, Forall_forall. intros f _. simpl.
  apply String.eqb_neq. intros Heq. apply Hne. symmetry. exact Heq.
Qed.

Lemma left_join_stored :
  Database.left_join_context db' row = [(row, Some ctx)].
Proof.
  rewrite stored_db. unfold Database.left_join_context. simpl.
  rewrite filter_app, filter_none; simpl.
  - rewrite String.eqb_refl. reflexivity.
  - destruct fresh as [_ [_ Hc]].
    eapply Forall_impl; [|exact Hc]. intros c Hne. simpl.
    apply String.eqb_neq. intros Heq. apply Hne. symmetry. exact Heq.
Qed.

Lemma left_join_other (other : Database.ai_reasoning_row) :
  Database.id other <> reasoning_id ->
  Database.left_join_context db' other = Database.left_join_context db other.
Proof.
  intros Hne. rewrite stored_db. unfold Database.left_join_context. simpl.
  rewrite filter_app. simpl.
  rewrite (proj2 (String.eqb_neq _ _) Hne). rewrite app_nil_r. reflexivity.
Qed.

End StoreThenLoad.

Lemma left_join_fst (db : Database.t) (r0 : Database.ai_reasoning_row)
  (p : Database.ai_reasoning_row * option Database.reasoning_context_row) :
  In p (Database.left_join_context db r0) -> fst p = r0.
Proof.
  unfold Database.left_join_context.
  destruct (filter _ (Database.reasoning_context db)) as [|rc rcs].
  - intros [H|[]]. subst p. reflexivity.
  - intros H. apply in_map_iff in H. destruct H as [rc' [H _]].
    subst p. reflexivity.
Qed.

Lemma left_join_has_context (db : Database.t)
  (r0 : Database.ai_reasoning_row)
  (p : Database.ai_reasoning_row * option Database.reasoning_context_row) :
  (exists rc, In rc (Database.reasoning_context db)
              /\ Database.context_reasoning_id rc = Database.id r0) ->
  In p (Database.left_join_context db r0) ->
  exists rc, snd p = Some rc.
Proof.
  intros [rc [Hin Hid]]. unfold Database.left_join_context.
  destruct (filter _ (Database.reasoning_context db)) as [|rc' rcs] eqn:Hf.
  - exfalso.
    assert (Hrc : In rc (filter
                           (fun rc => String.eqb (Database.id r0)
                                        (Database.context_reasoning_id rc))
                           (Database.reasoning_context db))).
    { apply filter_In. split; [exact Hin|]. rewrite Hid.
      apply String.eqb_refl. }
    rewrite Hf in Hrc. exact Hrc.
  - intros H. apply in_map_iff in H. destruct H as [rc'' [H _]].
    subst p. exists rc''. reflexivity.
Qed.

(** A row written before keeps loading after a later write. *)
Lemma load_reasoning_earlier (db : Database.t) (reasoning_id : string)
  (now : Z) (r : AIReasoningResult.t) (user_id : option string)
  (r0 : Database.ai_reasoning_row)
  (p : Database.ai_reasoning_row * option Database.reasoning_context_row) :
  Database.pool db = true ->
  Spec.fresh_id db reasoning_id ->
  Spec.consistent db ->
  In r0 (Database.ai_reasoning db) ->
  In p (Database.left_join_context db r0) ->
  exists res,
    ReasoningService.load_reasoning
      (snd (ReasoningService.store_reasoning db Database.no_failure reasoning_id
          now r user_id)) p
    = Ok res.
Proof.
  intros Hpool Hfresh [Hrows Hfactors] Hr0 Hp.
  pose proof (left_join_fst _ _ _ Hp) as Hfst.
  rewrite Forall_forall in Hrows. destruct (Hrows r0 Hr0) as [Hconf Hctx].
  destruct (left_join_has_context _ _ _ Hctx Hp) as [rc Hsnd].
  assert (Hid : Database.id r0 <> reasoning_id).
  { destruct Hfresh as [Hids _]. rewrite Forall_forall in Hids.
    apply Hids. exact Hr0. }
  unfold ReasoningService.load_reasoning,
    ReasoningService._get_reasoning_factors.
  rewrite Hfst, Hsnd.
  rewrite (select_factors_other db reasoning_id now r user_id Hpool)
    by exact Hid.
  destruct (load_factor_ok_rows (Database.select_factors db (Database.id r0)))
    as [fs Hfs].
  { unfold Database.select_factors. rewrite Hpool.
    apply sort_desc_Forall. apply Forall_forall. intros f Hf.
    apply filter_In in Hf. destruct Hf as [Hf _].
    rewrite Forall_forall in Hfactors. apply Hfactors. exact Hf. }
  rewrite Hfs. simpl.
  unfold AIReasoningResult.new. simpl. rewrite Hconf. simpl.
  eexists. reflexivity.
Qed.

(** The row just written loads back into a result with the decision,
    the confidence and as many factors as were written, the factors
    in descending order of weight. *)
Lemma load_reasoning_stored (db : Database.t) (reasoning_id : string)
  (now : Z) (r : AIReasoningResult.t) (user_id : option string) :
  Database.pool db = true ->
  Spec.fresh_id db reasoning_id ->
  AIReasoningResult.valid r = true ->
  exists r',
    ReasoningService.load_reasoning
      (snd (ReasoningService.store_reasoning db Database.no_failure reasoning_id
          now r user_id))
      (ReasoningService.reasoning_row reasoning_id now r user_id,
       Some (ReasoningService.context_row reasoning_id r))
    = Ok r'
    /\ AIReasoningResult.moment_id r' = AIReasoningResult.moment_id r
    /\ AIReasoningResult.decision r' = AIReasoningResult.decision r
    /\ AIReasoningResult.confidence_score r'
       = AIReasoningResult.confidence_score r
    /\ length (AIReasoningResult.factors r')
       = length (AIReasoningResult.factors r)
    /\ Spec.descending_weight (AIReasoningResult.factors r').
Proof.
  intros Hpool Hfresh Hvalid.
  unfold AIReasoningResult.valid in Hvalid.
  apply andb_true_iff in Hvalid. destruct Hvalid as [Hconf Hfactors].
  rewrite forallb_forall in Hfactors.
  pose proof (select_factors_stored db reasoning_id now r user_id Hpool Hfresh)
    as Hselect.
  set (db' := snd (ReasoningService.store_reasoning db Database.no_failure
                     reasoning_id now r user_id)) in *.
  unfold ReasoningService.load_reasoning,
    ReasoningService._get_reasoning_factors.
  simpl fst. simpl snd. simpl Database.id.
  rewrite Hselect.
  destruct (load_factor_rows reasoning_id
              (sort_desc Database.weight
                 (map (ReasoningService.factor_row reasoning_id)
                    (AIReasoningResult.factors r))))
    as [fs [Hfs Hrows]].
  { apply sort_desc_Forall. apply Forall_map, Forall_forall.
    intros f Hf. exists f. split; [reflexivity | apply Hfactors; exact Hf]. }
  rewrite Hfs. simpl.
  unfold AIReasoningResult.new. simpl. rewrite Hconf. simpl.
  eexists. split; [reflexivity|]. simpl.
  split; [reflexivity|]. split; [reflexivity|]. split; [reflexivity|].
  split.
  - rewrite <- (length_map (ReasoningService.factor_row reasoning_id) fs).
    rewrite Hrows, sort_desc_length, length_map. reflexivity.
  - apply (descending_weight_rows reasoning_id). rewrite Hrows.
    apply sort_desc_sorted.
Qed.

Lemma firstn_incl {A : Type} (n : nat) (l : list A) : incl (firstn n l) l.
Proof.
  revert l. induction n as [|n IH]; intros [|x l]; simpl;
    intros y Hy; try contradiction.
  destruct Hy as [Hy|Hy]; [left; exact Hy | right; apply IH; exact Hy].
Qed.

(** The query of [get_reasoning_by_moment] after a write: the row just
    written comes first, the earlier rows of the moment follow. *)
Lemma select_after_store (db : Database.t) (reasoning_id : string)
  (now : Z) (r : AIReasoningResult.t) (user_id : option string) (limit : Z) :
  Database.pool db = true ->
  Spec.fresh_id db reasoning_id ->
  Spec.stamped_before db now ->
  (1 <= limit)%Z ->
  exists rest,
    Database.select_reasoning_by_moment
      (snd (ReasoningService.store_reasoning db Database.no_failure reasoning_id
          now r user_id))
      (AIReasoningResult.moment_id r) limit
    = Ok ((ReasoningService.reasoning_row reasoning_id now r user_id,
           Some (ReasoningService.context_row reasoning_id r)) :: rest)
    /\ Forall (fun p => exists r0,
                   In r0 (Database.ai_reasoning db)
                   /\ In p (Database.left_join_context db r0)) rest.
Proof.
  intros Hpool Hfresh Hbefore Hlimit.
  pose proof (left_join_stored db reasoning_id now r user_id Hpool Hfresh)
    as Hnew.
  pose proof (left_join_other db reasoning_id now r user_id Hpool) as Hold.
  pose proof (stored_db db reasoning_id now r user_id Hpool) as Hdb.
  set (db' := snd (ReasoningService.store_reasoning db Database.no_failure
                     reasoning_id now r user_id)) in *.
  assert (Hpool' : Database.pool db' = true) by (rewrite Hdb; reflexivity).
  assert (Hrows' : Database.ai_reasoning db'
                   = Database.ai_reasoning db
                     ++ [ReasoningService.reasoning_row reasoning_id now r
                           user_id])
    by (rewrite Hdb; reflexivity).
  clear Hdb.
  unfold Database.select_reasoning_by_moment.
  rewrite Hpool', Hrows'.
  assert (Hl : (limit <? 0)%Z = false) by (apply Z.ltb_ge; lia).
  rewrite Hl, filter_app. simpl filter.
  rewrite String.eqb_refl, flat_map_app. simpl flat_map.
  rewrite Hnew, app_nil_r.
  set (earlier := filter
                    (fun r0 => String.eqb (Database.moment_id r0)
                                 (AIReasoningResult.moment_id r))
                    (Database.ai_reasoning db)).
  assert (Hearlier : incl earlier (Database.ai_reasoning db)).
  { intros r0 Hr0. apply filter_In in Hr0. exact (proj1 Hr0). }
  rewrite (flat_map_ext_In (Database.left_join_context db')
             (Database.left_join_context db)).
  2:{ intros r0 Hr0. apply Hold.
      destruct Hfresh as [Hids _]. rewrite Forall_forall in Hids.
      apply Hids, Hearlier, Hr0. }
  assert (Hjoined : Forall (fun p => exists r0,
                               In r0 (Database.ai_reasoning db)
                               /\ In p (Database.left_join_context db r0))
                      (flat_map (Database.left_join_context db) earlier)).
  { apply Forall_forall. intros p Hp. apply in_flat_map in Hp.
    destruct Hp as [r0 [Hr0 Hp]]. exists r0.
    split; [apply Hearlier; exact Hr0 | exact Hp]. }
  rewrite sort_desc_newest.
  2:{ eapply Forall_impl; [|exact Hjoined].
      intros p [r0 [Hr0 Hp]]. simpl.
      rewrite (left_join_fst _ _ _ Hp).
      unfold Spec.stamped_before in Hbefore.
      rewrite Forall_forall in Hbefore.
      apply IZR_lt, Hbefore, Hr0. }
  destruct (Z.to_nat limit) as [|k] eqn:Hk; [lia|].
  simpl firstn. eexists. split; [reflexivity|].
  apply Forall_forall. intros p Hp.
  apply firstn_incl in Hp.
  apply (Permutation_in _ (sort_desc_perm _ _)) in Hp.
  rewrite Forall_forall in Hjoined. apply Hjoined. exact Hp.
Qed.


Lemma reasoning_valid : AIReasoningResult.valid Examples.reasoning = true.
Proof.
  unfold AIReasoningResult.valid, ReasoningFactor.valid, Pydantic.ge_le.
  simpl. rsimp. reflexivity.
Qed.

Lemma empty_db_consistent : Spec.consistent Examples.empty_db.
Proof. split; constructor. Qed.

Lemma one_record_db_fresh : Spec.fresh_id Samples.one_record_db "id-2".
Proof.
  split; [|split]; repeat constructor; simpl; discriminate.
Qed.

Lemma one_record_db_consistent : Spec.consistent Samples.one_record_db.
Proof.
  split.
  - constructor; [|constructor]. split.
    + apply ge_le_iff. simpl. lra.
    + eexists. split; [left; reflexivity | reflexivity].
  - repeat constructor; simpl;
      try (eexists; reflexivity); apply ge_le_iff; lra.
Qed.


(** Complete writes of valid results keep the store consistent. *)
Lemma store_reasoning_consistent (db : Database.t) (reasoning_id : string)
  (now : Z) (r : AIReasoningResult.t) (user_id : option string) :
  Database.pool db = true ->
  Spec.consistent db ->
  AIReasoningResult.valid r = true ->
  Spec.consistent
    (snd (ReasoningService.store_reasoning db Database.no_failure reasoning_id
          now r user_id)).
Proof.
  intros Hpool [Hrows Hfactors] Hvalid.
  rewrite store_reasoning_connected by exact Hpool.
  unfold AIReasoningResult.valid in Hvalid.
  apply andb_true_iff in Hvalid. destruct Hvalid as [Hconf Hfs].
  rewrite forallb_forall in Hfs.
  split; simpl.
  - apply Forall_app. split.
    + eapply Forall_impl; [|exact Hrows].
      intros r0 [Hc [rc [Hin Hid]]]. split; [exact Hc|].
      exists rc. split; [apply in_or_app; left; exact Hin | exact Hid].
    + constructor; [|constructor]. split; [exact Hconf|].
      exists (ReasoningService.context_row reasoning_id r).
      split; [apply in_or_app; right; left; reflexivity | reflexivity].
  - apply Forall_app. split; [exact Hfactors|].
    apply Forall_map, Forall_forall. intros f Hf.
    specialize (Hfs f Hf). unfold ReasoningFactor.valid in Hfs.
    apply andb_true_iff in Hfs. destruct Hfs as [Hfs Hc].
    apply andb_true_iff in Hfs. destruct Hfs as [Hw Hi].
    split; [|split; [|split]]; simpl; try assumption.
    exists (ReasoningFactor.factor_type f). apply of_value_value.
Qed.

(** Through a client without a pool nothing is read back. *)
Lemma get_reasoning_disconnected (db : Database.t) (moment : string)
  (limit : Z) :
  Database.pool db = false ->
  ReasoningService.get_reasoning_by_moment db moment limit = [].
Proof.
  intros Hpool. unfold ReasoningService.get_reasoning_by_moment,
    Database.select_reasoning_by_moment.
  rewrite Hpool. reflexivity.
Qed.

(* ================================================================== *)
(** ** Ranges of the scores and factors that are produced              *)
(* ================================================================== *)

Lemma validated_Ok {A : Type} (ok : bool) (a b : A) :
  Pydantic.validated ok a = Ok b -> ok = true /\ b = a.
Proof.
  unfold Pydantic.validated. destruct ok; intros H; inversion H.
  split; reflexivity.
Qed.

Lemma clamp_0_100 (x : R) : 0 <= Rmax 0 (Rmin 100 x) <= 100.
Proof.
  unfold Rmax, Rmin.
  destruct (Rle_dec 100 x); destruct (Rle_dec 0 _); lra.
Qed.

Lemma game_score_le_100 (g : GameStats.t) :
  PerformanceAnalyzer.game_score g <= 100.
Proof. unfold PerformanceAnalyzer.game_score. apply Rmin_r. Qed.

Lemma breakout_potential_range (p : PlayerProfile.t) (s : SeasonStats.t) :
  0 <= PerformanceAnalyzer.calculate_breakout_potential p s <= 100.
Proof. apply clamp_0_100. Qed.

Lemma veteran_stability_range (p : PlayerProfile.t) (s : SeasonStats.t) :
  0 <= PerformanceAnalyzer.calculate_veteran_stability p s <= 100.
Proof. apply clamp_0_100. Qed.

Lemma injury_risk_range (p : PlayerProfile.t) (s : SeasonStats.t)
  (games : list GameStats.t) :
  0 <= PerformanceAnalyzer.estimate_injury_risk p s games <= 100.
Proof. apply clamp_0_100. Qed.

Lemma total_bounds (lo hi : R) (l : list R) :
  Forall (fun x => lo <= x <= hi) l ->
  lo * INR (length l) <= Spec.total l <= hi * INR (length l).
Proof.
  induction 1 as [|x l Hx _ IH].
  - simpl. lra.
  - change (length (x :: l)) with (S (length l)). rewrite S_INR.
    simpl Spec.total. lra.
Qed.

Lemma np_mean_bounds (lo hi : R) (l : list R) :
  l <> [] ->
  Forall (fun x => lo <= x <= hi) l ->
  lo <= np_mean l <= hi.
Proof.
  intros Hne Hall. unfold np_mean. rewrite sum_total.
  pose proof (total_bounds lo hi l Hall) as [Hlo Hhi].
  assert (Hn : 0 < INR (length l)).
  { destruct l; [contradiction|]. apply lt_0_INR. simpl. lia. }
  split.
  - apply Rmult_le_reg_r with (INR (length l)); [exact Hn|].
    unfold Rdiv. rewrite Rmult_assoc, Rinv_l by lra. lra.
  - apply Rmult_le_reg_r with (INR (length l)); [exact Hn|].
    unfold Rdiv. rewrite Rmult_assoc, Rinv_l by lra. lra.
Qed.

Lemma clutch_scores_range (games : list GameStats.t) :
  Forall (fun x => 0 <= x <= 100) (PerformanceAnalyzer.clutch_scores games).
Proof.
  induction games as [|g games IH]; simpl.
  - constructor.
  - destruct (GameStats.plus_minus g); [|exact IH].
    constructor; [|exact IH].
    unfold Rmax, Rmin.
    destruct (Rle_dec 100 _); destruct (Rle_dec 0 _); lra.
Qed.

Lemma clutch_performance_range (games : list GameStats.t) :
  0 <= PerformanceAnalyzer.calculate_clutch_performance games <= 100.
Proof.
  unfold PerformanceAnalyzer.calculate_clutch_performance.
  destruct games as [|g games]; [lra|].
  pose proof (clutch_scores_range (g :: games)) as H.
  destruct (PerformanceAnalyzer.clutch_scores (g :: games)) as [|x l];
    [lra|].
  apply np_mean_bounds; [discriminate | exact H].
Qed.

Lemma coefficient_of_variation_nonneg (values : list R) :
  Forall (fun x => 0 <= x) values ->
  0 <= PerformanceAnalyzer.coefficient_of_variation values.
Proof.
  intros Hall. unfold PerformanceAnalyzer.coefficient_of_variation.
  destruct values as [|x l]; [lra|].
  unfold Reqb. destruct (Req_dec_T (np_mean (x :: l)) 0) as [|Hne]; [lra|].
  assert (Hmean : 0 <= np_mean (x :: l)).
  { unfold np_mean. rewrite sum_total.
    assert (Ht : 0 <= Spec.total (x :: l)).
    { clear Hne. induction Hall; simpl; [lra|]. simpl in *. lra. }
    apply Rmult_le_pos; [exact Ht|].
    apply Rlt_le, Rinv_0_lt_compat, lt_0_INR. simpl. lia. }
  apply Rmult_le_pos; [apply sqrt_pos|].
  apply Rlt_le, Rinv_0_lt_compat. lra.
Qed.

Lemma season_consistency_range (s : SeasonStats.t) (games : list GameStats.t) :
  Forall (fun g => GameStats.valid g = true) games ->
  0 <= PerformanceAnalyzer.calculate_season_consistency s games <= 100.
Proof.
  intros Hvalid. unfold PerformanceAnalyzer.calculate_season_consistency.
  destruct (length games <? 5)%nat; [lra|].
  assert (Hnonneg : forall (field : GameStats.t -> Z),
             (forall g, GameStats.valid g = true -> (0 <= field g)%Z) ->
             Forall (fun x => 0 <= x) (map (fun g => IZR (field g)) games)).
  { intros field Hfield. apply Forall_map.
    eapply Forall_impl; [|exact Hvalid].
    intros g Hg. simpl. apply IZR_le. apply Hfield. exact Hg. }
  assert (Hfields : forall g, GameStats.valid g = true ->
             (0 <= GameStats.points g)%Z /\ (0 <= GameStats.rebounds g)%Z
             /\ (0 <= GameStats.assists g)%Z).
  { intros g Hg. unfold GameStats.valid, Pydantic.int_ge0 in Hg.
    repeat (apply andb_true_iff in Hg; destruct Hg as [Hg ?]).
    repeat split; apply Z.leb_le; assumption. }
  pose proof (coefficient_of_variation_nonneg _
                (Hnonneg GameStats.points
                   (fun g Hg => proj1 (Hfields g Hg)))) as Hp.
  pose proof (coefficient_of_variation_nonneg _
                (Hnonneg GameStats.rebounds
                   (fun g Hg => proj1 (proj2 (Hfields g Hg))))) as Hr.
  pose proof (coefficient_of_variation_nonneg _
                (Hnonneg GameStats.assists
                   (fun g Hg => proj2 (proj2 (Hfields g Hg))))) as Ha.
  unfold Rmax. destruct (Rle_dec 0 _); lra.
Qed.

Lemma new_metrics_range (m0 m : PlayerPerformanceMetrics.t) :
  PlayerPerformanceMetrics.new m0 = Ok m ->
  0 <= PlayerPerformanceMetrics.recent_form_score m <= 100
  /\ 0 <= PlayerPerformanceMetrics.season_consistency m <= 100
  /\ 0 <= PlayerPerformanceMetrics.clutch_performance m <= 100
  /\ 0 <= PlayerPerformanceMetrics.injury_risk m <= 100
  /\ 0 <= PlayerPerformanceMetrics.market_momentum m <= 100
  /\ 0 <= PlayerPerformanceMetrics.breakout_potential m <= 100
  /\ 0 <= PlayerPerformanceMetrics.veteran_stability m <= 100.
Proof.
  unfold PlayerPerformanceMetrics.new. intros H.
  apply validated_Ok in H. destruct H as [Hvalid Hm]. subst m.
  unfold PlayerPerformanceMetrics.valid in Hvalid.
  repeat (apply andb_true_iff in Hvalid; destruct Hvalid as [Hvalid ?]).
  repeat match goal with
         | H : Pydantic.ge_le _ _ _ = true |- _ => apply ge_le_iff in H
         | H : Rleb _ _ = true |- _ => apply Rleb_iff in H
         end.
  repeat split; lra.
Qed.

(** A metrics record that [analyze_player_performance] returns has all
    its scores in [0,100]: the constructor checks them. *)
Lemma produced_metrics_range (now : Z) (p : PlayerProfile.t)
  (s : SeasonStats.t) (games : list GameStats.t)
  (m : PlayerPerformanceMetrics.t) :
  PerformanceAnalyzer.analyze_player_performance now p s games = Ok m ->
  0 <= PlayerPerformanceMetrics.recent_form_score m <= 100
  /\ 0 <= PlayerPerformanceMetrics.season_consistency m <= 100
  /\ 0 <= PlayerPerformanceMetrics.clutch_performance m <= 100
  /\ 0 <= PlayerPerformanceMetrics.injury_risk m <= 100
  /\ 0 <= PlayerPerformanceMetrics.market_momentum m <= 100
  /\ 0 <= PlayerPerformanceMetrics.breakout_potential m <= 100
  /\ 0 <= PlayerPerformanceMetrics.veteran_stability m <= 100.
Proof.
  unfold PerformanceAnalyzer.analyze_player_performance.
  destruct (PerformanceAnalyzer.calculate_recent_form_score games None)
    as [form|e]; cbn [bind]; [|discriminate].
  apply new_metrics_range.
Qed.

Lemma MarketTrendFactor_Ok (factor_type : string) (weight value : R)
  (description : text) (impact pm vt ms : R) (sales : list Sale.t)
  (f : ValuationFactor.t) :
  MarketTrendFactor factor_type weight value description impact pm vt ms sales
  = Ok f ->
  ValuationFactor.value f = value /\ ValuationFactor.impact f = impact
  /\ -100 <= impact <= 100 /\ -100 <= pm <= 100 /\ -100 <= vt <= 100
  /\ -1 <= ms <= 1.
Proof.
  unfold MarketTrendFactor. intros H.
  apply validated_Ok in H. destruct H as [Hvalid Hf]. subst f.
  unfold ValuationFactor.base_valid in Hvalid.
  repeat (apply andb_true_iff in Hvalid; destruct Hvalid as [Hvalid ?]).
  repeat match goal with
         | H : Pydantic.ge_le _ _ _ = true |- _ => apply ge_le_iff in H
         end.
  simpl. repeat split; lra.
Qed.

(** A market-trend factor that is produced has value in [0,1] and
    impact in [-100,100]. *)
Lemma market_trend_factor_range (req : MomentAnalysisRequest.t)
  (price_history : list PricePoint.t) (sales : list Sale.t)
  (f : ValuationFactor.t) :
  MomentValuator.calculate_market_trend_factor req price_history sales = Ok f ->
  0 <= ValuationFactor.value f <= 1 /\ -100 <= ValuationFactor.impact f <= 100.
Proof.
  unfold MomentValuator.calculate_market_trend_factor.
  destruct price_history as [|p price_history].
  - intros H. apply MarketTrendFactor_Ok in H.
    destruct H as [Hv [Hi [Hb _]]]. rewrite Hv, Hi. lra.
  - destruct (map_result _ (last_n 10 (p :: price_history))) as [prices|e];
      cbn [bind]; [|discriminate].
    match goal with
    | |- bind ?m _ = _ -> _ => destruct m as [pm|e]
    end; cbn [bind]; [|discriminate].
    match goal with
    | |- bind ?m _ = _ -> _ => destruct m as [ms|e]
    end; cbn [bind]; [|discriminate].
    intros H. apply MarketTrendFactor_Ok in H.
    destruct H as [Hv [Hi [Hb [Hpm [Hvt Hms]]]]]. rewrite Hv, Hi.
    split; [|exact Hb]. lra.
Qed.

Lemma SocialSentimentFactor_Ok (factor_type : string) (weight value : R)
  (description : text) (impact : R) (mentions : Z) (sentiment viral : R)
  (influencers : Z) (f : ValuationFactor.t) :
  SocialSentimentFactor factor_type weight value description impact mentions
    sentiment viral influencers = Ok f ->
  ValuationFactor.value f = value /\ ValuationFactor.impact f = impact
  /\ -100 <= impact <= 100 /\ -1 <= sentiment <= 1 /\ 0 <= viral <= 100
  /\ (0 <= influencers)%Z.
Proof.
  unfold SocialSentimentFactor. intros H.
  apply validated_Ok in H. destruct H as [Hvalid Hf]. subst f.
  unfold ValuationFactor.base_valid in Hvalid.
  repeat (apply andb_true_iff in Hvalid; destruct Hvalid as [Hvalid ?]).
  repeat match goal with
         | H : Pydantic.ge_le _ _ _ = true |- _ => apply ge_le_iff in H
         | H : Pydantic.int_ge0 _ = true |- _ => apply Z.leb_le in H
         end.
  simpl. repeat split; try lra; assumption.
Qed.

Lemma np_log10_nonneg (x : R) : 1 <= x -> 0 <= np_log10 x.
Proof.
  intros Hx. unfold np_log10.
  assert (H10 : 0 < ln 10).
  { rewrite <- ln_1. apply ln_increasing; lra. }
  assert (Hln : 0 <= ln x).
  { rewrite <- ln_1. destruct Hx as [Hx|Hx].
    - apply Rlt_le, ln_increasing; lra.
    - rewrite <- Hx. lra. }
  apply Rmult_le_pos; [exact Hln|].
  apply Rlt_le, Rinv_0_lt_compat, H10.
Qed.

(** A social-sentiment factor that is produced has value in [0,1] and
    impact in [-100,100]. *)
Lemma social_sentiment_factor_range (player_id : string)
  (social_data : option SocialData.t) (f : ValuationFactor.t) :
  MomentValuator.calculate_social_sentiment_factor player_id social_data
  = Ok f ->
  0 <= ValuationFactor.value f <= 1 /\ -100 <= ValuationFactor.impact f <= 100.
Proof.
  unfold MomentValuator.calculate_social_sentiment_factor.
  set (data := match social_data with
               | Some d =>
                   if SocialData.truthy d then d
                   else MomentValuator.default_social_data
               | None => MomentValuator.default_social_data
               end).
  set (mentions := match SocialData.mentions data with
                   | Some m => m
                   | None => 0%Z
                   end).
  set (sentiment := match SocialData.sentiment data with
                    | Some s => s
                    | None => 0
                    end).
  set (viral := match SocialData.viral_score data with
                | Some v => v
                | None => 0
                end).
  set (influencers := match SocialData.influencer_mentions data with
                      | Some m => m
                      | None => 0%Z
                      end).
  intros H. apply SocialSentimentFactor_Ok in H.
  destruct H as [Hv [Hi [Hb [Hs [Hvi Hin]]]]]. rewrite Hv, Hi.
  split; [|exact Hb].
  assert (Hm : 0 <= Rmin 100 (np_log10 (IZR (Z.max 1 mentions)) * 20) <= 100).
  { split; [|apply Rmin_l].
    apply Rmin_glb; [lra|].
    apply Rmult_le_pos; [|lra].
    apply np_log10_nonneg. apply IZR_le. lia. }
  assert (Hinf : 0 <= Rmin 100 (IZR influencers * 10) <= 100).
  { split; [|apply Rmin_l].
    apply Rmin_glb; [lra|]. apply IZR_le in Hin. lra. }
  lra.
Qed.

(* ================================================================== *)
(** ** Further properties: player statistics and comparison            *)
(* ================================================================== *)

Lemma percentage_range (made attempted : Z) :
  (0 <= made <= attempted)%Z ->
  0 <= Shooting.percentage made attempted <= 1.
Proof.
  intros [Hm Ha]. unfold Shooting.percentage.
  destruct (attempted =? 0)%Z eqn:Hz; [lra|].
  apply Z.eqb_neq in Hz.
  assert (Hpos : 0 < IZR attempted) by (apply IZR_lt; lia).
  apply IZR_le in Hm, Ha.
  split.
  - apply Rmult_le_pos; [exact Hm|]. apply Rlt_le, Rinv_0_lt_compat, Hpos.
  - apply Rmult_le_reg_r with (IZR attempted); [exact Hpos|].
    unfold Rdiv. rewrite Rmult_assoc, Rinv_l by lra. lra.
Qed.

(** X1. The three shooting percentages of a game are 0 when nothing was
    attempted, and lie in [0,1] when no more shots were made than
    attempted. *)
Theorem shooting_percentages_range (g : GameStats.t) :
  (GameStats.field_goals_attempted g = 0%Z ->
   Shooting.field_goal_percentage g = 0)
  /\ (GameStats.three_pointers_attempted g = 0%Z ->
      Shooting.three_point_percentage g = 0)
  /\ (GameStats.free_throws_attempted g = 0%Z ->
      Shooting.free_throw_percentage g = 0)
  /\ ((0 <= GameStats.field_goals_made g
       <= GameStats.field_goals_attempted g)%Z ->
      0 <= Shooting.field_goal_percentage g <= 1)
  /\ ((0 <= GameStats.three_pointers_made g
       <= GameStats.three_pointers_attempted g)%Z ->
      0 <= Shooting.three_point_percentage g <= 1)
  /\ ((0 <= GameStats.free_throws_made g
       <= GameStats.free_throws_attempted g)%Z ->
      0 <= Shooting.free_throw_percentage g <= 1).
Proof.
  unfold Shooting.field_goal_percentage, Shooting.three_point_percentage,
    Shooting.free_throw_percentage.
  split; [|split; [|split; [|split; [|split]]]];
    try (intros H; unfold Shooting.percentage; rewrite H; reflexivity);
    apply percentage_range.
Qed.

Lemma shooting_percentages_range_witness :
  Shooting.field_goal_percentage
    (GameStats.mk "game_0" "player_123" 1 "LAL" 0
       0 0 0 0 0 0 0 0 0 0 0 0 0 None) = 0
  /\ Shooting.three_point_percentage Examples.cold_game = 0
  /\ Shooting.free_throw_percentage Examples.cold_game = 0
  /\ 0 <= Shooting.field_goal_percentage (Examples.game 1 25) <= 1
  /\ 0 <= Shooting.three_point_percentage (Examples.game 1 25) <= 1
  /\ 0 <= Shooting.free_throw_percentage (Examples.game 1 25) <= 1.
Proof.
  pose proof (shooting_percentages_range Examples.cold_game) as Hc.
  pose proof (shooting_percentages_range (Examples.game 1 25)) as Hg.
  split; [apply shooting_percentages_range; reflexivity|].
  split; [apply Hc; reflexivity|].
  split; [apply Hc; reflexivity|].
  split; [apply Hg; simpl; lia|].
  split; [apply Hg; simpl; lia|].
  apply Hg; simpl; lia.
Defined.

(** X2. Swapping the two players of a comparison negates the weighted
    difference and each of the four reported differences (recent form,
    consistency, clutch, injury risk), turns a verdict for player 1 into
    one for player 2 and back, and keeps "similar"; a player compared
    with itself is "similar". *)
Theorem compare_players_swap (m1 m2 : PlayerPerformanceMetrics.t) :
  Analyzer.total_diff m2 m1 = - Analyzer.total_diff m1 m2
  /\ Analyzer.Comparison.recent_form_diff (Analyzer.compare_players m2 m1)
     = - Analyzer.Comparison.recent_form_diff (Analyzer.compare_players m1 m2)
  /\ Analyzer.Comparison.consistency_diff (Analyzer.compare_players m2 m1)
     = - Analyzer.Comparison.consistency_diff (Analyzer.compare_players m1 m2)
  /\ Analyzer.Comparison.clutch_diff (Analyzer.compare_players m2 m1)
     = - Analyzer.Comparison.clutch_diff (Analyzer.compare_players m1 m2)
  /\ Analyzer.Comparison.injury_risk_diff (Analyzer.compare_players m2 m1)
     = - Analyzer.Comparison.injury_risk_diff (Analyzer.compare_players m1 m2)
  /\ (Analyzer.Comparison.overall_advantage (Analyzer.compare_players m1 m2)
      = "player1"%string
      <-> Analyzer.Comparison.overall_advantage
            (Analyzer.compare_players m2 m1) = "player2"%string)
  /\ (Analyzer.Comparison.overall_advantage (Analyzer.compare_players m1 m2)
      = "similar"%string
      <-> Analyzer.Comparison.overall_advantage
            (Analyzer.compare_players m2 m1) = "similar"%string)
  /\ Analyzer.Comparison.overall_advantage (Analyzer.compare_players m1 m1)
     = "similar"%string.
Proof.
  assert (Hswap : Analyzer.total_diff m2 m1 = - Analyzer.total_diff m1 m2)
    by (unfold Analyzer.total_diff; lra).
  assert (Hself : Analyzer.total_diff m1 m1 = 0)
    by (unfold Analyzer.total_diff; lra).
  split; [exact Hswap|].
  split; [simpl; lra|].
  split; [simpl; lra|].
  split; [simpl; lra|].
  split; [simpl; lra|].
  unfold Analyzer.compare_players. simpl.
  rewrite Hswap, Hself.
  generalize (Analyzer.total_diff m1 m2). intros d.
  unfold Rltb.
  split; [|split].
  - destruct (Rlt_dec 5 d), (Rlt_dec d (-5)), (Rlt_dec 5 (- d)),
      (Rlt_dec (- d) (-5)); split; intros H;
      try reflexivity; try discriminate; lra.
  - destruct (Rlt_dec 5 d), (Rlt_dec d (-5)), (Rlt_dec 5 (- d)),
      (Rlt_dec (- d) (-5)); split; intros H;
      try reflexivity; try discriminate; lra.
  - destruct (Rlt_dec 5 0), (Rlt_dec 0 (-5)); try lra. reflexivity.
Qed.

(** X3. The analyzer's factor constructor fails validation for every
    metrics record and every weight: it passes the two scores as the
    dict-typed fields of the factor. *)
Theorem analyzer_performance_factor_raises
  (pm : PlayerPerformanceMetrics.t) (weight : R) :
  Analyzer.create_performance_factor pm weight = Raise ValidationError.
Proof. reflexivity. Qed.

(** X4. Clutch performance, breakout potential, veteran stability and
    injury risk lie in [0,100] for every input, valid or not. *)
Theorem clamped_sub_scores_range (p : PlayerProfile.t) (s : SeasonStats.t)
  (games : list GameStats.t) :
  0 <= PerformanceAnalyzer.calculate_clutch_performance games <= 100
  /\ 0 <= PerformanceAnalyzer.calculate_breakout_potential p s <= 100
  /\ 0 <= PerformanceAnalyzer.calculate_veteran_stability p s <= 100
  /\ 0 <= PerformanceAnalyzer.estimate_injury_risk p s games <= 100.
Proof.
  split; [apply clutch_performance_range|].
  split; [apply clamp_0_100|].
  split; apply clamp_0_100.
Qed.

(** X5. The season consistency of games with non-negative counts lies in
    [0,100]. *)
Theorem season_consistency_in_range (s : SeasonStats.t)
  (games : list GameStats.t) :
  Forall (fun g => GameStats.valid g = true) games ->
  0 <= PerformanceAnalyzer.calculate_season_consistency s games <= 100.
Proof.
  intros Hvalid.
  pose proof (season_consistency_range s games Hvalid) as H. exact H.
Qed.

Lemma season_consistency_in_range_witness :
  0 <= PerformanceAnalyzer.calculate_season_consistency
         Examples.sample_season_stats Examples.six_games <= 100.
Proof.
  apply season_consistency_in_range. exact six_games_valid.
Defined.

(* ================================================================== *)
(** ** Further properties: recent form                                 *)
(* ================================================================== *)

Lemma truediv_Ok (x y : R) : y <> 0 -> truediv x y = Ok (x / y).
Proof. intros H. unfold truediv. rewrite Reqb_false by exact H. reflexivity. Qed.

Lemma normalize_by (t : R) (ws : list R) :
  t <> 0 ->
  map_result (fun w => truediv w t) ws = Ok (map (fun w => w / t) ws).
Proof.
  intros Ht. induction ws as [|w ws IH]; simpl.
  - reflexivity.
  - rewrite truediv_Ok by exact Ht. simpl. rewrite IH. reflexivity.
Qed.

Lemma normalize_weights_Ok (ws : list R) :
  Py.sum ws <> 0 ->
  PerformanceAnalyzer.normalize_weights ws
  = Ok (map (fun w => w / Py.sum ws) ws).
Proof. intros H. apply normalize_by. exact H. Qed.

Lemma normalize_weights_zero (ws : list R) :
  ws <> [] -> Py.sum ws = 0 ->
  PerformanceAnalyzer.normalize_weights ws = Raise ZeroDivisionError.
Proof.
  intros Hne Hz. unfold PerformanceAnalyzer.normalize_weights.
  destruct ws as [|w ws]; [contradiction|].
  simpl map_result. unfold truediv at 1.
  rewrite Reqb_true by exact Hz. reflexivity.
Qed.

Lemma skipn_nth_error {A : Type} (l : list A) (i : nat) (x : A) :
  nth_error l i = Some x -> skipn i l = x :: skipn (S i) l.
Proof.
  revert i. induction l as [|y l IH]; intros [|i] H; simpl in *;
    try discriminate.
  - inversion H. reflexivity.
  - apply IH. exact H.
Qed.

Lemma weighted_scores_Ok (games : list GameStats.t) (ws : list R) (i : nat) :
  (i + length games <= length ws)%nat ->
  PerformanceAnalyzer.weighted_scores games ws i
  = Ok (map (fun p => PerformanceAnalyzer.game_score (fst p) * snd p)
          (combine games (skipn i ws))).
Proof.
  revert i. induction games as [|g games IH]; intros i Hlen; simpl.
  - reflexivity.
  - simpl in Hlen. unfold getitem.
    destruct (nth_error ws i) as [w|] eqn:Hw.
    + simpl. rewrite IH by lia. simpl.
      rewrite (skipn_nth_error _ _ _ Hw). reflexivity.
    + apply nth_error_None in Hw. lia.
Qed.

Lemma weighted_scores_IndexError (games : list GameStats.t) (ws : list R)
  (i : nat) :
  (i <= length ws)%nat ->
  (length ws < i + length games)%nat ->
  PerformanceAnalyzer.weighted_scores games ws i = Raise IndexError.
Proof.
  revert i. induction games as [|g games IH]; intros i Hi Hlen; simpl in *.
  - lia.
  - unfold getitem. destruct (nth_error ws i) as [w|] eqn:Hw.
    + simpl. rewrite IH; [reflexivity| |lia].
      assert (i < length ws)%nat by (apply nth_error_Some; congruence). lia.
    + reflexivity.
Qed.

Lemma weighted_total_lower (f : GameStats.t -> R)
  (games : list GameStats.t) (ws : list R) :
  Forall (fun g => 0 <= f g) games ->
  Forall (fun w => 0 <= w) ws ->
  0 <= Spec.total (map (fun p => f (fst p) * snd p) (combine games ws)).
Proof.
  intros Hg. revert ws.
  induction Hg as [|g games Hfg _ IH]; intros ws Hws; simpl; [lra|].
  destruct Hws as [|w ws Hw Hws]; simpl; [lra|].
  specialize (IH ws Hws). nra.
Qed.

Lemma default_weights_positive (n : nat) :
  Forall (fun w => 0 < w) (PerformanceAnalyzer.default_weights n).
Proof.
  unfold PerformanceAnalyzer.default_weights. apply Forall_map, Forall_forall.
  intros i _. simpl. pose proof (pos_INR i) as Hi.
  apply Rdiv_lt_0_compat; lra.
Qed.

Lemma total_positive (l : list R) :
  l <> [] -> Forall (fun w => 0 < w) l -> 0 < Spec.total l.
Proof.
  intros Hne Hall. destruct Hall as [|x l Hx Hl]; [contradiction|].
  simpl. clear Hne.
  assert (0 <= Spec.total l).
  { induction Hl; simpl; lra. }
  lra.
Qed.

Lemma game_score_nonneg (g : GameStats.t) :
  GameStats.valid g = true ->
  (0 <= GameStats.efficiency_rating g)%Z ->
  0 <= PerformanceAnalyzer.game_score g.
Proof.
  intros Hvalid Heff. unfold PerformanceAnalyzer.game_score.
  unfold GameStats.valid, Pydantic.int_ge0 in Hvalid.
  repeat (apply andb_true_iff in Hvalid; destruct Hvalid as [Hvalid ?]).
  repeat match goal with
         | H : (0 <=? _)%Z = true |- _ => apply Z.leb_le, IZR_le in H
         | H : Rleb _ _ = true |- _ => apply Rleb_iff in H
         end.
  apply IZR_le in Heff.
  apply Rmin_glb; [|lra].
  apply Rmult_le_pos.
  - lra.
  - apply Rmin_glb; lra.
Qed.

(** X6. With the default recency weights the recent-form score of a
    non-empty game list is computed (no exception), and it is at least
    0 when every game is well-formed and has a non-negative efficiency
    rating.  Nothing is stated of the upper end, which the weighted sum
    of capped composites meets only up to the rounding of the weights. *)
Theorem recent_form_default_weights_nonneg (games : list GameStats.t) :
  games <> [] ->
  exists score,
    PerformanceAnalyzer.calculate_recent_form_score games None = Ok score
    /\ (Forall (fun g => GameStats.valid g = true
                         /\ (0 <= GameStats.efficiency_rating g)%Z) games ->
        0 <= score).
Proof.
  intros Hne.
  unfold PerformanceAnalyzer.calculate_recent_form_score.
  destruct games as [|g0 games0] eqn:Hgames; [contradiction|].
  rewrite <- Hgames. clear Hne.
  set (ws := PerformanceAnalyzer.default_weights (length games)).
  assert (Hlen : length ws = length games).
  { unfold ws, PerformanceAnalyzer.default_weights.
    rewrite length_map, length_seq. reflexivity. }
  assert (Hws : Forall (fun w => 0 < w) ws) by apply default_weights_positive.
  assert (Hsum : 0 < Py.sum ws).
  { rewrite sum_total. apply total_positive; [|exact Hws].
    intros Hnil. rewrite Hnil in Hlen. rewrite Hgames in Hlen.
    discriminate. }
  rewrite normalize_weights_Ok by lra. cbn [bind].
  rewrite weighted_scores_Ok by (rewrite length_map; simpl; lia).
  cbn [bind]. simpl skipn.
  set (nws := map (fun w => w / Py.sum ws) ws).
  assert (Hnws : Forall (fun w => 0 <= w) nws).
  { unfold nws. apply Forall_map. eapply Forall_impl; [|exact Hws].
    intros w Hw. simpl. apply Rlt_le, Rdiv_lt_0_compat; lra. }
  eexists. split; [reflexivity|]. rewrite sum_total.
  intros Hvalid. apply weighted_total_lower; [|exact Hnws].
  eapply Forall_impl; [|exact Hvalid].
  intros g [Hv He]. apply game_score_nonneg; assumption.
Qed.

Lemma recent_form_default_weights_nonneg_witness :
  exists score,
    PerformanceAnalyzer.calculate_recent_form_score Examples.six_games None
    = Ok score
    /\ 0 <= score.
Proof.
  destruct (recent_form_default_weights_nonneg Examples.six_games)
    as [score [Hscore Hlow]]; [discriminate|].
  exists score. split; [exact Hscore|].
  apply Hlow. unfold Examples.six_games.
  repeat constructor;
    try (unfold GameStats.valid, Pydantic.ge_le, Examples.game; simpl;
         rsimp; reflexivity);
    unfold GameStats.efficiency_rating, Examples.game; simpl; lia.
Defined.

Lemma sum_of_zeros (ws : list R) :
  Forall (fun w => w = 0) ws -> Py.sum ws = 0.
Proof.
  intros H. rewrite sum_total. induction H as [|w ws Hw _ IH]; simpl; lra.
Qed.

Lemma sum_of_nonneg_positive (ws : list R) :
  Forall (fun w => 0 <= w) ws -> Exists (fun w => 0 < w) ws -> 0 < Py.sum ws.
Proof.
  intros Hall Hex. rewrite sum_total.
  assert (Hge : forall l, Forall (fun w => 0 <= w) l -> 0 <= Spec.total l).
  { induction 1; simpl; lra. }
  induction Hex as [w ws Hw|w ws _ IH]; inversion Hall; subst; simpl.
  - pose proof (Hge ws H2). lra.
  - specialize (IH H2). lra.
Qed.

(** X7. With caller-supplied weights and at least one game: weights
    that are all zero raise ZeroDivisionError; an empty weight list
    raises IndexError; non-negative weights of which one is positive
    raise IndexError when there are fewer weights than games, and give
    a score otherwise.  (For weights of one sign the sum is zero, in
    exact as in floating-point arithmetic, only when every weight is.) *)
Theorem recent_form_custom_weights_errors (games : list GameStats.t)
  (ws : list R) :
  games <> [] ->
  (ws <> [] -> Forall (fun w => w = 0) ws ->
   PerformanceAnalyzer.calculate_recent_form_score games (Some ws)
   = Raise ZeroDivisionError)
  /\ (ws = [] ->
      PerformanceAnalyzer.calculate_recent_form_score games (Some ws)
      = Raise IndexError)
  /\ (Forall (fun w => 0 <= w) ws -> Exists (fun w => 0 < w) ws ->
      (length ws < length games)%nat ->
      PerformanceAnalyzer.calculate_recent_form_score games (Some ws)
      = Raise IndexError)
  /\ (Forall (fun w => 0 <= w) ws -> Exists (fun w => 0 < w) ws ->
      (length games <= length ws)%nat ->
      exists score,
        PerformanceAnalyzer.calculate_recent_form_score games (Some ws)
        = Ok score).
Proof.
  intros Hne. unfold PerformanceAnalyzer.calculate_recent_form_score.
  destruct games as [|g0 games0] eqn:Hgames; [contradiction|].
  rewrite <- Hgames.
  assert (Hpos : (0 < length games)%nat) by (rewrite Hgames; simpl; lia).
  clear Hne.
  split; [|split; [|split]].
  - intros Hws Hz.
    rewrite normalize_weights_zero;
      [reflexivity | exact Hws | apply sum_of_zeros; exact Hz].
  - intros Hws. subst ws. cbn [PerformanceAnalyzer.normalize_weights
                                 map_result bind].
    rewrite weighted_scores_IndexError; [reflexivity| |]; simpl; lia.
  - intros Hall Hex Hlen.
    pose proof (sum_of_nonneg_positive ws Hall Hex) as Hs.
    rewrite normalize_weights_Ok by lra. cbn [bind].
    rewrite weighted_scores_IndexError; [reflexivity| |];
      rewrite length_map; lia.
  - intros Hall Hex Hlen.
    pose proof (sum_of_nonneg_positive ws Hall Hex) as Hs.
    rewrite normalize_weights_Ok by lra. cbn [bind].
    rewrite weighted_scores_Ok by (rewrite length_map; simpl; lia).
    cbn [bind]. eexists. reflexivity.
Qed.

Lemma recent_form_custom_weights_errors_witness :
  PerformanceAnalyzer.calculate_recent_form_score
    [Examples.game 2 18; Examples.game 1 25] (Some [0; 0])
  = Raise ZeroDivisionError
  /\ PerformanceAnalyzer.calculate_recent_form_score
       [Examples.game 2 18; Examples.game 1 25] (Some [])
     = Raise IndexError
  /\ PerformanceAnalyzer.calculate_recent_form_score
       [Examples.game 2 18; Examples.game 1 25] (Some [1])
     = Raise IndexError
  /\ exists score,
       PerformanceAnalyzer.calculate_recent_form_score
         [Examples.game 2 18; Examples.game 1 25] (Some [0.6; 0.4])
       = Ok score.
Proof.
  assert (Hne : [Examples.game 2 18; Examples.game 1 25] <> [])
    by discriminate.
  split.
  { apply (proj1 (recent_form_custom_weights_errors _ [0; 0] Hne));
      [discriminate | repeat constructor]. }
  split.
  { apply (proj1 (proj2 (recent_form_custom_weights_errors _ [] Hne))).
    reflexivity. }
  split.
  { apply (proj1 (proj2 (proj2
             (recent_form_custom_weights_errors _ [1] Hne))));
      [repeat constructor; lra | left; lra | simpl; lia]. }
  apply (proj2 (proj2 (proj2
           (recent_form_custom_weights_errors _ [0.6; 0.4] Hne))));
    [repeat constructor; lra | left; lra | simpl; lia].
Defined.

(** X8. For a single game the weight does not matter: with the default
    weights, and with any one non-zero weight supplied by the caller,
    the recent-form score is the capped composite of that game (the
    weight divided by itself is exactly one). *)
Theorem recent_form_single_game (g : GameStats.t) (w : R) :
  w <> 0 ->
  PerformanceAnalyzer.calculate_recent_form_score [g] None
  = Ok (PerformanceAnalyzer.game_score g)
  /\ PerformanceAnalyzer.calculate_recent_form_score [g] (Some [w])
     = Ok (PerformanceAnalyzer.game_score g).
Proof.
  intros Hw.
  assert (Hone : forall v, v <> 0 ->
            PerformanceAnalyzer.calculate_recent_form_score [g] (Some [v])
            = Ok (PerformanceAnalyzer.game_score g)).
  { intros v Hv. unfold PerformanceAnalyzer.calculate_recent_form_score.
    assert (Hsum : Py.sum [v] = v) by (unfold Py.sum; simpl; lra).
    rewrite normalize_weights_Ok by (rewrite Hsum; exact Hv).
    rewrite Hsum.
    cbn [bind map PerformanceAnalyzer.weighted_scores getitem nth_error].
    f_equal. unfold Py.sum. simpl. field. exact Hv. }
  split; [|apply Hone; exact Hw].
  unfold PerformanceAnalyzer.calculate_recent_form_score.
  cbn [length PerformanceAnalyzer.default_weights seq map INR].
  apply (Hone (1 / (0 + 1))). lra.
Qed.

Lemma recent_form_single_game_witness :
  PerformanceAnalyzer.calculate_recent_form_score [Examples.game 1 25] None
  = Ok (PerformanceAnalyzer.game_score (Examples.game 1 25))
  /\ PerformanceAnalyzer.calculate_recent_form_score [Examples.game 1 25]
       (Some [7])
     = Ok (PerformanceAnalyzer.game_score (Examples.game 1 25)).
Proof.
  apply recent_form_single_game. lra.
Defined.

(* ================================================================== *)
(** ** Further properties: next-game prediction                        *)
(* ================================================================== *)

Lemma last_n_Forall {A : Type} (P : A -> Prop) (n : nat) (l : list A) :
  Forall P l -> Forall P (last_n n l).
Proof.
  intros H. unfold last_n. rewrite <- (firstn_skipn (length l - n) l) in H.
  apply Forall_app in H. exact (proj2 H).
Qed.

Lemma np_mean_nonneg (l : list R) :
  Forall (fun x => 0 <= x) l -> 0 <= np_mean l.
Proof.
  intros H. unfold np_mean. rewrite sum_total.
  assert (Ht : 0 <= Spec.total l) by (induction H; simpl; lra).
  destruct l as [|x l].
  - simpl. unfold Rdiv. rewrite Rmult_0_l. lra.
  - apply Rmult_le_pos; [exact Ht|].
    apply Rlt_le, Rinv_0_lt_compat, lt_0_INR. simpl. lia.
Qed.

(** X9. For well-formed games the prediction's confidence lies in
    [0.3, 1] and its rebounds projection is non-negative, whatever the
    profile, the season and the opponent rating; a zero points average
    gives confidence 0.3. *)
Theorem prediction_confidence_range (profile : PlayerProfile.t)
  (season : SeasonStats.t) (games : list GameStats.t) (rating : R) :
  Forall (fun g => GameStats.valid g = true) games ->
  0.3 <= PerformanceAnalyzer.Prediction.confidence
           (PerformanceAnalyzer.predict_next_game_performance profile season
              games rating) <= 1
  /\ (games <> [] ->
      0 <= PerformanceAnalyzer.Prediction.predicted_rebounds
             (PerformanceAnalyzer.predict_next_game_performance profile
                season games rating))
  /\ (games <> [] ->
      np_mean (map (fun g => IZR (GameStats.points g)) (last_n 5 games)) = 0 ->
      PerformanceAnalyzer.Prediction.confidence
        (PerformanceAnalyzer.predict_next_game_performance profile season
           games rating) = 0.3).
Proof.
  intros Hvalid.
  assert (Hfields : forall g, GameStats.valid g = true ->
             (0 <= GameStats.points g)%Z /\ (0 <= GameStats.rebounds g)%Z).
  { intros g Hg. unfold GameStats.valid, Pydantic.int_ge0 in Hg.
    repeat (apply andb_true_iff in Hg; destruct Hg as [Hg ?]).
    split; apply Z.leb_le; assumption. }
  assert (Hmean : forall (field : GameStats.t -> Z) n,
             (forall g, GameStats.valid g = true -> (0 <= field g)%Z) ->
             0 <= np_mean (map (fun g => IZR (field g)) (last_n n games))).
  { intros field n Hfield. apply np_mean_nonneg, Forall_map, last_n_Forall.
    eapply Forall_impl; [|exact Hvalid].
    intros g Hg. simpl. apply IZR_le, Hfield, Hg. }
  unfold PerformanceAnalyzer.predict_next_game_performance.
  destruct games as [|g0 games0] eqn:Hgames.
  - simpl. split; [lra|]. split; intros H; contradiction.
  - rewrite <- Hgames in *. cbn [PerformanceAnalyzer.Prediction.confidence
      PerformanceAnalyzer.Prediction.predicted_rebounds].
    pose proof (Hmean GameStats.points 5%nat
                  (fun g Hg => proj1 (Hfields g Hg))) as Hp.
    pose proof (Hmean GameStats.rebounds 5%nat
                  (fun g Hg => proj2 (Hfields g Hg))) as Hr.
    split; [|split].
    + unfold np_truediv, Reqb.
      destruct (Req_dec_T _ 0) as [Hz|Hnz]; [lra|].
      assert (Hq : 0 <= np_std (map (fun game => IZR (GameStats.points game))
                                  (last_n 10 games))
                      / np_mean (map (fun game => IZR (GameStats.points game))
                                   (last_n 5 games))).
      { apply Rmult_le_pos; [apply sqrt_pos|].
        apply Rlt_le, Rinv_0_lt_compat. lra. }
      unfold Rmax. destruct (Rle_dec 0.3 _); lra.
    + intros _. exact Hr.
    + intros _ Hz. unfold np_truediv. rewrite Reqb_true by exact Hz.
      reflexivity.
Qed.

Lemma prediction_confidence_range_witness :
  0.3 <= PerformanceAnalyzer.Prediction.confidence
           (PerformanceAnalyzer.predict_next_game_performance
              Examples.sample_player_profile Examples.sample_season_stats
              Examples.six_games 110) <= 1
  /\ 0 <= PerformanceAnalyzer.Prediction.predicted_rebounds
            (PerformanceAnalyzer.predict_next_game_performance
               Examples.sample_player_profile Examples.sample_season_stats
               Examples.six_games 110)
  /\ PerformanceAnalyzer.Prediction.confidence
       (PerformanceAnalyzer.predict_next_game_performance
          Examples.sample_player_profile Examples.sample_season_stats
          [Examples.game 1 0] 110) = 0.3.
Proof.
  destruct (prediction_confidence_range Examples.sample_player_profile
              Examples.sample_season_stats Examples.six_games 110
              six_games_valid) as [Hc [Hr _]].
  split; [exact Hc|]. split; [apply Hr; discriminate|].
  apply prediction_confidence_range.
  - repeat constructor.
    unfold GameStats.valid, Pydantic.ge_le, Examples.game; simpl;
      rsimp; reflexivity.
  - discriminate.
  - unfold np_mean, Py.sum. simpl. lra.
Defined.

(* ================================================================== *)
(** ** Further properties: fair value                                  *)
(* ================================================================== *)

(** X10. The confidence that [calculate_fair_value] returns lies in
    [0.3, 1] for every factor list and every base price, and factors
    none of which has a positive weight (in particular no factors at
    all) leave the base price as the fair value. *)
Theorem fair_value_neutral (factors : list ValuationFactor.t)
  (base_price : R) :
  0.3 <= snd (MomentValuator.calculate_fair_value factors base_price) <= 1
  /\ (Forall (fun f => ValuationFactor.weight f <= 0) factors ->
      fst (MomentValuator.calculate_fair_value factors base_price)
      = base_price).
Proof.
  unfold MomentValuator.calculate_fair_value.
  rewrite accumulate_totals. simpl fst. simpl snd.
  rewrite !Rplus_0_l.
  split.
  - destruct (1 <? length (map ValuationFactor.value factors))%nat.
    + split; [apply Rmax_l|].
      apply Rmax_lub; [lra|].
      eapply Rle_trans; [apply Rmin_l | lra].
    + lra.
  - intros Hweights.
    assert (Hle : Spec.total (map ValuationFactor.weight factors) <= 0).
    { induction Hweights as [|f factors Hf _ IH]; simpl; lra. }
    rewrite Rltb_false by exact Hle. lra.
Qed.

Lemma fair_value_neutral_witness :
  fst (MomentValuator.calculate_fair_value
         [Examples.factor 0 0.6 15; Examples.factor 0 0.5 (-20)] 150)
  = 150
  /\ fst (MomentValuator.calculate_fair_value [] 150) = 150.
Proof.
  split.
  - apply (fair_value_neutral
             [Examples.factor 0 0.6 15; Examples.factor 0 0.5 (-20)] 150).
    repeat constructor; simpl; lra.
  - apply (fair_value_neutral [] 150). constructor.
Defined.

(* ================================================================== *)
(** ** Further properties: the market-trend factor                     *)
(* ================================================================== *)

Lemma first_last_cases (l : list R) :
  MomentValuator.first_last l = None
  \/ exists first final, MomentValuator.first_last l = Some (first, final).
Proof.
  destruct l as [|x l]; [left; reflexivity|].
  right. exists x, (last (x :: l) x). reflexivity.
Qed.

Lemma factor_weight_market_trend :
  MomentValuator.factor_weight "market_trend" = 0.20.
Proof. reflexivity. Qed.

Lemma factor_weight_social_sentiment :
  MomentValuator.factor_weight "social_sentiment" = 0.20.
Proof. reflexivity. Qed.

Lemma MarketTrendFactor_valid (factor_type : string) (weight value : R)
  (description : text) (impact pm vt ms : R) (sales : list Sale.t) :
  0 <= weight <= 1 -> -100 <= impact <= 100 -> -100 <= pm <= 100 ->
  -100 <= vt <= 100 -> -1 <= ms <= 1 ->
  MarketTrendFactor factor_type weight value description impact pm vt ms sales
  = Ok (ValuationFactor.mk factor_type weight value description impact
          (ValuationFactor.MarketTrend pm vt ms sales)).
Proof.
  intros Hw Hi Hpm Hvt Hms.
  unfold MarketTrendFactor, ValuationFactor.base_valid.
  rewrite !(proj2 (ge_le_iff _ _ _)) by assumption. reflexivity.
Qed.

Lemma clamp_100 (x : R) : -100 <= Rmax (-100) (Rmin 100 x) <= 100.
Proof.
  split; [apply Rmax_l|]. apply Rmax_lub; [lra | apply Rmin_l].
Qed.

Lemma clamp_1 (x : R) : -1 <= Rmax (-1) (Rmin 1 x) <= 1.
Proof.
  split; [apply Rmax_l|]. apply Rmax_lub; [lra | apply Rmin_l].
Qed.

(** X11. [calculate_market_trend_factor] never fails validation: it
    either returns a factor with weight 0.2, value in [0,1] and impact
    in [-60,60], or raises [KeyError] (a price point or a comparable
    sale without a price) or [ZeroDivisionError] (a first price of
    zero among the last ten). *)
Theorem market_trend_factor_total (req : MomentAnalysisRequest.t)
  (price_history : list PricePoint.t) (sales : list Sale.t) :
  match MomentValuator.calculate_market_trend_factor req price_history sales
  with
  | Ok f =>
      ValuationFactor.weight f = 0.2
      /\ 0 <= ValuationFactor.value f <= 1
      /\ -60 <= ValuationFactor.impact f <= 60
  | Raise e => e = KeyError \/ e = ZeroDivisionError
  end.
Proof.
  unfold MomentValuator.calculate_market_trend_factor.
  rewrite factor_weight_market_trend.
  destruct price_history as [|p price_history].
  - rewrite MarketTrendFactor_valid by lra. simpl. lra.
  - destruct (map_result _ (last_n 10 (p :: price_history)))
      as [prices|e] eqn:Hprices; cbn [bind].
    2:{ left. apply map_result_Raise in Hprices.
        destruct Hprices as [x [_ Hx]].
        destruct (PricePoint.price x); [discriminate|].
        inversion Hx. reflexivity. }
    match goal with
    | |- match bind ?m _ with _ => _ end =>
        assert (Hpm : match m with
                      | Ok pm => -100 <= pm <= 100
                      | Raise e => e = ZeroDivisionError
                      end)
    end.
    { destruct (first_last_cases prices) as [Hfl|[first [final Hfl]]];
        rewrite Hfl; [lra|].
      destruct (2 <=? length prices)%nat; [|lra].
      unfold truediv. destruct (Reqb first 0); cbn [bind];
        [reflexivity | apply clamp_100]. }
    match goal with
    | |- match bind ?m _ with _ => _ end => destruct m as [pm|e]
    end; cbn [bind]; [|right; exact Hpm].
    match goal with
    | |- context [MarketTrendFactor _ _ _ _ _ _ ?v _ _] =>
        assert (Hvt : -100 <= v <= 100); [|set (vt := v) in *]
    end.
    { match goal with
      | |- context [MomentValuator.first_last ?l] =>
          destruct (MomentValuator.first_last l) as [[first final]|]
      end; [|lra].
      match goal with
      | |- context [if ?c then _ else _] => destruct c
      end; [apply clamp_100 | lra]. }
    match goal with
    | |- match bind ?m _ with _ => _ end =>
        assert (Hms : match m with
                      | Ok ms => -1 <= ms <= 1
                      | Raise e => e = KeyError
                      end)
    end.
    { destruct sales as [|s sales]; [lra|].
      destruct (map_result _ (s :: sales)) as [ps|e] eqn:Hps; cbn [bind].
      - destruct (np_truediv _ _); [apply clamp_1|].
        destruct (Rltb _ 0); lra.
      - apply map_result_Raise in Hps.
        destruct Hps as [x [_ Hx]].
        destruct (Sale.price x); [discriminate|].
        inversion Hx. reflexivity. }
    match goal with
    | |- match bind ?m _ with _ => _ end => destruct m as [ms|e]
    end; cbn [bind]; [|left; exact Hms].
    rewrite MarketTrendFactor_valid by lra. simpl. lra.
Qed.

(** X12. Without price history the market-trend factor is the neutral
    one, whatever the request and the comparable sales: value 0.5,
    impact 0, momentum, volume trend and sentiment 0, and an empty list
    of comparable sales (the sales passed in are not recorded). *)
Theorem market_trend_factor_no_history (req : MomentAnalysisRequest.t)
  (sales : list Sale.t) :
  MomentValuator.calculate_market_trend_factor req [] sales
  = Ok (ValuationFactor.mk "market_trend" 0.2 0.5
          (str "No price history available") 0
          (ValuationFactor.MarketTrend 0 0 0 [])).
Proof.
  unfold MomentValuator.calculate_market_trend_factor.
  rewrite factor_weight_market_trend.
  rewrite MarketTrendFactor_valid by lra.
  do 2 f_equal. lra.
Qed.

Lemma last_n_app {A : Type} (n : nat) (older recent : list A) :
  (n <= length recent)%nat ->
  last_n n (older ++ recent) = last_n n recent.
Proof.
  intros Hlen. unfold last_n.
  rewrite length_app, skipn_app.
  rewrite skipn_all2 by lia. simpl.
  f_equal. lia.
Qed.

Lemma market_trend_factor_last_n (req : MomentAnalysisRequest.t)
  (history history' : list PricePoint.t) (sales : list Sale.t) :
  history <> [] -> history' <> [] ->
  last_n 10 history = last_n 10 history' ->
  MomentValuator.calculate_market_trend_factor req history sales
  = MomentValuator.calculate_market_trend_factor req history' sales.
Proof.
  intros Hne Hne' Hlast.
  unfold MomentValuator.calculate_market_trend_factor.
  destruct history as [|p history]; [contradiction|].
  destruct history' as [|p' history']; [contradiction|].
  rewrite Hlast. reflexivity.
Qed.

(** X13. Only the last ten price points enter the market-trend factor:
    older points placed before a history of ten points or more change
    neither the factor nor the exception raised. *)
Theorem market_trend_factor_last_ten (req : MomentAnalysisRequest.t)
  (older recent : list PricePoint.t) (sales : list Sale.t) :
  (10 <= length recent)%nat ->
  MomentValuator.calculate_market_trend_factor req (older ++ recent) sales
  = MomentValuator.calculate_market_trend_factor req recent sales.
Proof.
  intros Hlen. apply market_trend_factor_last_n.
  - destruct older; [|discriminate].
    destruct recent; [simpl in Hlen; lia | discriminate].
  - destruct recent; [simpl in Hlen; lia | discriminate].
  - apply last_n_app. exact Hlen.
Qed.

Lemma market_trend_factor_last_ten_witness :
  MomentValuator.calculate_market_trend_factor
    (Examples.request "m1" "p1" MomentType.DUNK 42 150)
    ([PricePoint.mk None None; PricePoint.mk (Some 0) None]
     ++ Samples.ten_points) []
  = MomentValuator.calculate_market_trend_factor
      (Examples.request "m1" "p1" MomentType.DUNK 42 150)
      Samples.ten_points [].
Proof.
  apply market_trend_factor_last_ten. simpl. lia.
Defined.

(* ================================================================== *)
(** ** Further properties: the social-sentiment factor                 *)
(* ================================================================== *)

Lemma np_log10_100 : np_log10 100 = 2.
Proof.
  unfold np_log10.
  assert (H10 : 0 < ln 10).
  { rewrite <- ln_1. apply ln_increasing; lra. }
  replace 100 with (10 * 10) by lra.
  rewrite ln_mult by lra. field. lra.
Qed.

Lemma social_score_parts (mentions influencers : Z) :
  0 <= Rmin 100 (np_log10 (IZR (Z.max 1 mentions)) * 20) <= 100
  /\ ((0 <= influencers)%Z -> 0 <= Rmin 100 (IZR influencers * 10) <= 100).
Proof.
  split.
  - split; [|apply Rmin_l].
    apply Rmin_glb; [lra|].
    apply Rmult_le_pos; [|lra].
    apply np_log10_nonneg. apply IZR_le. lia.
  - intros Hin. split; [|apply Rmin_l].
    apply Rmin_glb; [lra|]. apply IZR_le in Hin. lra.
Qed.

(** X14. For a non-empty social payload, [calculate_social_sentiment_factor]
    returns exactly when the values it reads (absent keys read as 0)
    satisfy the bounds of [SocialSentimentFactor]: mentions and
    influencer mentions at least 0, sentiment in [-1,1], viral score in
    [0,100].  The factor then has weight 0.2, value in [0,1], impact in
    [-40,40] and records the four values read; otherwise the call
    raises [ValidationError]. *)
Theorem social_sentiment_factor_validation (player_id : string)
  (d : SocialData.t) :
  SocialData.truthy d = true ->
  let mentions := MomentValuator.get_default (SocialData.mentions d) 0%Z in
  let sentiment := MomentValuator.get_default (SocialData.sentiment d) 0 in
  let viral := MomentValuator.get_default (SocialData.viral_score d) 0 in
  let influencers :=
    MomentValuator.get_default (SocialData.influencer_mentions d) 0%Z in
  let in_bounds :=
    (0 <= mentions)%Z /\ -1 <= sentiment <= 1 /\ 0 <= viral <= 100
    /\ (0 <= influencers)%Z in
  (in_bounds ->
   exists f,
     MomentValuator.calculate_social_sentiment_factor player_id (Some d) = Ok f
     /\ ValuationFactor.weight f = 0.2
     /\ 0 <= ValuationFactor.value f <= 1
     /\ -40 <= ValuationFactor.impact f <= 40
     /\ ValuationFactor.fields f
        = ValuationFactor.SocialSentiment mentions sentiment viral influencers)
  /\ (~ in_bounds ->
      MomentValuator.calculate_social_sentiment_factor player_id (Some d)
      = Raise ValidationError).
Proof.
  intros Htruthy mentions sentiment viral influencers in_bounds.
  unfold MomentValuator.calculate_social_sentiment_factor.
  rewrite Htruthy, factor_weight_social_sentiment.
  fold (MomentValuator.get_default (SocialData.mentions d) 0%Z).
  fold (MomentValuator.get_default (SocialData.sentiment d) 0).
  fold (MomentValuator.get_default (SocialData.viral_score d) 0).
  fold (MomentValuator.get_default (SocialData.influencer_mentions d) 0%Z).
  fold mentions sentiment viral influencers.
  destruct (social_score_parts mentions influencers) as [Hm Hinf].
  unfold SocialSentimentFactor, ValuationFactor.base_valid.
  split.
  - intros [Hmen [Hs [Hv Hi]]]. specialize (Hinf Hi).
    eexists. split.
    + rewrite !(proj2 (ge_le_iff _ _ _)) by lra.
      unfold Pydantic.int_ge0.
      rewrite (proj2 (Z.leb_le 0 mentions) Hmen).
      rewrite (proj2 (Z.leb_le 0 influencers) Hi).
      reflexivity.
    + simpl. repeat split; lra.
  - intros Hnot.
    match goal with
    | |- Pydantic.validated ?c _ = _ => destruct c eqn:Hvalid
    end; [|reflexivity].
    exfalso. apply Hnot.
    repeat (apply andb_true_iff in Hvalid; destruct Hvalid as [Hvalid ?]).
    repeat match goal with
           | H : Pydantic.ge_le _ _ _ = true |- _ => apply ge_le_iff in H
           | H : Pydantic.int_ge0 _ = true |- _ => apply Z.leb_le in H
           end.
    unfold in_bounds. repeat split; try lra; assumption.
Qed.

Lemma social_sentiment_factor_validation_witness :
  (exists f,
     MomentValuator.calculate_social_sentiment_factor "player_456"
       (Some (Samples.social 250 0.3 65 8)) = Ok f
     /\ ValuationFactor.weight f = 0.2
     /\ 0 <= ValuationFactor.value f <= 1
     /\ -40 <= ValuationFactor.impact f <= 40
     /\ ValuationFactor.fields f = ValuationFactor.SocialSentiment 250 0.3 65 8)
  /\ MomentValuator.calculate_social_sentiment_factor "player_456"
       (Some (Samples.social 250 1.5 65 8)) = Raise ValidationError
  /\ MomentValuator.calculate_social_sentiment_factor "player_456"
       (Some (SocialData.mk (Some (-1)%Z) None None None))
     = Raise ValidationError.
Proof.
  split; [|split].
  - apply (social_sentiment_factor_validation "player_456"
             (Samples.social 250 0.3 65 8) eq_refl).
    simpl. repeat split; try lra; lia.
  - apply (social_sentiment_factor_validation "player_456"
             (Samples.social 250 1.5 65 8) eq_refl).
    simpl. intros [_ [Hs _]]. lra.
  - apply (social_sentiment_factor_validation "player_456"
             (SocialData.mk (Some (-1)%Z) None None None) eq_refl).
    simpl. intros [Hm _]. lia.
Defined.

(** X15. Missing social data and the empty dict are both replaced by
    the built-in payload (100 mentions, sentiment 0.1, viral score 30,
    5 influencer mentions): the factor is the same for both, with value
    0.45 and impact -4, so absent social data lowers the fair value
    rather than leaving it unchanged. *)
Theorem social_sentiment_factor_default (player_id : string) :
  MomentValuator.calculate_social_sentiment_factor player_id
    (Some (SocialData.mk None None None None))
  = MomentValuator.calculate_social_sentiment_factor player_id None
  /\ exists f,
       MomentValuator.calculate_social_sentiment_factor player_id None = Ok f
       /\ ValuationFactor.weight f = 0.2
       /\ ValuationFactor.value f = 0.45
       /\ ValuationFactor.impact f = -4
       /\ ValuationFactor.fields f
          = ValuationFactor.SocialSentiment 100 0.1 30 5.
Proof.
  split; [reflexivity|].
  unfold MomentValuator.calculate_social_sentiment_factor.
  rewrite factor_weight_social_sentiment.
  cbn [MomentValuator.default_social_data SocialData.mentions
       SocialData.sentiment SocialData.viral_score
       SocialData.influencer_mentions].
  replace (IZR (Z.max 1 100)) with 100 by reflexivity.
  rewrite np_log10_100.
  unfold SocialSentimentFactor, ValuationFactor.base_valid, Pydantic.ge_le,
    Pydantic.int_ge0.
  rsimp. cbn [Z.leb Z.compare andb Pydantic.validated].
  eexists. split; [reflexivity|].
  simpl. repeat split; lra.
Qed.

(* ================================================================== *)
(** ** Further properties: the undervalued filter is complete          *)
(* ================================================================== *)

Lemma undervalued_filter_complete (results : list MomentAnalysisResult.t)
  (mc mu : R) (out : list MomentAnalysisResult.t)
  (r : MomentAnalysisResult.t) :
  MomentValuator.undervalued_filter results mc mu = Ok out ->
  In r results -> Spec.undervalued mc mu r -> In r out.
Proof.
  revert out. induction results as [|r0 results IH]; simpl; intros out H Hin Hu.
  - contradiction.
  - destruct (MomentValuator.undervalued_filter results mc mu)
      as [rest|e] eqn:Hrest.
    2:{ destruct (Rleb mc _); [|discriminate].
        destruct (MomentValuator.upside_ratio r0); discriminate. }
    destruct Hin as [Heq|Hin].
    + subst r0. destruct Hu as [Hconf [ratio [Hratio Hup]]].
      rewrite Rleb_true in H by exact Hconf.
      rewrite Hratio in H. cbn [bind] in H.
      rewrite Rltb_true in H by exact Hup.
      inversion H. left. reflexivity.
    + specialize (IH rest eq_refl Hin Hu).
      destruct (Rleb mc _).
      * destruct (MomentValuator.upside_ratio r0) as [ratio|e];
          cbn [bind] in H; [|discriminate].
        destruct (Rltb (1 + mu) ratio); inversion H; subst;
          [right|]; exact IH.
      * cbn [bind] in H. inversion H. subst. exact IH.
Qed.

(** X16. When [get_undervalued_moments] returns, it returns all the
    qualifying entries and nothing else: an entry is in the output if
    and only if it is in the input, its confidence is at least the
    floor and its ratio of fair value to current price exceeds one plus
    the minimum upside; the output is never longer than the input. *)
Theorem undervalued_moments_complete (results : list MomentAnalysisResult.t)
  (min_confidence min_upside : R) (out : list MomentAnalysisResult.t) :
  MomentValuator.get_undervalued_moments results min_confidence min_upside
  = Ok out ->
  (forall r,
     In r out
     <-> In r results /\ Spec.undervalued min_confidence min_upside r)
  /\ (length out <= length results)%nat.
Proof.
  unfold MomentValuator.get_undervalued_moments.
  destruct (MomentValuator.undervalued_filter results min_confidence
              min_upside) as [kept|e] eqn:Hfilter; cbn [bind];
    [|discriminate].
  destruct (map_result MomentValuator.upside_ratio kept) as [keys|e] eqn:Hkeys;
    cbn [bind]; [|discriminate].
  intros H. inversion H as [Hout]. clear H.
  destruct (undervalued_filter_Ok _ _ _ _ Hfilter) as [Hall Hincl].
  destruct (combine_keyed _ _ _ (proj1 (map_result_Forall2 _ _ _) Hkeys))
    as [_ Hsnd].
  assert (Hperm : Permutation
                    (map snd (sort_desc fst (combine keys kept))) kept).
  { eapply perm_trans; [apply Permutation_map, sort_desc_perm|].
    rewrite Hsnd. apply Permutation_refl. }
  split.
  - intros r. split.
    + intros Hr. apply (Permutation_in _ Hperm) in Hr.
      split; [apply Hincl; exact Hr|].
      rewrite Forall_forall in Hall. apply Hall. exact Hr.
    + intros [Hr Hu].
      apply (Permutation_in _ (Permutation_sym Hperm)).
      eapply undervalued_filter_complete; eassumption.
  - rewrite (Permutation_length Hperm).
    clear - Hfilter. revert kept Hfilter.
    induction results as [|r0 results IH]; simpl; intros kept H.
    + inversion H. simpl. lia.
    + destruct (MomentValuator.undervalued_filter results min_confidence
                  min_upside) as [rest|e].
      2:{ destruct (Rleb min_confidence _); [|discriminate].
          destruct (MomentValuator.upside_ratio r0); discriminate. }
      specialize (IH rest eq_refl).
      destruct (Rleb min_confidence _).
      * destruct (MomentValuator.upside_ratio r0) as [ratio|e];
          cbn [bind] in H; [|discriminate].
        destruct (Rltb (1 + min_upside) ratio); inversion H; subst;
          simpl; lia.
      * cbn [bind] in H. inversion H. subst. lia.
Qed.

Lemma three_results_undervalued :
  MomentValuator.get_undervalued_moments Samples.three_results 0.7 0.1
  = Ok [Samples.analysis "moment_2" 100 150 0.8 "Strong Buy" []].
Proof.
  unfold MomentValuator.get_undervalued_moments, Samples.three_results,
    MomentValuator.undervalued_filter, MomentValuator.upside_ratio,
    Samples.analysis, truediv.
  repeat progress
    (cbn [MomentAnalysisResult.valuation ValuationResult.confidence_score
          ValuationResult.fair_value MomentAnalysisResult.market_analysis
          dict_getitem dict_get String.eqb Ascii.eqb Bool.eqb as_number
          bind map_result];
     rsimp).
  reflexivity.
Qed.

Lemma undervalued_moments_complete_witness :
  (forall r,
     In r [Samples.analysis "moment_2" 100 150 0.8 "Strong Buy" []]
     <-> In r Samples.three_results /\ Spec.undervalued 0.7 0.1 r)
  /\ (length [Samples.analysis "moment_2" 100 150 0.8 "Strong Buy" []]
      <= length Samples.three_results)%nat.
Proof.
  exact (undervalued_moments_complete Samples.three_results 0.7 0.1 _
           three_results_undervalued).
Defined.

(* ================================================================== *)
(** ** Further properties: from valuation to reasoning                 *)
(* ================================================================== *)

(** X17. The decision derived from the recommendation that
    [analyze_moment] attaches to a price ratio is "buy" above 1.05,
    "hold" between 0.95 (excluded) and 1.05, and "sell" at 0.95 or
    below; it is never "skip", and the strong and plain variants of a
    recommendation give the same decision. *)
Theorem decision_of_price_ratio (price_ratio : R) :
  (1.05 < price_ratio ->
   Reasoning._map_recommendation_to_decision
     (MomentValuator.recommendation_for price_ratio) = "buy"%string)
  /\ (0.95 < price_ratio <= 1.05 ->
      Reasoning._map_recommendation_to_decision
        (MomentValuator.recommendation_for price_ratio) = "hold"%string)
  /\ (price_ratio <= 0.95 ->
      Reasoning._map_recommendation_to_decision
        (MomentValuator.recommendation_for price_ratio) = "sell"%string).
Proof.
  unfold MomentValuator.recommendation_for.
  split; [|split]; intros H.
  - destruct (Rlt_dec 1.2 price_ratio).
    + rewrite Rltb_true by lra. reflexivity.
    + rewrite Rltb_false by lra. rewrite Rltb_true by lra. reflexivity.
  - rewrite !Rltb_false by lra. rewrite Rltb_true by lra. reflexivity.
  - rewrite !Rltb_false by lra.
    destruct (Rlt_dec 0.8 price_ratio).
    + rewrite Rltb_true by lra. reflexivity.
    + rewrite Rltb_false by lra. reflexivity.
Qed.

Lemma decision_of_price_ratio_witness :
  Reasoning._map_recommendation_to_decision
    (MomentValuator.recommendation_for 1.3) = "buy"%string
  /\ Reasoning._map_recommendation_to_decision
       (MomentValuator.recommendation_for 1) = "hold"%string
  /\ Reasoning._map_recommendation_to_decision
       (MomentValuator.recommendation_for 0.5) = "sell"%string.
Proof.
  split; [|split].
  - apply (proj1 (decision_of_price_ratio 1.3)). lra.
  - apply (proj1 (proj2 (decision_of_price_ratio 1))). lra.
  - apply (proj2 (proj2 (decision_of_price_ratio 0.5))). lra.
Defined.

Lemma convert_to_reasoning_factor_cases (render : text -> string)
  (f : ValuationFactor.t) (ar : MomentAnalysisResult.t) :
  match Reasoning._convert_to_reasoning_factor render f ar with
  | Ok rf =>
      ValuationFactor.base_valid (ValuationFactor.weight f)
        (ValuationFactor.impact f) = true
      /\ ReasoningFactor.weight rf = ValuationFactor.weight f
      /\ ReasoningFactor.value rf = ValuationFactor.value f
      /\ ReasoningFactor.impact rf = ValuationFactor.impact f
      /\ ReasoningFactor.confidence rf = 0.8
      /\ ReasoningFactor.description rf
         = render (ValuationFactor.description f)
      /\ (Reasoning.factor_type_eqb (ReasoningFactor.factor_type rf)
            ReasoningFactorType.MARKET_TREND
          = match ValuationFactor.fields f with
            | ValuationFactor.MarketTrend _ _ _ _ => true
            | _ => false
            end)
  | Raise e =>
      e = ValidationError
      /\ ValuationFactor.base_valid (ValuationFactor.weight f)
           (ValuationFactor.impact f) = false
  end.
Proof.
  unfold Reasoning._convert_to_reasoning_factor, ReasoningFactor.new,
    ReasoningFactor.valid, ValuationFactor.base_valid.
  assert (H08 : Pydantic.ge_le 0 1 0.8 = true) by (apply ge_le_iff; lra).
  destruct (ValuationFactor.fields f); cbn [ReasoningFactor.weight
    ReasoningFactor.impact ReasoningFactor.confidence];
    rewrite H08, andb_true_r;
    (destruct (Pydantic.ge_le 0 1 (ValuationFactor.weight f)
               && Pydantic.ge_le (-100) 100 (ValuationFactor.impact f));
     cbn [Pydantic.validated];
     [repeat split | split; reflexivity]).
Qed.

(** X18. [generate_reasoning_factors] returns exactly when every factor
    of the analysis satisfies the bounds of [ValuationFactor] (weight in
    [0,1], impact in [-100,100]), and raises [ValidationError]
    otherwise.  It returns one reasoning factor per valuation factor, in
    the same order, with the same weight, value, impact and description
    and with confidence 0.8. *)
Theorem reasoning_factors_preserve (render : text -> string)
  (ar : MomentAnalysisResult.t) :
  match Reasoning.generate_reasoning_factors render ar with
  | Ok out =>
      forallb (fun f => ValuationFactor.base_valid (ValuationFactor.weight f)
                          (ValuationFactor.impact f))
        (MomentAnalysisResult.factors ar) = true
      /\ Forall2
           (fun f rf =>
              ReasoningFactor.weight rf = ValuationFactor.weight f
              /\ ReasoningFactor.value rf = ValuationFactor.value f
              /\ ReasoningFactor.impact rf = ValuationFactor.impact f
              /\ ReasoningFactor.confidence rf = 0.8
              /\ ReasoningFactor.description rf
                 = render (ValuationFactor.description f))
           (MomentAnalysisResult.factors ar) out
  | Raise e =>
      e = ValidationError
      /\ forallb (fun f => ValuationFactor.base_valid
                             (ValuationFactor.weight f)
                             (ValuationFactor.impact f))
           (MomentAnalysisResult.factors ar) = false
  end.
Proof.
  unfold Reasoning.generate_reasoning_factors.
  induction (MomentAnalysisResult.factors ar) as [|f factors IH];
    cbn [map_result forallb].
  - split; [reflexivity | constructor].
  - pose proof (convert_to_reasoning_factor_cases render f ar) as Hf.
    destruct (Reasoning._convert_to_reasoning_factor render f ar) as [rf|e];
      cbn [bind].
    + destruct Hf as [Hvalid [Hw [Hv [Hi [Hc [Hd _]]]]]]. rewrite Hvalid.
      destruct (map_result _ factors) as [out|e]; cbn [bind andb].
      * destruct IH as [Hall Hout].
        split; [exact Hall|]. constructor; [|exact Hout].
        repeat split; assumption.
      * exact IH.
    + destruct Hf as [He Hvalid]. rewrite Hvalid. split; [exact He|reflexivity].
Qed.

(** X19. On the factors that [generate_reasoning_factors] returns, the
    factor loop of [_identify_risk_factors] reports one negative-trend
    risk for each market-trend factor with impact below -20 and nothing
    else: the limited-social-data risk is never reported, because every
    converted factor carries confidence 0.8. *)
Theorem converted_factor_risks (render : text -> string)
  (ar : MomentAnalysisResult.t) (out : list ReasoningFactor.t) :
  Reasoning.generate_reasoning_factors render ar = Ok out ->
  Reasoning.factor_risks out
  = repeat
      "Negative market trend - broader market conditions unfavorable"%string
      (length
         (filter
            (fun f =>
               match ValuationFactor.fields f with
               | ValuationFactor.MarketTrend _ _ _ _ =>
                   Rltb (ValuationFactor.impact f) (-20)
               | _ => false
               end)
            (MomentAnalysisResult.factors ar))).
Proof.
  unfold Reasoning.generate_reasoning_factors.
  revert out.
  induction (MomentAnalysisResult.factors ar) as [|f factors IH];
    cbn [map_result]; intros out H.
  - inversion H. reflexivity.
  - pose proof (convert_to_reasoning_factor_cases render f ar) as Hf.
    destruct (Reasoning._convert_to_reasoning_factor render f ar) as [rf|e];
      cbn [bind] in H; [|discriminate].
    destruct (map_result _ factors) as [rest|e]; cbn [bind] in H;
      [|discriminate].
    inversion H; subst out. clear H.
    destruct Hf as [_ [_ [_ [Hi [Hc [_ Htype]]]]]].
    unfold Reasoning.factor_risks. cbn [flat_map filter].
    fold (Reasoning.factor_risks rest). rewrite (IH rest eq_refl).
    rewrite Hc, Htype, Hi.
    rewrite (Rltb_false 0.8 0.5) by lra. rewrite andb_false_r.
    destruct (ValuationFactor.fields f); cbn [andb]; try reflexivity.
    destruct (Rltb (ValuationFactor.impact f) (-20)); reflexivity.
Qed.

Lemma falling_analysis_factors :
  exists out,
    Reasoning.generate_reasoning_factors Samples.render
      Samples.falling_analysis = Ok out.
Proof.
  unfold Reasoning.generate_reasoning_factors, Samples.falling_analysis,
    Samples.analysis, Samples.trend_factor, Samples.social_factor,
    Reasoning._convert_to_reasoning_factor, ReasoningFactor.new,
    ReasoningFactor.valid, Pydantic.ge_le.
  cbn [MomentAnalysisResult.factors map_result ValuationFactor.fields
       ValuationFactor.weight ValuationFactor.impact ValuationFactor.value
       ReasoningFactor.weight ReasoningFactor.impact
       ReasoningFactor.confidence].
  rsimp. cbn [andb Pydantic.validated bind].
  eexists. reflexivity.
Qed.

Lemma converted_factor_risks_witness :
  exists out,
    Reasoning.generate_reasoning_factors Samples.render
      Samples.falling_analysis = Ok out
    /\ Reasoning.factor_risks out
       = ["Negative market trend - broader market conditions unfavorable"
          %string].
Proof.
  destruct falling_analysis_factors as [out Hout].
  exists out. split; [exact Hout|].
  rewrite (converted_factor_risks Samples.render Samples.falling_analysis
             out Hout).
  unfold Samples.falling_analysis, Samples.analysis, Samples.trend_factor,
    Samples.social_factor.
  cbn [MomentAnalysisResult.factors filter ValuationFactor.fields
       ValuationFactor.impact].
  rsimp. reflexivity.
Defined.

Lemma filter_length_perm {A : Type} (p : A -> bool) (l l' : list A) :
  Permutation l l' -> length (filter p l) = length (filter p l').
Proof.
  induction 1 as [|x l l' _ IH|x y l|l l' l'' _ IH1 _ IH2]; simpl.
  - reflexivity.
  - destruct (p x); simpl; congruence.
  - destruct (p x), (p y); reflexivity.
  - congruence.
Qed.

Lemma significant_prefix {A B : Type} (key : A -> R) (h : A -> B)
  (threshold : R) (l : list A) (n : nat) :
  StronglySorted (fun a b => key a >= key b) l ->
  length (flat_map (fun x => if Rltb threshold (key x) then [h x] else [])
            (firstn n l))
  = Nat.min n (length (filter (fun x => Rltb threshold (key x)) l)).
Proof.
  intros Hsorted. revert n.
  induction Hsorted as [|x l _ IH Hx]; intros n.
  - rewrite firstn_nil. simpl. lia.
  - destruct n as [|n]; [reflexivity|].
    cbn [firstn flat_map filter].
    destruct (Rltb threshold (key x)) eqn:Hsig.
    + cbn [app length]. rewrite IH. reflexivity.
    + cbn [app]. rewrite IH.
      assert (Hnone : filter (fun y => Rltb threshold (key y)) l = []).
      { apply filter_none. apply Forall_forall. intros y Hy.
        rewrite Forall_forall in Hx.
        apply Rltb_false. specialize (Hx y Hy). simpl in Hx.
        destruct (Rlt_dec threshold (key x)) as [Hlt|Hge].
        - apply Rltb_true in Hlt. congruence.
        - lra. }
      rewrite Hnone. simpl. lia.
Qed.

(** X20. [_generate_supporting_reasons] gives one reason for each of
    the factors of largest absolute impact, at most five, and only for
    factors whose absolute impact exceeds 5: the number of reasons is
    the smaller of five and the number of such factors, whatever the
    order of the factors. *)
Theorem supporting_reasons_count (render : text -> string)
  (factors : list ReasoningFactor.t) :
  length (Reasoning._generate_supporting_reasons render factors)
  = Nat.min 5
      (length
         (filter (fun f => Rltb 5 (Rabs (ReasoningFactor.impact f)))
            factors)).
Proof.
  unfold Reasoning._generate_supporting_reasons.
  rewrite (significant_prefix
             (fun f => Rabs (ReasoningFactor.impact f))
             (Reasoning.supporting_reason render) 5).
  - f_equal. apply filter_length_perm, sort_desc_perm.
  - apply sort_desc_sorted.
Qed.

(* ================================================================== *)
(** ** Further properties: performance metrics of the reasoning        *)
(* ================================================================== *)

Lemma sum_nonneg (l : list R) : Forall (fun x => 0 <= x) l -> 0 <= Py.sum l.
Proof.
  intros H. rewrite sum_total.
  induction H as [|x l Hx _ IH]; simpl; lra.
Qed.

Lemma bucket_error_nonneg (accuracies : list R) (expected : R) :
  Forall (fun x => 0 <= x) (Reasoning.bucket_error accuracies expected).
Proof.
  destruct accuracies; simpl; [constructor|].
  constructor; [apply Rabs_pos | constructor].
Qed.

(** X21. The confidence calibration is a score between 0 and 1 for
    every list of confidence/accuracy pairs, whatever their values; for
    no pairs it is 0. *)
Theorem confidence_calibration_range (pairs : list (R * R)) :
  0 <= Reasoning._calculate_confidence_calibration pairs <= 1
  /\ Reasoning._calculate_confidence_calibration [] = 0.
Proof.
  split; [|reflexivity].
  unfold Reasoning._calculate_confidence_calibration.
  destruct pairs as [|p pairs]; [lra|].
  destruct (fold_left Reasoning.bucket_step (p :: pairs) ([], [], []))
    as [[low medium] high].
  assert (Hnonneg :
    Forall (fun x => 0 <= x)
      (Reasoning.bucket_error low 0.25 ++ Reasoning.bucket_error medium 0.65
       ++ Reasoning.bucket_error high 0.9)).
  { repeat (apply Forall_app; split); apply bucket_error_nonneg. }
  destruct (Reasoning.bucket_error low 0.25 ++ _) as [|e errors] eqn:Herrors;
    [lra|].
  split; [apply Rmax_l|].
  apply Rmax_lub; [lra|].
  assert (Hsum : 0 <= Py.sum (e :: errors)) by (apply sum_nonneg, Hnonneg).
  assert (Hlen : 0 < INR (length (e :: errors))).
  { apply lt_0_INR. simpl. lia. }
  assert (Havg : 0 <= Py.sum (e :: errors) / INR (length (e :: errors))).
  { apply Rmult_le_pos; [exact Hsum|].
    apply Rlt_le, Rinv_0_lt_compat, Hlen. }
  lra.
Qed.

(* ================================================================== *)
(** ** Further properties: counting dicts                              *)
(* ================================================================== *)

Lemma dict_get_set {V : Type} (d : list (string * V)) (k k' : string)
  (v : V) :
  dict_get (Dict.set d k v) k'
  = if String.eqb k' k then Some v else dict_get d k'.
Proof.
  induction d as [|[k1 v1] d IH]; simpl.
  - reflexivity.
  - destruct (String.eqb_spec k k1) as [Heq|Hne]; simpl.
    + subst k1. destruct (String.eqb k' k); reflexivity.
    + destruct (String.eqb_spec k' k1) as [Heq'|Hne'].
      * subst k1. destruct (String.eqb_spec k' k); [congruence|reflexivity].
      * exact IH.
Qed.

Lemma fold_left_map_keys {A B C : Type} (f : A -> B -> A) (g : C -> B)
  (l : list C) (a : A) :
  fold_left (fun acc x => f acc (g x)) l a = fold_left f (map g l) a.
Proof.
  revert a. induction l as [|x l IH]; intros a; simpl; [reflexivity|].
  apply IH.
Qed.

Lemma filter_map_length {A B : Type} (p : B -> bool) (g : A -> B)
  (l : list A) :
  length (filter p (map g l)) = length (filter (fun x => p (g x)) l).
Proof.
  induction l as [|x l IH]; simpl; [reflexivity|].
  destruct (p (g x)); simpl; congruence.
Qed.

Lemma entry_S (n : nat) : Tally.entry (S n) = Some (Z.of_nat n + 1)%Z.
Proof. unfold Tally.entry. f_equal. lia. Qed.

(** The counting idiom tallies the keys. *)
Lemma count_keys (keys : list string) (k : string) :
  dict_get (fold_left Dict.count keys []) k
  = Tally.entry (length (filter (fun key => String.eqb key k) keys)).
Proof.
  revert k. induction keys as [|k0 keys IH] using rev_ind; intros k.
  - reflexivity.
  - rewrite fold_left_app. cbn [fold_left].
    unfold Dict.count at 1. rewrite dict_get_set.
    rewrite filter_app, length_app. cbn [filter].
    rewrite (String.eqb_sym k k0).
    destruct (String.eqb_spec k0 k) as [Heq|Hne].
    + subst k0. rewrite IH. cbn [length].
      rewrite Nat.add_1_r, entry_S.
      destruct (length (filter (fun key => String.eqb key k) keys));
        cbn [Tally.entry]; f_equal; lia.
    + cbn [length]. rewrite Nat.add_0_r. apply IH.
Qed.

Lemma fold_left_Zadd (l : list Z) (a : Z) :
  fold_left Z.add l a = (a + fold_left Z.add l 0)%Z.
Proof.
  revert a. induction l as [|x l IH]; intros a; simpl; [lia|].
  rewrite IH, (IH x). lia.
Qed.

Lemma sum_values_cons (k : string) (v : Z) (d : list (string * Z)) :
  Tally.sum_values ((k, v) :: d) = (v + Tally.sum_values d)%Z.
Proof.
  unfold Tally.sum_values, Dict.values. simpl. apply fold_left_Zadd.
Qed.

Lemma sum_values_set (d : list (string * Z)) (k : string) (v : Z) :
  Tally.sum_values (Dict.set d k v)
  = (Tally.sum_values d
     - match dict_get d k with Some n => n | None => 0 end + v)%Z.
Proof.
  induction d as [|[k1 v1] d IH]; simpl.
  - unfold Tally.sum_values. simpl. lia.
  - destruct (String.eqb k k1).
    + rewrite !sum_values_cons. lia.
    + rewrite !sum_values_cons, IH. lia.
Qed.

Lemma sum_values_count (keys : list string) :
  Tally.sum_values (fold_left Dict.count keys []) = Z.of_nat (length keys).
Proof.
  induction keys as [|k0 keys IH] using rev_ind.
  - reflexivity.
  - rewrite fold_left_app, length_app. cbn [fold_left length].
    unfold Dict.count at 1. rewrite sum_values_set, IH. lia.
Qed.

Lemma count_factor_types_keys (counts : list (string * Z))
  (factors : list ReasoningFactor.t) :
  Reasoning.count_factor_types counts factors
  = fold_left Dict.count
      (map (fun f => ReasoningFactorType.value (ReasoningFactor.factor_type f))
         factors)
      counts.
Proof.
  unfold Reasoning.count_factor_types.
  apply (fold_left_map_keys Dict.count).
Qed.

Lemma aggregation_fold (results : list ReasoningHistory.t)
  (decisions : list (string * Z)) (confidence : R)
  (types : list (string * Z)) :
  fold_left Reasoning.aggregation_step results (decisions, confidence, types)
  = (fold_left Dict.count
       (map (fun h => AIReasoningResult.decision
                        (ReasoningHistory.reasoning_result h)) results)
       decisions,
     confidence
     + Spec.total
         (map (fun h => AIReasoningResult.confidence_score
                          (ReasoningHistory.reasoning_result h)) results),
     fold_left Dict.count
       (map (fun f => ReasoningFactorType.value
                        (ReasoningFactor.factor_type f))
          (Reasoning.all_factors results))
       types).
Proof.
  revert decisions confidence types.
  induction results as [|h results IH]; intros decisions confidence types.
  - simpl. f_equal. f_equal. lra.
  - cbn [fold_left]. unfold Reasoning.aggregation_step at 2.
    rewrite IH. cbn [map Spec.total fold_right fold_left Reasoning.all_factors
                     flat_map].
    rewrite count_factor_types_keys, map_app, fold_left_app.
    rewrite Rplus_assoc. reflexivity.
Qed.

(** X22. For a non-empty list of history records,
    [_calculate_search_aggregations] reports the number of records, for
    every decision the number of records with that decision (no entry
    for a decision that does not occur), for every factor type the
    number of factors of that type over all records, and the mean of
    the confidence scores; the decision counts add up to the number of
    records.  For an empty list it reports nothing. *)
Theorem search_aggregations_tally (results : list ReasoningHistory.t) :
  match Reasoning._calculate_search_aggregations results with
  | None => results = []
  | Some agg =>
      Reasoning.Aggregations.total_results agg = Z.of_nat (length results)
      /\ (forall d,
            dict_get (Reasoning.Aggregations.decision_distribution agg) d
            = Tally.entry (length (Tally.with_decision d results)))
      /\ (forall k,
            dict_get (Reasoning.Aggregations.factor_type_distribution agg) k
            = Tally.entry
                (length (Tally.of_type k (Reasoning.all_factors results))))
      /\ Reasoning.Aggregations.average_confidence agg
         = Spec.total
             (map (fun h => AIReasoningResult.confidence_score
                              (ReasoningHistory.reasoning_result h)) results)
           / INR (length results)
      /\ Tally.sum_values (Reasoning.Aggregations.decision_distribution agg)
         = Reasoning.Aggregations.total_results agg
  end.
Proof.
  unfold Reasoning._calculate_search_aggregations.
  destruct results as [|h results]; [reflexivity|].
  rewrite aggregation_fold.
  cbn [Reasoning.Aggregations.total_results
       Reasoning.Aggregations.decision_distribution
       Reasoning.Aggregations.factor_type_distribution
       Reasoning.Aggregations.average_confidence].
  split; [reflexivity|].
  split; [|split; [|split]].
  - intros d. rewrite count_keys, filter_map_length. reflexivity.
  - intros k. rewrite count_keys, filter_map_length. reflexivity.
  - rewrite Rplus_0_l. reflexivity.
  - rewrite sum_values_count, length_map. reflexivity.
Qed.

(* ================================================================== *)
(** ** Further properties: factor importance                           *)
(* ================================================================== *)

Lemma of_type_snoc (k : string) (factors : list ReasoningFactor.t)
  (f : ReasoningFactor.t) :
  Tally.of_type k (factors ++ [f])
  = Tally.of_type k factors
    ++ (if String.eqb
             (ReasoningFactorType.value (ReasoningFactor.factor_type f)) k
        then [f] else []).
Proof. unfold Tally.of_type. rewrite filter_app. reflexivity. Qed.

Lemma total_app (l1 l2 : list R) :
  Spec.total (l1 ++ l2) = Spec.total l1 + Spec.total l2.
Proof.
  unfold Spec.total. induction l1 as [|x l1 IH]; simpl; [lra|].
  rewrite IH. lra.
Qed.

(** The two dicts of [_calculate_factor_importance] after the factors
    [seen]: the sum of the absolute impacts and the count, per type. *)
Lemma importance_fold (factors seen : list ReasoningFactor.t)
  (impacts : list (string * R)) (counts : list (string * Z)) :
  (forall k,
     match Tally.of_type k seen with
     | [] => dict_get impacts k = None /\ dict_get counts k = None
     | fs =>
         dict_get impacts k
         = Some (Spec.total (map (fun f => Rabs (ReasoningFactor.impact f)) fs))
         /\ dict_get counts k = Some (Z.of_nat (length fs))
     end) ->
  exists impacts' counts',
    Reasoning.fold_result Reasoning.importance_step factors (impacts, counts)
    = Ok (impacts', counts')
    /\ forall k,
         match Tally.of_type k (seen ++ factors) with
         | [] => dict_get impacts' k = None /\ dict_get counts' k = None
         | fs =>
             dict_get impacts' k
             = Some (Spec.total
                       (map (fun f => Rabs (ReasoningFactor.impact f)) fs))
             /\ dict_get counts' k = Some (Z.of_nat (length fs))
         end.
Proof.
  revert seen impacts counts.
  induction factors as [|f factors IH]; intros seen impacts counts Hinv.
  - exists impacts, counts. split; [reflexivity|].
    rewrite app_nil_r. exact Hinv.
  - cbn [Reasoning.fold_result].
    set (k0 := ReasoningFactorType.value (ReasoningFactor.factor_type f)).
    assert (Hstep :
      exists impacts1 counts1,
        Reasoning.importance_step (impacts, counts) f = Ok (impacts1, counts1)
        /\ forall k,
             match Tally.of_type k (seen ++ [f]) with
             | [] => dict_get impacts1 k = None /\ dict_get counts1 k = None
             | fs =>
                 dict_get impacts1 k
                 = Some (Spec.total
                           (map (fun f => Rabs (ReasoningFactor.impact f)) fs))
                 /\ dict_get counts1 k = Some (Z.of_nat (length fs))
             end).
    { unfold Reasoning.importance_step. fold k0.
      pose proof (Hinv k0) as H0.
      destruct (Tally.of_type k0 seen) as [|g gs] eqn:Hseen.
      - destruct H0 as [Hi Hc]. rewrite Hi.
        unfold dict_getitem. rewrite !dict_get_set, String.eqb_refl.
        cbn [bind].
        eexists. eexists. split; [reflexivity|].
        intros k. rewrite of_type_snoc. fold k0.
        rewrite !dict_get_set.
        destruct (String.eqb_spec k0 k) as [Heq|Hne].
        + subst k. rewrite String.eqb_refl, Hseen.
          cbn [app map Spec.total fold_right length].
          split; f_equal; lra.
        + rewrite (proj2 (String.eqb_neq k k0)) by congruence.
          rewrite app_nil_r. apply Hinv.
      - destruct H0 as [Hi Hc]. rewrite Hi.
        unfold dict_getitem. rewrite Hi, Hc. cbn [bind].
        eexists. eexists. split; [reflexivity|].
        intros k. rewrite of_type_snoc. fold k0.
        rewrite !dict_get_set.
        destruct (String.eqb_spec k0 k) as [Heq|Hne].
        + subst k. rewrite String.eqb_refl, Hseen.
          destruct ((g :: gs) ++ [f]) as [|g' gs'] eqn:Happ;
            [destruct gs; discriminate|].
          rewrite <- Happ.
          rewrite map_app, total_app, length_app.
          cbn [map Spec.total fold_right length].
          split; f_equal; [lra | lia].
        + rewrite (proj2 (String.eqb_neq k k0)) by congruence.
          rewrite app_nil_r. apply Hinv. }
    destruct Hstep as [impacts1 [counts1 [Hstep Hinv1]]].
    rewrite Hstep. cbn [bind].
    destruct (IH (seen ++ [f]) impacts1 counts1 Hinv1)
      as [impacts' [counts' [Hfold Hinv']]].
    exists impacts', counts'. split; [exact Hfold|].
    rewrite <- app_assoc in Hinv'. exact Hinv'.
Qed.

Lemma dict_get_In {V : Type} (d : list (string * V)) (k : string) (v : V) :
  In (k, v) d -> exists v', dict_get d k = Some v'.
Proof.
  induction d as [|[k1 v1] d IH]; simpl; [contradiction|].
  intros [Heq|Hin].
  - inversion Heq. subst. rewrite String.eqb_refl. exists v. reflexivity.
  - destruct (String.eqb k k1); [exists v1; reflexivity | apply IH, Hin].
Qed.

Lemma importance_entries (impacts : list (string * R))
  (counts : list (string * Z)) :
  (forall k t, dict_get impacts k = Some t ->
               exists c, dict_get counts k = Some c) ->
  exists importance,
    map_result
      (fun entry =>
         let '(factor_type, total_impact) := entry in
         count <- dict_getitem counts factor_type ;;
         Ok (factor_type,
             if (0 <? count)%Z then total_impact / IZR count else 0))
      impacts
    = Ok importance
    /\ forall k,
         dict_get importance k
         = match dict_get impacts k, dict_get counts k with
           | Some t, Some c => Some (if (0 <? c)%Z then t / IZR c else 0)
           | _, _ => None
           end.
Proof.
  intros Hcounts.
  assert (Hall : forall k t, In (k, t) impacts ->
                             exists c, dict_get counts k = Some c).
  { intros k t Hin. destruct (dict_get_In _ _ _ Hin) as [t' Ht'].
    eapply Hcounts, Ht'. }
  clear Hcounts.
  induction impacts as [|[k0 t0] impacts IH]; cbn [map_result].
  - exists []. split; reflexivity.
  - destruct (Hall k0 t0) as [c0 Hc0]; [left; reflexivity|].
    unfold dict_getitem at 1. rewrite Hc0. cbn [bind].
    destruct IH as [importance [Hok Hget]].
    { intros k t Hin. apply (Hall k t). right. exact Hin. }
    rewrite Hok. cbn [bind].
    eexists. split; [reflexivity|].
    intros k. cbn [dict_get].
    destruct (String.eqb_spec k k0) as [Heq|Hne].
    + subst k. rewrite Hc0. reflexivity.
    + apply Hget.
Qed.

(** X23. [_calculate_factor_importance] never raises, and its result
    maps every factor type that occurs in the history to the mean of
    the absolute impacts of the factors of that type over all records;
    a type that does not occur has no entry. *)
Theorem factor_importance_mean (results : list ReasoningHistory.t) :
  exists importance,
    Reasoning._calculate_factor_importance results = Ok importance
    /\ forall k,
         dict_get importance k
         = match Tally.of_type k (Reasoning.all_factors results) with
           | [] => None
           | fs => Some (Tally.mean_abs_impact fs)
           end.
Proof.
  unfold Reasoning._calculate_factor_importance.
  destruct (importance_fold (Reasoning.all_factors results) [] [] [])
    as [impacts [counts [Hfold Hinv]]].
  { intros k. split; reflexivity. }
  rewrite Hfold. cbn [bind]. cbn [app] in Hinv.
  destruct (importance_entries impacts counts) as [importance [Hok Hget]].
  { intros k t Ht. specialize (Hinv k).
    destruct (Tally.of_type k (Reasoning.all_factors results)).
    - destruct Hinv as [Hi _]. congruence.
    - destruct Hinv as [_ Hc]. eexists. exact Hc. }
  exists importance. split; [exact Hok|].
  intros k. rewrite Hget. specialize (Hinv k).
  destruct (Tally.of_type k (Reasoning.all_factors results)) as [|f fs].
  - destruct Hinv as [Hi _]. rewrite Hi. reflexivity.
  - destruct Hinv as [Hi Hc]. rewrite Hi, Hc.
    assert (Hpos : (0 <? Z.of_nat (length (f :: fs)))%Z = true).
    { apply Z.ltb_lt. simpl. lia. }
    rewrite Hpos. unfold Tally.mean_abs_impact.
    rewrite INR_IZR_INZ. reflexivity.
Qed.

(* ================================================================== *)
(** ** Further properties: failure modes and suggestions               *)
(* ================================================================== *)

Lemma set_Forall_snd {V : Type} (P : V -> Prop) (d : list (string * V))
  (k : string) (v : V) :
  Forall (fun e => P (snd e)) d -> P v ->
  Forall (fun e => P (snd e)) (Dict.set d k v).
Proof.
  intros Hd Hv. induction Hd as [|[k1 v1] d H1 Hd IH]; simpl.
  - constructor; [exact Hv | constructor].
  - destruct (String.eqb k k1); constructor; simpl; assumption.
Qed.

Lemma dict_get_Forall_snd {V : Type} (P : V -> Prop) (d : list (string * V))
  (k : string) (v : V) :
  Forall (fun e => P (snd e)) d -> dict_get d k = Some v -> P v.
Proof.
  induction 1 as [|[k1 v1] d H1 _ IH]; simpl; [discriminate|].
  destruct (String.eqb k k1); [|exact IH].
  intros H. inversion H. subst. exact H1.
Qed.

Lemma count_positive (keys : list string) :
  Forall (fun e => (0 < snd e)%Z) (fold_left Dict.count keys []).
Proof.
  induction keys as [|k0 keys IH] using rev_ind.
  - constructor.
  - rewrite fold_left_app. cbn [fold_left]. unfold Dict.count at 1.
    apply (set_Forall_snd (fun c => (0 < c)%Z)); [exact IH|].
    destruct (dict_get _ k0) as [n|] eqn:Hget; [|lia].
    pose proof (dict_get_Forall_snd (fun c => (0 < c)%Z) _ _ _ IH Hget)
      as Hn.
    cbv beta in Hn. lia.
Qed.

Lemma reliance_bound (total_factors : Z) (usage : list (string * Z)) :
  (0 < total_factors)%Z ->
  Forall (fun e => (0 < snd e)%Z) usage ->
  exists reliance,
    map_result
      (fun entry =>
         let '(factor_type, count) := entry in
         share <- truediv (IZR count) (IZR total_factors) ;;
         Ok (if Rltb 0.6 share
             then [("Over-reliance on " ++ factor_type ++ " factors")%string]
             else []))
      usage
    = Ok reliance
    /\ INR (length (concat reliance)) * (0.6 * IZR total_factors)
       <= IZR (Tally.sum_values usage).
Proof.
  intros Htotal Hpos.
  assert (HT : 0 < IZR total_factors) by (apply IZR_lt; exact Htotal).
  induction Hpos as [|[k c] usage Hc _ [reliance [Hok Hbound]]];
    cbn [map_result].
  - exists []. split; [reflexivity|].
    unfold Tally.sum_values. simpl. lra.
  - rewrite truediv_Ok by lra. cbn [bind]. rewrite Hok. cbn [bind].
    eexists. split; [reflexivity|].
    rewrite sum_values_cons, plus_IZR. cbn [concat].
    simpl in Hc. apply IZR_lt in Hc.
    destruct (Rltb 0.6 (IZR c / IZR total_factors)) eqn:Hshare.
    + apply Rltb_iff in Hshare.
      assert (Hq : IZR c / IZR total_factors * IZR total_factors = IZR c)
        by (field; lra).
      assert (Hc' : 0.6 * IZR total_factors < IZR c) by nra.
      cbn [app length]. rewrite S_INR. lra.
    + cbn [app]. lra.
Qed.

(** X24. [_identify_failure_modes] never raises, not even for a history
    without factors (the division by the number of factors is then never
    reached), and it reports at most one over-reliance message: after
    the optional low-confidence message there is at most one further
    entry. *)
Theorem failure_modes_total (results : list ReasoningHistory.t) :
  exists reliance,
    Reasoning._identify_failure_modes results
    = Ok ((if Rltb (INR (length results) * 0.3)
                (INR (length
                        (filter
                           (fun r =>
                              Rltb (AIReasoningResult.confidence_score
                                      (ReasoningHistory.reasoning_result r))
                                0.5)
                           results)))
           then ["High frequency of low-confidence decisions"%string]
           else [])
          ++ reliance)
    /\ (length reliance <= 1)%nat.
Proof.
  unfold Reasoning._identify_failure_modes.
  rewrite count_factor_types_keys.
  set (keys := map _ (Reasoning.all_factors results)).
  fold (Tally.sum_values (fold_left Dict.count keys [])).
  rewrite sum_values_count.
  assert (Hcases : keys = [] \/ (0 < Z.of_nat (length keys))%Z).
  { destruct keys; [left; reflexivity | right; simpl; lia]. }
  clearbody keys.
  destruct Hcases as [Hnil|Hlen].
  - subst keys. exists []. split; [reflexivity | simpl; lia].
  - destruct (reliance_bound _ _ Hlen (count_positive keys))
      as [reliance [Hok Hbound]].
    rewrite Hok. cbn [bind].
    exists (concat reliance). split; [reflexivity|].
    rewrite sum_values_count in Hbound.
    apply IZR_lt in Hlen.
    destruct (length (concat reliance)) as [|[|n]]; [lia | lia |].
    exfalso. rewrite !S_INR in Hbound.
    pose proof (pos_INR n). nra.
Qed.

(** X25. [_generate_improvement_suggestions] always returns between one
    and five suggestions; it returns the single all-is-well message
    exactly when the accuracy rate is at least 0.6, the calibration at
    least 0.7 and the factor importances are balanced (none given, or
    the largest at most three times the smallest). *)
Theorem improvement_suggestions_count (accuracy_rate confidence_calibration : R)
  (factor_importance : list (string * R)) :
  (1 <= length (Reasoning._generate_improvement_suggestions accuracy_rate
                  confidence_calibration factor_importance) <= 5)%nat
  /\ (Reasoning._generate_improvement_suggestions accuracy_rate
        confidence_calibration factor_importance
      = ["Performance is good - continue monitoring and fine-tuning"%string]
      <-> 0.6 <= accuracy_rate /\ 0.7 <= confidence_calibration
          /\ (factor_importance = []
              \/ Reasoning.py_max (Dict.values factor_importance)
                 <= Reasoning.py_min (Dict.values factor_importance) * 3)).
Proof.
  unfold Reasoning._generate_improvement_suggestions.
  destruct (Rltb accuracy_rate 0.6) eqn:Hacc;
    destruct (Rltb confidence_calibration 0.7) eqn:Hcal;
    (destruct factor_importance as [|e factor_importance];
     [|destruct (Rltb (Reasoning.py_min (Dict.values (e :: factor_importance))
                       * 3)
                   (Reasoning.py_max (Dict.values (e :: factor_importance))))
         eqn:Hbal]);
    cbn [app length];
    (split; [lia|]);
    try apply Rltb_iff in Hacc; try apply Rltb_iff in Hcal;
    try apply Rltb_iff in Hbal;
    try (apply not_true_iff_false in Hacc; rewrite Rltb_iff in Hacc);
    try (apply not_true_iff_false in Hcal; rewrite Rltb_iff in Hcal);
    try (apply not_true_iff_false in Hbal; rewrite Rltb_iff in Hbal);
    (split;
     [ try discriminate; intros _
     | intros [Ha [Hc Hb]]; try lra;
       try (destruct Hb as [Hb|Hb]; [discriminate | lra]) ]).
  - split; [lra|]. split; [lra|]. left. reflexivity.
  - reflexivity.
  - split; [lra|]. split; [lra|]. right. lra.
  - reflexivity.
Qed.

(* ================================================================== *)
(** ** Further properties: reading the reasoning store                 *)
(* ================================================================== *)

Lemma Forall2_Forall_transfer {A B : Type} (R : A -> B -> Prop)
  (P : A -> Prop) (Q : B -> Prop) (l : list A) (l' : list B) :
  (forall a b, R a b -> P a -> Q b) ->
  Forall2 R l l' -> Forall P l -> Forall Q l'.
Proof.
  intros H. induction 1 as [|a b l l' Hab _ IH]; intros Hl.
  - constructor.
  - inversion Hl; subst. constructor; [eapply H; eassumption | apply IH].
    assumption.
Qed.

Lemma Forall2_sorted {A B : Type} (R : A -> B -> Prop)
  (P : A -> A -> Prop) (Q : B -> B -> Prop) (l : list A) (l' : list B) :
  (forall a b a' b', R a a' -> R b b' -> P a b -> Q a' b') ->
  Forall2 R l l' -> StronglySorted P l -> StronglySorted Q l'.
Proof.
  intros H. induction 1 as [|a a' l l' Haa' Hll' IH]; intros Hs.
  - constructor.
  - inversion Hs as [|? ? Hs' Hall]; subst. constructor; [apply IH, Hs'|].
    eapply Forall2_Forall_transfer; [|exact Hll' | exact Hall].
    intros b b' Hbb' Hab. eapply H; eassumption.
Qed.

Lemma firstn_sorted {A : Type} (P : A -> A -> Prop) (n : nat) (l : list A) :
  StronglySorted P l -> StronglySorted P (firstn n l).
Proof.
  intros Hs. revert n. induction Hs as [|x l _ IH Hx]; intros [|n]; simpl;
    try constructor.
  - apply IH.
  - rewrite Forall_forall in *. intros y Hy. apply Hx.
    eapply firstn_incl, Hy.
Qed.

Lemma load_factor_Ok (row : Database.reasoning_factors_row)
  (f : ReasoningFactor.t) :
  ReasoningService.load_factor row = Ok f ->
  ReasoningFactor.weight f = Database.weight row
  /\ ReasoningFactor.valid f = true.
Proof.
  unfold ReasoningService.load_factor.
  destruct (ReasoningFactorType.of_value _) as [t|e]; cbn [bind];
    [|discriminate].
  unfold ReasoningFactor.new. intros H.
  apply validated_Ok in H. destruct H as [Hvalid Hf]. subst f.
  split; [reflexivity | exact Hvalid].
Qed.

Lemma select_factors_sorted (db : Database.t) (reasoning_id : string) :
  StronglySorted (fun a b => Database.weight a >= Database.weight b)
    (Database.select_factors db reasoning_id).
Proof.
  unfold Database.select_factors.
  destruct (Database.pool db); [apply sort_desc_sorted | constructor].
Qed.

Lemma get_reasoning_factors_Ok (db : Database.t) (reasoning_id : string)
  (factors : list ReasoningFactor.t) :
  ReasoningService._get_reasoning_factors db reasoning_id = Ok factors ->
  Spec.descending_weight factors
  /\ Forall (fun f => ReasoningFactor.valid f = true) factors.
Proof.
  unfold ReasoningService._get_reasoning_factors. intros H.
  apply map_result_Forall2 in H.
  split.
  - unfold Spec.descending_weight.
    eapply Forall2_sorted; [|exact H | apply select_factors_sorted].
    intros a b a' b' Ha Hb Hab. simpl in Hab.
    apply load_factor_Ok in Ha. apply load_factor_Ok in Hb.
    destruct Ha as [Ha _]. destruct Hb as [Hb _]. rewrite Ha, Hb. exact Hab.
  - eapply Forall2_Forall_transfer with (P := fun _ => True); [|exact H|].
    + intros a b Hab _. apply load_factor_Ok in Hab. apply Hab.
    + apply Forall_forall. intros; exact I.
Qed.

Lemma load_reasoning_Ok (db : Database.t)
  (row : Database.ai_reasoning_row * option Database.reasoning_context_row)
  (r : AIReasoningResult.t) :
  ReasoningService.load_reasoning db row = Ok r ->
  AIReasoningResult.moment_id r = Database.moment_id (fst row)
  /\ AIReasoningResult.timestamp r = Database.created_at (fst row)
  /\ 0 <= AIReasoningResult.confidence_score r <= 1
  /\ Spec.descending_weight (AIReasoningResult.factors r)
  /\ Forall (fun f => ReasoningFactor.valid f = true)
       (AIReasoningResult.factors r)
  /\ exists rc, snd row = Some rc.
Proof.
  unfold ReasoningService.load_reasoning.
  destruct (ReasoningService._get_reasoning_factors db _) as [factors|e]
    eqn:Hfactors; cbn [bind]; [|discriminate].
  destruct (snd row) as [rc|]; [|discriminate].
  unfold AIReasoningResult.new. intros H.
  apply validated_Ok in H. destruct H as [Hconf Hr]. subst r.
  cbn [AIReasoningResult.confidence_score] in Hconf.
  apply ge_le_iff in Hconf.
  destruct (get_reasoning_factors_Ok _ _ _ Hfactors) as [Hsorted Hvalid].
  cbn [AIReasoningResult.moment_id AIReasoningResult.timestamp
       AIReasoningResult.confidence_score AIReasoningResult.factors].
  repeat split; try assumption; try lra.
  exists rc. reflexivity.
Qed.

Lemma joined_rows (db : Database.t) (moment : string)
  (p : Database.ai_reasoning_row * option Database.reasoning_context_row) :
  In p (flat_map (Database.left_join_context db)
          (filter (fun r => String.eqb (Database.moment_id r) moment)
             (Database.ai_reasoning db))) ->
  In (fst p) (Database.ai_reasoning db)
  /\ Database.moment_id (fst p) = moment
  /\ In p (Database.left_join_context db (fst p)).
Proof.
  intros H. apply in_flat_map in H. destruct H as [r0 [Hr0 Hp]].
  rewrite (left_join_fst _ _ _ Hp).
  apply filter_In in Hr0. destruct Hr0 as [Hin Hmoment].
  apply String.eqb_eq in Hmoment.
  split; [exact Hin|]. split; [exact Hmoment | exact Hp].
Qed.

Lemma selected_rows (db : Database.t) (moment : string) (limit : Z)
  (rows : list (Database.ai_reasoning_row
                * option Database.reasoning_context_row)) :
  Database.select_reasoning_by_moment db moment limit = Ok rows ->
  Forall (fun p => In (fst p) (Database.ai_reasoning db)
                   /\ Database.moment_id (fst p) = moment
                   /\ In p (Database.left_join_context db (fst p))) rows
  /\ StronglySorted
       (fun a b => IZR (Database.created_at (fst a))
                   >= IZR (Database.created_at (fst b))) rows
  /\ (Z.of_nat (length rows) <= Z.max 0 limit)%Z.
Proof.
  unfold Database.select_reasoning_by_moment.
  destruct (Database.pool db).
  2:{ intros H. inversion H. split; [constructor|].
      split; [constructor | simpl; lia]. }
  destruct (limit <? 0)%Z eqn:Hlimit; [discriminate|].
  apply Z.ltb_ge in Hlimit.
  intros H. inversion H as [Hrows]. clear H.
  split; [|split].
  - apply Forall_forall. intros p Hp.
    apply firstn_incl in Hp.
    apply (Permutation_in _ (sort_desc_perm _ _)) in Hp.
    apply joined_rows. exact Hp.
  - apply firstn_sorted. apply sort_desc_sorted.
  - rewrite length_firstn. lia.
Qed.

(** X26. Whatever the store holds, every record that
    [get_reasoning_by_moment] returns belongs to the moment asked for,
    has a confidence in [0,1] and valid factors in descending order of
    weight; the records come newest first, and there are at most
    [limit] of them (none for a negative limit). *)
Theorem get_reasoning_by_moment_shape (db : Database.t) (moment : string)
  (limit : Z) :
  Forall
    (fun r =>
       AIReasoningResult.moment_id r = moment
       /\ 0 <= AIReasoningResult.confidence_score r <= 1
       /\ Spec.descending_weight (AIReasoningResult.factors r)
       /\ Forall (fun f => ReasoningFactor.valid f = true)
            (AIReasoningResult.factors r))
    (ReasoningService.get_reasoning_by_moment db moment limit)
  /\ StronglySorted
       (fun a b =>
          (AIReasoningResult.timestamp b <= AIReasoningResult.timestamp a)%Z)
       (ReasoningService.get_reasoning_by_moment db moment limit)
  /\ (Z.of_nat
        (length (ReasoningService.get_reasoning_by_moment db moment limit))
      <= Z.max 0 limit)%Z.
Proof.
  unfold ReasoningService.get_reasoning_by_moment.
  destruct (Database.select_reasoning_by_moment db moment limit)
    as [rows|e] eqn:Hselect; cbn [bind].
  2:{ split; [constructor|]. split; [constructor | simpl; lia]. }
  destruct (map_result (ReasoningService.load_reasoning db) rows)
    as [results|e] eqn:Hload.
  2:{ split; [constructor|]. split; [constructor | simpl; lia]. }
  destruct (selected_rows _ _ _ _ Hselect) as [Hrows [Hsorted Hlen]].
  pose proof (map_result_Ok_length _ _ _ Hload) as Hlength.
  apply map_result_Forall2 in Hload.
  split; [|split].
  - eapply Forall2_Forall_transfer; [|exact Hload | exact Hrows].
    intros p r Hr [_ [Hmoment _]].
    apply load_reasoning_Ok in Hr.
    destruct Hr as [Hm [_ [Hc [Hs [Hv _]]]]].
    rewrite Hm. repeat split; try assumption; apply Hc.
  - eapply Forall2_sorted; [|exact Hload | exact Hsorted].
    intros a b a' b' Ha Hb Hab. simpl in Hab.
    apply load_reasoning_Ok in Ha. apply load_reasoning_Ok in Hb.
    destruct Ha as [_ [Ha _]]. destruct Hb as [_ [Hb _]].
    rewrite Ha, Hb. apply le_IZR. lra.
  - rewrite Hlength. exact Hlen.
Qed.

(** X27. A read is all or nothing: when one of the rows selected for
    the moment has no context row, [get_reasoning_by_moment] returns the
    empty list, and the complete records selected with it are lost to
    the caller as well. *)
Theorem get_reasoning_all_or_nothing (db : Database.t) (moment : string)
  (limit : Z)
  (rows : list (Database.ai_reasoning_row
                * option Database.reasoning_context_row)) :
  Database.select_reasoning_by_moment db moment limit = Ok rows ->
  Exists (fun row => snd row = None) rows ->
  ReasoningService.get_reasoning_by_moment db moment limit = [].
Proof.
  intros Hselect Hnone.
  unfold ReasoningService.get_reasoning_by_moment.
  rewrite Hselect. cbn [bind].
  destruct (map_result (ReasoningService.load_reasoning db) rows)
    as [results|e] eqn:Hload; [|reflexivity].
  exfalso. apply map_result_Forall2 in Hload.
  apply Exists_exists in Hnone. destruct Hnone as [row [Hin Hrow]].
  clear Hselect. induction Hload as [|p r rows results Hp _ IH].
  - contradiction.
  - destruct Hin as [Heq|Hin]; [|exact (IH Hin)].
    subst p. apply load_reasoning_Ok in Hp.
    destruct Hp as [_ [_ [_ [_ [_ [rc Hrc]]]]]]. congruence.
Qed.

Lemma partial_db_rows :
  Database.select_reasoning_by_moment Samples.partial_db "moment_123" 10
  = Ok [(Samples.orphan_row, None);
        (Samples.complete_row,
         Some (ReasoningService.context_row "id-1" Examples.reasoning))].
Proof.
  unfold Database.select_reasoning_by_moment, Samples.partial_db.
  cbn. destruct (Rle_dec 20 10) as [H|H]; [exfalso; lra | reflexivity].
Qed.

Lemma get_reasoning_all_or_nothing_witness :
  ReasoningService.get_reasoning_by_moment Samples.partial_db "moment_123" 10
  = [].
Proof.
  apply (get_reasoning_all_or_nothing _ _ _ _ partial_db_rows).
  left. reflexivity.
Defined.

(* ================================================================== *)
(** ** The round trip needs its preconditions                          *)
(* ================================================================== *)

Lemma loaded_rows_have_context (db : Database.t)
  (rows : list (Database.ai_reasoning_row
                * option Database.reasoning_context_row))
  (results : list AIReasoningResult.t) :
  map_result (ReasoningService.load_reasoning db) rows = Ok results ->
  Forall (fun row => exists rc, snd row = Some rc) rows.
Proof.
  intros Hload. apply map_result_Forall2 in Hload.
  induction Hload as [|p r rows results Hp _ IH]; constructor; [|exact IH].
  apply load_reasoning_Ok in Hp. apply Hp.
Qed.


(* ================================================================== *)
(** ** Further properties: writes and later reads                      *)
(* ================================================================== *)

Lemma map_result_ext_In {A B : Type} (f g : A -> result B) (l : list A) :
  (forall x, In x l -> f x = g x) -> map_result f l = map_result g l.
Proof.
  induction l as [|x l IH]; simpl; intros H; [reflexivity|].
  rewrite (H x) by (left; reflexivity).
  rewrite IH; [reflexivity|]. intros y Hy. apply H. right. exact Hy.
Qed.

(** *** What a write, complete or not, adds to the store *)

Lemma extended_refl (reasoning_id moment : string) (db : Database.t) :
  Spec.extended_by reasoning_id moment db db.
Proof.
  split; [reflexivity|].
  split; [|split]; exists []; rewrite app_nil_r;
    (split; [reflexivity | constructor]).
Qed.

Lemma extended_trans (reasoning_id moment : string)
  (db db1 db2 : Database.t) :
  Spec.extended_by reasoning_id moment db db1 ->
  Spec.extended_by reasoning_id moment db1 db2 ->
  Spec.extended_by reasoning_id moment db db2.
Proof.
  intros [Hp1 [[rows1 [Hr1 Hrows1]] [[fs1 [Hf1 Hfs1]] [cs1 [Hc1 Hcs1]]]]]
         [Hp2 [[rows2 [Hr2 Hrows2]] [[fs2 [Hf2 Hfs2]] [cs2 [Hc2 Hcs2]]]]].
  split; [congruence|].
  split; [|split].
  - exists (rows1 ++ rows2). rewrite Hr2, Hr1, app_assoc.
    split; [reflexivity | apply Forall_app; split; assumption].
  - exists (fs1 ++ fs2). rewrite Hf2, Hf1, app_assoc.
    split; [reflexivity | apply Forall_app; split; assumption].
  - exists (cs1 ++ cs2). rewrite Hc2, Hc1, app_assoc.
    split; [reflexivity | apply Forall_app; split; assumption].
Qed.

Lemma execute_extended (reasoning_id moment : string) (fails : bool)
  (insert : Database.t -> Database.t) (db : Database.t) :
  Spec.extended_by reasoning_id moment db (insert db) ->
  Spec.extended_by reasoning_id moment db
    (snd (Database.execute fails insert db)).
Proof.
  intros H. unfold Database.execute.
  destruct (Database.pool db && fails); [apply extended_refl | exact H].
Qed.

Lemma insert_reasoning_extended (db : Database.t)
  (row : Database.ai_reasoning_row) :
  Spec.extended_by (Database.id row) (Database.moment_id row) db
    (Database.insert_reasoning db row).
Proof.
  unfold Database.insert_reasoning.
  destruct (Database.pool db) eqn:Hpool; [|apply extended_refl].
  split; [simpl; congruence|].
  split; [|split]; simpl.
  - exists [row]. split; [reflexivity|].
    constructor; [split; reflexivity | constructor].
  - exists []. rewrite app_nil_r. split; [reflexivity | constructor].
  - exists []. rewrite app_nil_r. split; [reflexivity | constructor].
Qed.

Lemma insert_factor_extended (moment : string) (db : Database.t)
  (row : Database.reasoning_factors_row) :
  Spec.extended_by (Database.factor_reasoning_id row) moment db
    (Database.insert_factor db row).
Proof.
  unfold Database.insert_factor.
  destruct (Database.pool db) eqn:Hpool; [|apply extended_refl].
  split; [simpl; congruence|].
  split; [|split]; simpl.
  - exists []. rewrite app_nil_r. split; [reflexivity | constructor].
  - exists [row]. split; [reflexivity|].
    constructor; [reflexivity | constructor].
  - exists []. rewrite app_nil_r. split; [reflexivity | constructor].
Qed.

Lemma insert_context_extended (moment : string) (db : Database.t)
  (row : Database.reasoning_context_row) :
  Spec.extended_by (Database.context_reasoning_id row) moment db
    (Database.insert_context db row).
Proof.
  unfold Database.insert_context.
  destruct (Database.pool db) eqn:Hpool; [|apply extended_refl].
  split; [simpl; congruence|].
  split; [|split]; simpl.
  - exists []. rewrite app_nil_r. split; [reflexivity | constructor].
  - exists []. rewrite app_nil_r. split; [reflexivity | constructor].
  - exists [row]. split; [reflexivity|].
    constructor; [reflexivity | constructor].
Qed.

Lemma store_factors_extended (fails : nat -> bool) (k : nat)
  (reasoning_id moment : string) (factors : list ReasoningFactor.t)
  (db : Database.t) :
  Spec.extended_by reasoning_id moment db
    (snd (ReasoningService.store_factors fails k reasoning_id factors db)).
Proof.
  revert k db. induction factors as [|f factors IH]; intros k db;
    cbn [ReasoningService.store_factors].
  - apply extended_refl.
  - pose proof (execute_extended reasoning_id moment (fails k)
                  (fun db => Database.insert_factor db
                               (ReasoningService.factor_row reasoning_id f))
                  db
                  (insert_factor_extended moment db
                     (ReasoningService.factor_row reasoning_id f))) as Hexec.
    destruct (Database.execute (fails k) _ db) as [[u|e] db1];
      cbn [snd] in *.
    + eapply extended_trans; [exact Hexec | apply IH].
    + exact Hexec.
Qed.

(** Whatever statement fails, a write adds only rows of its own
    identifier and moment. *)
Lemma store_reasoning_extended (db : Database.t) (fails : nat -> bool)
  (reasoning_id : string) (now : Z) (r : AIReasoningResult.t)
  (user_id : option string) :
  Spec.extended_by reasoning_id (AIReasoningResult.moment_id r) db
    (snd (ReasoningService.store_reasoning db fails reasoning_id now r
            user_id)).
Proof.
  unfold ReasoningService.store_reasoning.
  pose proof (execute_extended reasoning_id (AIReasoningResult.moment_id r)
                (fails 0%nat)
                (fun db => Database.insert_reasoning db
                             (ReasoningService.reasoning_row reasoning_id now
                                r user_id))
                db
                (insert_reasoning_extended db
                   (ReasoningService.reasoning_row reasoning_id now r
                      user_id))) as H1.
  destruct (Database.execute (fails 0%nat) _ db) as [[u1|e] db1];
    cbn [snd] in *; [|exact H1].
  pose proof (store_factors_extended fails 1 reasoning_id
                (AIReasoningResult.moment_id r)
                (AIReasoningResult.factors r) db1) as H2.
  destruct (ReasoningService.store_factors fails 1 reasoning_id _ db1)
    as [[u2|e] db2]; cbn [snd] in *;
    [|eapply extended_trans; eassumption].
  pose proof (execute_extended reasoning_id (AIReasoningResult.moment_id r)
                (fails (S (length (AIReasoningResult.factors r))))
                (fun db => Database.insert_context db
                             (ReasoningService.context_row reasoning_id r))
                db2
                (insert_context_extended (AIReasoningResult.moment_id r) db2
                   (ReasoningService.context_row reasoning_id r))) as H3.
  destruct (Database.execute (fails _) _ db2) as [[u3|e] db3];
    cbn [snd] in *;
    (eapply extended_trans; [exact H1|];
     eapply extended_trans; eassumption).
Qed.

Lemma extended_select_factors (reasoning_id moment other : string)
  (db db' : Database.t) :
  Spec.extended_by reasoning_id moment db db' ->
  other <> reasoning_id ->
  Database.select_factors db' other = Database.select_factors db other.
Proof.
  intros [Hpool [_ [[fs [Hfs Hkeyed]] _]]] Hne.
  unfold Database.select_factors. rewrite Hpool, Hfs, filter_app.
  rewrite (filter_none _ fs); [rewrite app_nil_r; reflexivity|].
  eapply Forall_impl; [|exact Hkeyed]. intros f Hf. simpl in Hf.
  apply String.eqb_neq. rewrite Hf. intros Heq. apply Hne. symmetry.
  exact Heq.
Qed.

Lemma extended_left_join (reasoning_id moment : string)
  (db db' : Database.t) (other : Database.ai_reasoning_row) :
  Spec.extended_by reasoning_id moment db db' ->
  Database.id other <> reasoning_id ->
  Database.left_join_context db' other = Database.left_join_context db other.
Proof.
  intros [_ [_ [_ [cs [Hcs Hkeyed]]]]] Hne.
  unfold Database.left_join_context. rewrite Hcs, filter_app.
  rewrite (filter_none _ cs); [rewrite app_nil_r; reflexivity|].
  eapply Forall_impl; [|exact Hkeyed]. intros c Hc. simpl in Hc.
  apply String.eqb_neq. rewrite Hc. exact Hne.
Qed.

Lemma extended_select (reasoning_id moment other : string)
  (db db' : Database.t) (limit : Z) :
  Spec.extended_by reasoning_id moment db db' ->
  Spec.fresh_id db reasoning_id ->
  moment <> other ->
  Database.select_reasoning_by_moment db' other limit
  = Database.select_reasoning_by_moment db other limit.
Proof.
  intros Hext Hfresh Hmoment.
  pose proof (fun x => extended_left_join _ _ _ _ x Hext) as Hjoin.
  destruct Hext as [Hpool [[rows [Hrows Hkeyed]] _]].
  unfold Database.select_reasoning_by_moment.
  rewrite Hpool, Hrows, filter_app.
  rewrite (filter_none _ rows).
  2:{ eapply Forall_impl; [|exact Hkeyed]. intros x [_ Hx]. simpl.
      apply String.eqb_neq. rewrite Hx. exact Hmoment. }
  rewrite app_nil_r.
  destruct (Database.pool db); [|reflexivity].
  destruct (limit <? 0)%Z; [reflexivity|].
  do 3 f_equal. apply flat_map_ext_In.
  intros r0 Hr0. apply Hjoin.
  apply filter_In in Hr0. destruct Hr0 as [Hr0 _].
  destruct Hfresh as [Hids _]. rewrite Forall_forall in Hids.
  apply Hids. exact Hr0.
Qed.

(** X28. A write does not disturb the other moments: after a call of
    [store_reasoning] for a fresh identifier through a connected client,
    whether it returns or one of its statements fails, a read for any
    moment other than the one of the result returns what it returned
    before (rows of equal time stamp are taken in insertion order). *)
Theorem store_leaves_other_moments (db : Database.t) (fails : nat -> bool)
  (reasoning_id : string) (now : Z) (r : AIReasoningResult.t)
  (user_id : option string) (moment : string) (limit : Z) :
  Database.pool db = true ->
  Spec.fresh_id db reasoning_id ->
  AIReasoningResult.moment_id r <> moment ->
  ReasoningService.get_reasoning_by_moment
    (snd (ReasoningService.store_reasoning db fails reasoning_id now r
            user_id))
    moment limit
  = ReasoningService.get_reasoning_by_moment db moment limit.
Proof.
  intros Hpool Hfresh Hmoment.
  pose proof (store_reasoning_extended db fails reasoning_id now r user_id)
    as Hext.
  set (db' := snd (ReasoningService.store_reasoning db fails reasoning_id now
                     r user_id)) in *.
  unfold ReasoningService.get_reasoning_by_moment.
  rewrite (extended_select _ _ _ _ _ limit Hext Hfresh Hmoment).
  destruct (Database.select_reasoning_by_moment db moment limit)
    as [rows|e] eqn:Hselect; cbn [bind]; [|reflexivity].
  destruct (selected_rows _ _ _ _ Hselect) as [Hrows _].
  rewrite Forall_forall in Hrows.
  rewrite (map_result_ext_In (ReasoningService.load_reasoning db')
             (ReasoningService.load_reasoning db)); [reflexivity|].
  intros p Hp. destruct (Hrows p Hp) as [Hin _].
  unfold ReasoningService.load_reasoning,
    ReasoningService._get_reasoning_factors.
  rewrite (extended_select_factors _ _ _ _ _ Hext); [reflexivity|].
  destruct Hfresh as [Hids _]. rewrite Forall_forall in Hids.
  apply Hids. exact Hin.
Qed.

Lemma store_leaves_other_moments_witness :
  ReasoningService.get_reasoning_by_moment
    (snd (ReasoningService.store_reasoning Samples.one_record_db
            (fun k => Nat.eqb k 2) "id-2" 20 Samples.other_reasoning None))
    "moment_123" 10
  = ReasoningService.get_reasoning_by_moment Samples.one_record_db
      "moment_123" 10.
Proof.
  apply store_leaves_other_moments.
  - reflexivity.
  - exact one_record_db_fresh.
  - simpl. discriminate.
Defined.

Lemma select_factors_incl (db : Database.t) (reasoning_id : string) :
  incl (Database.select_factors db reasoning_id)
    (Database.reasoning_factors db).
Proof.
  unfold Database.select_factors.
  destruct (Database.pool db); [|intros x []].
  intros f Hf.
  apply (Permutation_in _ (sort_desc_perm _ _)) in Hf.
  apply filter_In in Hf. apply Hf.
Qed.

Lemma load_reasoning_consistent (db : Database.t)
  (r0 : Database.ai_reasoning_row)
  (p : Database.ai_reasoning_row * option Database.reasoning_context_row) :
  Spec.consistent db ->
  In r0 (Database.ai_reasoning db) ->
  In p (Database.left_join_context db r0) ->
  exists res, ReasoningService.load_reasoning db p = Ok res.
Proof.
  intros [Hrows Hfactors] Hr0 Hp.
  rewrite Forall_forall in Hrows. destruct (Hrows r0 Hr0) as [Hconf Hctx].
  destruct (left_join_has_context _ _ _ Hctx Hp) as [rc Hrc].
  pose proof (left_join_fst _ _ _ Hp) as Hfst.
  unfold ReasoningService.load_reasoning,
    ReasoningService._get_reasoning_factors.
  destruct (load_factor_ok_rows
              (Database.select_factors db (Database.id (fst p))))
    as [fs Hfs].
  { rewrite Forall_forall in *. intros f Hf.
    apply Hfactors. eapply select_factors_incl, Hf. }
  rewrite Hfs, Hrc. cbn [bind].
  unfold AIReasoningResult.new. cbn [AIReasoningResult.confidence_score].
  rewrite Hfst, Hconf. eexists. reflexivity.
Qed.

Lemma flat_map_length_ge {A B : Type} (f : A -> list B) (l : list A) :
  (forall x, (1 <= length (f x))%nat) ->
  (length l <= length (flat_map f l))%nat.
Proof.
  intros H. induction l as [|x l IH]; simpl; [lia|].
  rewrite length_app. specialize (H x). lia.
Qed.

Lemma left_join_nonempty (db : Database.t) (r0 : Database.ai_reasoning_row) :
  (1 <= length (Database.left_join_context db r0))%nat.
Proof.
  unfold Database.left_join_context.
  destruct (filter _ (Database.reasoning_context db)); simpl; lia.
Qed.

(** On a consistent connected store a read never takes the error path. *)
Lemma consistent_reads_complete (db : Database.t) (moment : string)
  (limit : Z) :
  Database.pool db = true ->
  Spec.consistent db ->
  (0 <= limit)%Z ->
  (Nat.min (Z.to_nat limit)
     (length
        (filter (fun r0 => String.eqb (Database.moment_id r0) moment)
           (Database.ai_reasoning db)))
   <= length (ReasoningService.get_reasoning_by_moment db moment limit))%nat.
Proof.
  intros Hpool Hcons Hlimit.
  unfold ReasoningService.get_reasoning_by_moment.
  destruct (Database.select_reasoning_by_moment db moment limit)
    as [rows|e] eqn:Hselect.
  2:{ unfold Database.select_reasoning_by_moment in Hselect.
      rewrite Hpool in Hselect.
      rewrite (proj2 (Z.ltb_ge limit 0) Hlimit) in Hselect. discriminate. }
  cbn [bind].
  destruct (selected_rows _ _ _ _ Hselect) as [Hrows _].
  destruct (map_result_all_Ok (ReasoningService.load_reasoning db) rows)
    as [results Hload].
  { eapply Forall_impl; [|exact Hrows].
    intros p [Hin [_ Hp]].
    eapply load_reasoning_consistent; eassumption. }
  rewrite Hload. rewrite (map_result_Ok_length _ _ _ Hload).
  unfold Database.select_reasoning_by_moment in Hselect.
  rewrite Hpool in Hselect.
  rewrite (proj2 (Z.ltb_ge limit 0) Hlimit) in Hselect.
  inversion Hselect as [Hrows']. clear Hselect.
  rewrite length_firstn, sort_desc_length.
  apply Nat.min_le_compat_l.
  apply flat_map_length_ge. intros r0. apply left_join_nonempty.
Qed.


Lemma other_reasoning_valid :
  AIReasoningResult.valid Samples.other_reasoning = true.
Proof.
  unfold AIReasoningResult.valid, ReasoningFactor.valid, Pydantic.ge_le.
  simpl. rsimp. reflexivity.
Qed.


(** X30. Through a client whose pool was never created, a write returns
    the drawn identifier as if it had succeeded but leaves the store
    unchanged, whatever the store would have done with the statements,
    and every later read returns the empty list; no exception reaches
    the caller. *)
Theorem disconnected_store_drops_writes (db : Database.t)
  (fails : nat -> bool) (reasoning_id : string) (now : Z)
  (r : AIReasoningResult.t) (user_id : option string) :
  Database.pool db = false ->
  ReasoningService.store_reasoning db fails reasoning_id now r user_id
  = (Ok reasoning_id, db)
  /\ forall (moment : string) (limit : Z),
       ReasoningService.get_reasoning_by_moment
         (snd (ReasoningService.store_reasoning db fails reasoning_id now r
                 user_id))
         moment limit
       = [].
Proof.
  intros Hpool.
  rewrite (store_reasoning_disconnected _ _ _ _ _ _ Hpool).
  split; [reflexivity|].
  intros moment limit. apply get_reasoning_disconnected. exact Hpool.
Qed.

Lemma disconnected_store_drops_writes_witness :
  ReasoningService.store_reasoning Samples.disconnected_db
    (fun _ => true) "id-1" 10 Examples.reasoning None
  = (Ok "id-1"%string, Samples.disconnected_db)
  /\ ReasoningService.get_reasoning_by_moment
       (snd (ReasoningService.store_reasoning Samples.disconnected_db
               (fun _ => true) "id-1" 10 Examples.reasoning None))
       "moment_123" 10
     = [].
Proof.
  destruct (disconnected_store_drops_writes Samples.disconnected_db
              (fun _ => true) "id-1" 10 Examples.reasoning None eq_refl)
    as [Hstore Hread].
  split; [exact Hstore | apply Hread].
Defined.
